(** * Dispensary Hub API: the transactional core of [backend/api/main.py]

    A shallow embedding of the FastAPI application: the SQLite tables as
    lists of rows in insertion order, the handlers as programs of a small
    monad that threads the database connection, the random identifiers and
    the clock, and raises the exceptions the Python code raises.  The
    theorems at the end are about these definitions. *)

From Stdlib Require Import List String Ascii Bool ZArith NArith Lia Floats DecimalString.
Import ListNotations.
Local Open Scope string_scope.

(** ** Time

    [datetime.now(timezone.utc)]: an aware datetime in UTC.  Python bounds
    the fields ([year] within 1..9999, [month] within 1..12, ...), so month,
    day, hour, minute and second print in exactly the width their format
    directives pad to.  [isoformat] pads the year to four digits; [%Y] of
    [strftime] is the C library's and prints the year without padding. *)

Record datetime : Type := mk_datetime {
  year : N; month : N; day : N;
  hour : N; minute : N; second : N;
  microsecond : N
}.

Definition digit (n : N) : ascii := ascii_of_N (48 + n mod 10).

(** The [width] low decimal digits of [n], zero padded on the left. *)
Fixpoint zero_padded (width : nat) (n : N) : string :=
  match width with
  | O => EmptyString
  | S w => zero_padded w (n / 10) ++ String (digit n) EmptyString
  end.

(** [%Y]: the year in decimal, as many digits as it has. *)
Definition year_text (y : N) : string :=
  if N.ltb y 10 then zero_padded 1 y
  else if N.ltb y 100 then zero_padded 2 y
  else if N.ltb y 1000 then zero_padded 3 y
  else zero_padded 4 y.

(** [dt.strftime('%Y%m%d%H%M%S')] *)
Definition strftime_YmdHMS (dt : datetime) : string :=
  year_text (year dt) ++ zero_padded 2 (month dt) ++ zero_padded 2 (day dt)
  ++ zero_padded 2 (hour dt) ++ zero_padded 2 (minute dt) ++ zero_padded 2 (second dt).

(** [dt.isoformat()] of an aware UTC datetime: the fraction is printed only
    when the microseconds are not zero. *)
Definition isoformat (dt : datetime) : string :=
  zero_padded 4 (year dt) ++ "-" ++ zero_padded 2 (month dt) ++ "-" ++ zero_padded 2 (day dt)
  ++ "T" ++ zero_padded 2 (hour dt) ++ ":" ++ zero_padded 2 (minute dt) ++ ":"
  ++ zero_padded 2 (second dt)
  ++ (if N.eqb (microsecond dt) 0 then "" else "." ++ zero_padded 6 (microsecond dt))
  ++ "+00:00".

(** ** Text

    A Python [str] is a sequence of code points.  Identifiers, header values
    and column texts are compared and concatenated only, and are modelled as
    [string]; the request body is sliced by position ([body[:3000]]), so it
    is kept as the list of its code points. *)

Definition text : Type := list N.

(** [s[:n]] *)
Definition slice_to (n : nat) (t : text) : text := firstn n t.

(** The number of characters [json.dumps] writes for one code point of a
    string (with [ensure_ascii], its default): the quote, the backslash and
    the five short escapes take two, the other control characters and every
    code point from DEL on are written as [\uXXXX], those beyond the basic
    plane as two of them. *)
Definition json_escaped_width (c : N) : nat :=
  if N.eqb c 34 || N.eqb c 92 then 2
  else if N.eqb c 8 || N.eqb c 9 || N.eqb c 10 || N.eqb c 12 || N.eqb c 13 then 2
  else if N.ltb c 32 then 6
  else if N.ltb c 127 then 1
  else if N.ltb c 65536 then 6
  else 12.

(** The length of [json.dumps(t)], quotes included. *)
Definition json_string_size (t : text) : nat := 2 + list_sum (map json_escaped_width t).

(** ** Python values

    What [json.loads] can return, and so what a claim of a token can be.  A
    [dict] is the list of its items, each key once.  [VSurrogates] is a [str]
    that holds a lone surrogate (JSON can spell one by an escape), which
    UTF-8 cannot encode; every other [str] is a [VStr]. *)
#[local] Set Warnings "-register-all".
Inductive Value : Type :=
| VNone
| VBool (b : bool)
| VInt (z : Z)
| VFloat (f : float)
| VStr (s : string)
| VSurrogates
| VList (items : list Value)
| VDict (items : list (string * Value)).

(** [bool(v)], as [or] reads it *)
Definition truthy (v : Value) : bool :=
  match v with
  | VNone => false
  | VBool b => b
  | VInt z => negb (Z.eqb z 0)
  | VFloat f => negb (PrimFloat.eqb f 0)
  | VStr s => negb (s =? "")
  | VSurrogates => true
  | VList items => match items with [] => false | _ :: _ => true end
  | VDict items => match items with [] => false | _ :: _ => true end
  end.

(** [inf], [-inf] and [nan]: the floats JSON has no spelling for. *)
Definition nonfinite (f : float) : bool := PrimFloat.is_nan f || PrimFloat.is_infinity f.

Fixpoint holds_nonfinite (v : Value) : bool :=
  match v with
  | VFloat f => nonfinite f
  | VList items => existsb holds_nonfinite items
  | VDict items => existsb (fun kv => holds_nonfinite (snd kv)) items
  | _ => false
  end.

Fixpoint holds_surrogates (v : Value) : bool :=
  match v with
  | VSurrogates => true
  | VList items => existsb holds_surrogates items
  | VDict items => existsb (fun kv => holds_surrogates (snd kv)) items
  | _ => false
  end.

(** [str(n)] of an [int] *)
Definition decimal (z : Z) : string := NilZero.string_of_int (Z.to_int z).

(** ** Rows of the eight tables ([init_db]) *)

Module Member.
Record t : Type := mk {
  id : string;
  member_number : string;
  first_name : string;
  last_name : string;
  date_of_birth : option string;
  phone : option string;
  email : option string;
  status : string;
  created_at : string;
  updated_at : string
}.
End Member.

Module MemberVerification.
Record t : Type := mk {
  id : string;
  member_id : string;
  outcome : string;
  verified_by_staff_id : string;
  notes : option string;
  document_ref : option string;
  verified_at : string;
  created_at : string
}.
End MemberVerification.

Module Supplier.
Record t : Type := mk {
  id : string;
  name : string;
  code : string;
  contact_name : option string;
  contact_email : option string;
  contact_phone : option string;
  address : option string;
  is_active : bool;
  created_at : string;
  updated_at : string
}.
End Supplier.

Module Product.
Record t : Type := mk {
  id : string;
  sku : string;
  name : string;
  description : option string;
  unit_of_measure : string;
  is_active : bool;
  created_at : string;
  updated_at : string
}.
End Product.

Module InventoryMovement.
Record t : Type := mk {
  id : string;
  product_id : string;
  movement_type : string;
  quantity : float;
  reason : option string;
  recorded_by_staff_id : string;
  occurred_at : string;
  created_at : string
}.
End InventoryMovement.

Module Order.
Record t : Type := mk {
  id : string;
  member_id : string;
  order_number : string;
  status : string;
  ordered_by_staff_id : string;
  ordered_at : string;
  completed_at : option string;
  notes : option string;
  created_at : string;
  updated_at : string
}.
End Order.

Module OrderItem.
Record t : Type := mk {
  id : string;
  order_id : string;
  product_id : string;
  quantity : float;
  unit_price : float;
  created_at : string
}.
End OrderItem.

(** [event_data] is the dictionary that [json.dumps] serialises; [query] is
    a [dict], the list of its items. *)
Record EventData : Type := mk_event_data {
  status_code : Z;
  query : list (string * string);
  body : text
}.

Module AuditEvent.
Record t : Type := mk {
  id : string;
  actor_type : string;
  actor_id : option string;        (* the one column here that may be NULL *)
  event_type : string;
  entity_type : string;
  entity_id : string;
  event_data : EventData;
  occurred_at : string;
  created_at : string
}.
End AuditEvent.

(** The database file: one list per table, oldest row first. *)
Record Store : Type := mk_store {
  members : list Member.t;
  member_verifications : list MemberVerification.t;
  suppliers : list Supplier.t;
  products : list Product.t;
  inventory_movements : list InventoryMovement.t;
  orders : list Order.t;
  order_items : list OrderItem.t;
  audit_events : list AuditEvent.t
}.

(** The database right after [init_db] on a new file. *)
Definition empty_store : Store := mk_store [] [] [] [] [] [] [] [].

Definition set_members (v : list Member.t) (s : Store) : Store :=
  mk_store v (member_verifications s) (suppliers s) (products s)
           (inventory_movements s) (orders s) (order_items s) (audit_events s).
Definition set_member_verifications (v : list MemberVerification.t) (s : Store) : Store :=
  mk_store (members s) v (suppliers s) (products s)
           (inventory_movements s) (orders s) (order_items s) (audit_events s).
Definition set_suppliers (v : list Supplier.t) (s : Store) : Store :=
  mk_store (members s) (member_verifications s) v (products s)
           (inventory_movements s) (orders s) (order_items s) (audit_events s).
Definition set_products (v : list Product.t) (s : Store) : Store :=
  mk_store (members s) (member_verifications s) (suppliers s) v
           (inventory_movements s) (orders s) (order_items s) (audit_events s).
Definition set_inventory_movements (v : list InventoryMovement.t) (s : Store) : Store :=
  mk_store (members s) (member_verifications s) (suppliers s) (products s)
           v (orders s) (order_items s) (audit_events s).
Definition set_orders (v : list Order.t) (s : Store) : Store :=
  mk_store (members s) (member_verifications s) (suppliers s) (products s)
           (inventory_movements s) v (order_items s) (audit_events s).
Definition set_order_items (v : list OrderItem.t) (s : Store) : Store :=
  mk_store (members s) (member_verifications s) (suppliers s) (products s)
           (inventory_movements s) (orders s) v (audit_events s).
Definition set_audit_events (v : list AuditEvent.t) (s : Store) : Store :=
  mk_store (members s) (member_verifications s) (suppliers s) (products s)
           (inventory_movements s) (orders s) (order_items s) v.

(** ** Exceptions, the outside world and the handler monad *)

Inductive Exn : Type :=
| HTTPException (status : Z) (detail : string)
| IntegrityError (message : string)     (* sqlite3.IntegrityError *)
| ProgrammingError (message : string)   (* sqlite3.ProgrammingError *)
| OverflowError (message : string)
| UnicodeEncodeError
| ValueError                            (* a float JSON cannot spell *)
| TypeError (message : string).

(** What a request handler obtains from outside the program: the values
    [uuid.uuid4()] returns (by call number), the readings of the clock (by
    call number), the decoding [json.loads(base64.urlsafe_b64decode(..))] of
    a token segment into the [dict] of its claims ([None] when the decoding
    raises or the result has no [get]), and the text SQLite makes of a REAL
    that is stored in a TEXT column. *)
Record Env : Type := mk_env {
  uuid_values : nat -> string;
  clock_values : nat -> datetime;
  decode_claims : string -> option (list (string * Value));
  real_text : float -> string
}.

Record World : Type := mk_world {
  db : Store;
  uuid_calls : nat;
  clock_calls : nat
}.

Inductive Result (A : Type) : Type :=
| Return (a : A)
| Raise (e : Exn).
Arguments Return {A} a.
Arguments Raise {A} e.

Definition M (A : Type) : Type := Env -> World -> Result A * World.

Definition ret {A : Type} (a : A) : M A := fun _ w => (Return a, w).

Definition bind {A B : Type} (m : M A) (k : A -> M B) : M B :=
  fun env w =>
    match m env w with
    | (Return a, w') => k a env w'
    | (Raise e, w') => (Raise e, w')
    end.

Definition raise {A : Type} (e : Exn) : M A := fun _ w => (Raise e, w).

Notation "x <- m ;; k" := (bind m (fun x => k))
  (at level 61, m at next level, right associativity).
Notation "m ;;; k" := (bind m (fun _ => k))
  (at level 61, right associativity).

Definition ask : M Env := fun env w => (Return env, w).

(** [conn.execute("SELECT ...")]: reads the connection's view. *)
Definition select {A : Type} (f : Store -> A) : M A :=
  fun _ w => (Return (f (db w)), w).

(** [conn.execute("INSERT/UPDATE/DELETE ...")] once its constraints hold. *)
Definition execute (f : Store -> Store) : M unit :=
  fun _ w => (Return tt, mk_world (f (db w)) (uuid_calls w) (clock_calls w)).

(** [str(uuid.uuid4())] *)
Definition uuid4 : M string :=
  fun env w =>
    (Return (uuid_values env (uuid_calls w)),
     mk_world (db w) (S (uuid_calls w)) (clock_calls w)).

(** [datetime.now(timezone.utc)] *)
Definition datetime_now : M datetime :=
  fun env w =>
    (Return (clock_values env (clock_calls w)),
     mk_world (db w) (uuid_calls w) (S (clock_calls w))).

Definition utc_now : M string :=
  dt <- datetime_now ;; ret (isoformat dt).

(** [with db_conn() as conn: body]: the body runs in one transaction;
    [conn.commit()] is reached only when the body returns, and an exception
    leaves through [finally: conn.close()], which drops the uncommitted
    writes. *)
Definition db_conn {A : Type} (body : M A) : M A :=
  fun env w =>
    match body env w with
    | (Return a, w') => (Return a, w')
    | (Raise e, w') => (Raise e, mk_world (db w) (uuid_calls w') (clock_calls w'))
    end.

(** [for x in xs: body(x)] *)
Fixpoint for_each {A : Type} (xs : list A) (body : A -> M unit) : M unit :=
  match xs with
  | [] => ret tt
  | x :: rest => body x ;;; for_each rest body
  end.

(** ** SQL on one table *)

Section Table.
Context {Row : Type}.
Variable pk : Row -> string.

(** [SELECT ... WHERE id = ?] followed by [fetchone()] *)
Definition fetchone (key : string) (rows : list Row) : option Row :=
  find (fun r => pk r =? key) rows.

Definition has_value (col : Row -> string) (v : string) (rows : list Row) : bool :=
  existsb (fun r => col r =? v) rows.

(** [UPDATE ... WHERE id = ?] *)
Definition update_where (key : string) (f : Row -> Row) (rows : list Row) : list Row :=
  map (fun r => if pk r =? key then f r else r) rows.

(** [DELETE ... WHERE id = ?] and its [rowcount] *)
Definition delete_where (key : string) (rows : list Row) : list Row :=
  filter (fun r => negb (pk r =? key)) rows.

Definition rowcount (key : string) (rows : list Row) : nat :=
  List.length (filter (fun r => pk r =? key) rows).

(** Writing [v] into the UNIQUE column [col] of the rows with id [key]
    collides when another row already holds [v], or when more than one row
    is written. *)
Definition update_collides (col : Row -> string) (key v : string) (rows : list Row) : bool :=
  existsb (fun r => negb (pk r =? key) && (col r =? v)) rows
  || Nat.ltb 1 (rowcount key rows).

End Table.

(** A NaN parameter is bound by sqlite3 as NULL, which a [REAL NOT NULL]
    column refuses; [PrimFloat.is_nan q] is [negb (q =? q)]. *)

(** ** Requests *)

Module MemberIn.
Record t : Type := mk {
  member_number : string;
  first_name : string;
  last_name : string;
  date_of_birth : option string;
  phone : option string;
  email : option string
}.
End MemberIn.

Module MemberVerifyIn.
Record t : Type := mk {
  outcome : string;             (* Field(pattern="^(VERIFIED|REJECTED)$") *)
  notes : option string;
  document_ref : option string
}.
End MemberVerifyIn.

Module SupplierIn.
Record t : Type := mk {
  name : string;
  code : string;
  contact_name : option string;
  contact_email : option string;
  contact_phone : option string;
  address : option string;
  is_active : bool
}.
End SupplierIn.

Module ProductIn.
Record t : Type := mk {
  sku : string;
  name : string;
  description : option string;
  unit_of_measure : string;
  is_active : bool
}.
End ProductIn.

Module InventoryMovementIn.
Record t : Type := mk {
  product_id : string;
  quantity : float;
  reason : option string
}.
End InventoryMovementIn.

Module OrderItemIn.
Record t : Type := mk {
  product_id : string;
  quantity : float;             (* Field(gt=0) *)
  unit_price : float            (* Field(ge=0) *)
}.
End OrderItemIn.

Module OrderCreateIn.
Record t : Type := mk {
  member_id : string;
  notes : option string;
  items : list OrderItemIn.t
}.
End OrderCreateIn.

(** What a handler returns, or the body of an error response. *)
Inductive Content : Type :=
| MemberJson (row : option Member.t)
| SupplierJson (row : Supplier.t)
| ProductJson (row : Product.t)
| MovementJson (row : InventoryMovement.t)
| OrderJson (row : Order.t)
| OrderWithItemsJson (order : Order.t) (items : list OrderItem.t)
| DeletedJson                                   (* {"deleted": True} *)
| LoginJson (message : string) (staff_id : Value)
| DetailJson (detail : string)                  (* {"detail": ...} *)
| ValidationJson                                (* pydantic's error list *)
| OtherJson (rendered : string).

Record Response : Type := mk_response {
  response_status : Z;
  content : Content
}.

(** The route a request is dispatched to, with the path parameters and the
    parsed body.  [NoWrite] stands for every request that reaches no writing
    handler: the GET routes, which only SELECT, and requests no route
    accepts; it carries the response such a request gets. *)
Inductive Endpoint : Type :=
| StaffLogin
| CreateMember (payload : MemberIn.t)
| UpdateMember (member_id : string) (payload : MemberIn.t)
| DeleteMember (member_id : string)
| VerifyMember (member_id : string) (payload : MemberVerifyIn.t)
| CreateSupplier (payload : SupplierIn.t)
| UpdateSupplier (item_id : string) (payload : SupplierIn.t)
| DeleteSupplier (item_id : string)
| CreateProduct (payload : ProductIn.t)
| UpdateProduct (item_id : string) (payload : ProductIn.t)
| DeleteProduct (item_id : string)
| InventoryReceive (payload : InventoryMovementIn.t)
| InventoryAdjust (payload : InventoryMovementIn.t)
| InventoryWaste (payload : InventoryMovementIn.t)
| CreateOrder (payload : OrderCreateIn.t)
| FinalizeOrder (order_id : string)
| NoWrite (http_method path : string) (response : Response).

Record Request : Type := mk_request {
  endpoint : Endpoint;
  url_path : string;                      (* [request.url.path], as Starlette gives it *)
  headers : list (string * string);       (* names in lower case, as ASGI gives them *)
  query_params : list (string * string);  (* every pair of the query string, in order *)
  body_text : text                        (* the body decoded by [body_as_text] *)
}.

(** [request.method] *)
Definition http_method_of (e : Endpoint) : string :=
  match e with
  | UpdateMember _ _ | UpdateSupplier _ _ | UpdateProduct _ _ => "PUT"
  | DeleteMember _ | DeleteSupplier _ | DeleteProduct _ => "DELETE"
  | NoWrite m _ _ => m
  | _ => "POST"
  end.

(** The path of a request to an endpoint when no path parameter holds a
    character that a URL treats in a special way.  [request.url.path]
    itself is the field [url_path] of the request: it need not spell a path
    parameter as the router hands it to the handler. *)
Definition path_of (e : Endpoint) : string :=
  match e with
  | StaffLogin => "/staff/login"
  | CreateMember _ => "/members"
  | UpdateMember i _ | DeleteMember i => "/members/" ++ i
  | VerifyMember i _ => "/members/" ++ i ++ "/verify"
  | CreateSupplier _ => "/suppliers"
  | UpdateSupplier i _ | DeleteSupplier i => "/suppliers/" ++ i
  | CreateProduct _ => "/products"
  | UpdateProduct i _ | DeleteProduct i => "/products/" ++ i
  | InventoryReceive _ => "/inventory/receive"
  | InventoryAdjust _ => "/inventory/adjust"
  | InventoryWaste _ => "/inventory/waste"
  | CreateOrder _ => "/orders"
  | FinalizeOrder i => "/orders/" ++ i ++ "/finalize"
  | NoWrite _ p _ => p
  end.

Definition WRITE_METHODS : list string := ["POST"; "PUT"; "PATCH"; "DELETE"].

Definition is_write_method (m : string) : bool :=
  existsb (String.eqb m) WRITE_METHODS.

(** ** The acting staff member ([parse_staff_id]) *)

Definition lower_ascii (c : ascii) : ascii :=
  let n := N_of_ascii c in
  if N.leb 65 n && N.leb n 90 then ascii_of_N (n + 32) else c.

(** [s.lower()], on the ASCII letters *)
Fixpoint lower (s : string) : string :=
  match s with
  | EmptyString => EmptyString
  | String c rest => String (lower_ascii c) (lower rest)
  end.

(** [s.split(sep, 1)] *)
Fixpoint split_once (sep : ascii) (s : string) : list string :=
  match s with
  | EmptyString => [EmptyString]
  | String c rest =>
      if Ascii.eqb c sep then [EmptyString; rest]
      else match split_once sep rest with
           | h :: t => String c h :: t
           | [] => [String c EmptyString]
           end
  end.

(** [s.split(sep)] *)
Fixpoint split (sep : ascii) (s : string) : list string :=
  match s with
  | EmptyString => [EmptyString]
  | String c rest =>
      if Ascii.eqb c sep then EmptyString :: split sep rest
      else match split sep rest with
           | h :: t => String c h :: t
           | [] => [String c EmptyString]
           end
  end.

(** ["=" * n] *)
Fixpoint equals_signs (n : nat) : string :=
  match n with
  | O => EmptyString
  | S k => String "="%char (equals_signs k)
  end.

(** [headers.get(name)] *)
Fixpoint headers_get (name : string) (hs : list (string * string)) : option string :=
  match hs with
  | [] => None
  | (k, v) :: rest => if k =? name then Some v else headers_get name rest
  end.

(** [d.get(key)] *)
Fixpoint dict_get {A : Type} (key : string) (d : list (string * A)) : option A :=
  match d with
  | [] => None
  | (k, v) :: rest => if k =? key then Some v else dict_get key rest
  end.

(** [d.get(key)], read for its truth value: a claim that is absent or falsy
    is passed over by [or]. *)
Definition claim (key : string) (d : list (string * Value)) : option Value :=
  match dict_get key d with
  | Some v => if truthy v then Some v else None
  | None => None
  end.

Definition parse_staff_id (env : Env) (request : Request) : Value :=
  let explicit_staff := headers_get "x-staff-id" (headers request) in
  match explicit_staff with
  | Some (String c rest) => VStr (String c rest)
  | _ =>
      let auth := match headers_get "authorization" (headers request) with
                  | Some a => a
                  | None => ""
                  end in
      if prefix "bearer " (lower auth) then
        match nth_error (split_once " "%char auth) 1 with
        | None => VStr "unknown"  (* not reached: the prefix holds the separator *)
        | Some token =>
            let parts := split "."%char token in
            if Nat.leb 2 (List.length parts) then
              let part1 := nth 1 parts "" in
              let payload_raw :=
                part1 ++ equals_signs (Z.to_nat ((- Z.of_nat (String.length part1)) mod 4)) in
              match decode_claims env payload_raw with
              | Some payload =>
                  match claim "sub" payload with
                  | Some sub => sub
                  | None => match claim "username" payload with
                            | Some username => username
                            | None => VStr "unknown"
                            end
                  end
              | None => VStr "unknown"
              end
            else VStr "unknown"
        end
      else VStr "unknown"
  end.

Definition staff_id_of (request : Request) : M Value :=
  env <- ask ;; ret (parse_staff_id env request).

(** ** Parameters of a statement

    What sqlite3 makes of a Python value bound to a [?] whose column is TEXT:
    a [str] is stored as it is, an [int] (a [bool] is one) that fits 64 bits
    and a [float] are stored as their text, [None] and [nan] as NULL; a
    [list] or a [dict] is refused, as is an [int] beyond 64 bits and a
    [str] that UTF-8 cannot encode. *)
Inductive Bound : Type :=
| Cell (c : option string)              (* the text stored, or NULL *)
| Unsupported (type_name : string)
| TooLarge
| Unencodable.

Definition adapt (env : Env) (v : Value) : Bound :=
  match v with
  | VNone => Cell None
  | VBool b => Cell (Some (if b then "1" else "0"))
  | VInt z =>
      if Z.leb (- 2 ^ 63) z && Z.ltb z (2 ^ 63) then Cell (Some (decimal z)) else TooLarge
  | VFloat f => if PrimFloat.is_nan f then Cell None else Cell (Some (real_text env f))
  | VStr s => Cell (Some s)
  | VSurrogates => Unencodable
  | VList _ => Unsupported "list"
  | VDict _ => Unsupported "dict"
  end.

(** Binding [v] to the parameter at [position] (counted from 1) when the
    statement is executed: before the statement runs, and so before any of
    its constraints is looked at. *)
Definition bind_parameter (position : string) (v : Value) : M (option string) :=
  env <- ask ;;
  match adapt env v with
  | Cell c => ret c
  | Unsupported type_name =>
      raise (ProgrammingError
               ("Error binding parameter " ++ position ++ ": type '" ++ type_name
                ++ "' is not supported"))
  | TooLarge => raise (OverflowError "Python int too large to convert to SQLite INTEGER")
  | Unencodable => raise UnicodeEncodeError
  end.

(** ** INSERT statements with the constraints of the schema

    SQLite looks at the NOT NULL constraints first, in the order of the
    columns, then at the UNIQUE column of the table, then at the primary
    key. *)

Definition check_constraint (violated : bool) (message : string) : M unit :=
  if violated then raise (IntegrityError message) else ret tt.

Definition not_null (cell : option string) (column : string) : M string :=
  match cell with
  | Some s => ret s
  | None => raise (IntegrityError ("NOT NULL constraint failed: " ++ column))
  end.

(** [dict(row)]: a [None] row is not iterable. *)
Definition dict {Row : Type} (row : option Row) : M Row :=
  match row with
  | Some r => ret r
  | None => raise (TypeError "'NoneType' object is not iterable")
  end.

Definition insert_member (r : Member.t) : M unit :=
  rows <- select members ;;
  check_constraint (has_value Member.member_number (Member.member_number r) rows)
    "UNIQUE constraint failed: members.member_number" ;;;
  check_constraint (has_value Member.id (Member.id r) rows)
    "UNIQUE constraint failed: members.id" ;;;
  execute (fun s => set_members (members s ++ [r])%list s).

(** The three INSERTs that bind the staff id take the cell it was bound to;
    the other columns are a function of its text. *)
Definition insert_member_verification (staff : option string)
    (row : string -> MemberVerification.t) : M unit :=
  staff <- not_null staff "member_verifications.verified_by_staff_id" ;;
  rows <- select member_verifications ;;
  check_constraint (has_value MemberVerification.id (MemberVerification.id (row staff)) rows)
    "UNIQUE constraint failed: member_verifications.id" ;;;
  execute (fun s =>
    set_member_verifications (member_verifications s ++ [row staff])%list s).

Definition insert_inventory_movement (quantity : float) (staff : option string)
    (row : string -> InventoryMovement.t) : M unit :=
  check_constraint (PrimFloat.is_nan quantity)
    "NOT NULL constraint failed: inventory_movements.quantity" ;;;
  staff <- not_null staff "inventory_movements.recorded_by_staff_id" ;;
  rows <- select inventory_movements ;;
  check_constraint (has_value InventoryMovement.id (InventoryMovement.id (row staff)) rows)
    "UNIQUE constraint failed: inventory_movements.id" ;;;
  execute (fun s =>
    set_inventory_movements (inventory_movements s ++ [row staff])%list s).

Definition insert_order (staff : option string) (row : string -> Order.t) : M unit :=
  staff <- not_null staff "orders.ordered_by_staff_id" ;;
  rows <- select orders ;;
  check_constraint (has_value Order.order_number (Order.order_number (row staff)) rows)
    "UNIQUE constraint failed: orders.order_number" ;;;
  check_constraint (has_value Order.id (Order.id (row staff)) rows)
    "UNIQUE constraint failed: orders.id" ;;;
  execute (fun s => set_orders (orders s ++ [row staff])%list s).

Definition insert_order_item (r : OrderItem.t) : M unit :=
  check_constraint (PrimFloat.is_nan (OrderItem.quantity r))
    "NOT NULL constraint failed: order_items.quantity" ;;;
  check_constraint (PrimFloat.is_nan (OrderItem.unit_price r))
    "NOT NULL constraint failed: order_items.unit_price" ;;;
  rows <- select order_items ;;
  check_constraint (has_value OrderItem.id (OrderItem.id r) rows)
    "UNIQUE constraint failed: order_items.id" ;;;
  execute (fun s => set_order_items (order_items s ++ [r])%list s).

Definition insert_audit_event (r : AuditEvent.t) : M unit :=
  rows <- select audit_events ;;
  check_constraint (has_value AuditEvent.id (AuditEvent.id r) rows)
    "UNIQUE constraint failed: audit_events.id" ;;;
  execute (fun s => set_audit_events (audit_events s ++ [r])%list s).

(** ** Members *)

Definition staff_login (request : Request) : M Content :=
  staff <- staff_id_of request ;;
  ret (LoginJson
         "Cognito JWT expected in Authorization header for staff-authenticated endpoints."
         staff).

Definition create_member (payload : MemberIn.t) : M Content :=
  now <- utc_now ;;
  member_id <- uuid4 ;;
  row <- db_conn (
    insert_member
      (Member.mk member_id
         (MemberIn.member_number payload) (MemberIn.first_name payload)
         (MemberIn.last_name payload) (MemberIn.date_of_birth payload)
         (MemberIn.phone payload) (MemberIn.email payload)
         "PENDING" now now) ;;;
    select (fun s => fetchone Member.id member_id (members s))) ;;
  ret (MemberJson row).

(** The SET clause of [update_member]: every column of the payload and
    [updated_at]; [id], [status] and [created_at] are not in it. *)
Definition set_profile (payload : MemberIn.t) (now : string) (m : Member.t) : Member.t :=
  Member.mk (Member.id m)
    (MemberIn.member_number payload) (MemberIn.first_name payload)
    (MemberIn.last_name payload) (MemberIn.date_of_birth payload)
    (MemberIn.phone payload) (MemberIn.email payload)
    (Member.status m) (Member.created_at m) now.

Definition update_member (member_id : string) (payload : MemberIn.t) : M Content :=
  db_conn (
    found <- select (fun s => fetchone Member.id member_id (members s)) ;;
    match found with
    | None => raise (HTTPException 404 "Member not found")
    | Some _ =>
        now <- utc_now ;;
        rows <- select members ;;
        check_constraint
          (update_collides Member.id Member.member_number member_id
             (MemberIn.member_number payload) rows)
          "UNIQUE constraint failed: members.member_number" ;;;
        execute (fun s =>
          set_members (update_where Member.id member_id (set_profile payload now) (members s)) s) ;;;
        row <- select (fun s => fetchone Member.id member_id (members s)) ;;
        r <- dict row ;;
        ret (MemberJson (Some r))
    end).

Definition delete_member (member_id : string) : M Content :=
  deleted <- db_conn (
    n <- select (fun s => rowcount Member.id member_id (members s)) ;;
    execute (fun s => set_members (delete_where Member.id member_id (members s)) s) ;;;
    ret n) ;;
  if Nat.eqb deleted 0 then raise (HTTPException 404 "Member not found")
  else ret DeletedJson.

(** The SET clause of [verify_member]. *)
Definition set_status (outcome now : string) (m : Member.t) : Member.t :=
  Member.mk (Member.id m) (Member.member_number m) (Member.first_name m)
    (Member.last_name m) (Member.date_of_birth m) (Member.phone m) (Member.email m)
    outcome (Member.created_at m) now.

Definition verify_member (member_id : string) (payload : MemberVerifyIn.t)
    (request : Request) : M Content :=
  now <- utc_now ;;
  db_conn (
    member <- select (fun s => fetchone Member.id member_id (members s)) ;;
    match member with
    | None => raise (HTTPException 404 "Member not found")
    | Some _ =>
        verification_id <- uuid4 ;;
        staff <- staff_id_of request ;;
        staff <- bind_parameter "4" staff ;;
        insert_member_verification staff (fun staff =>
          MemberVerification.mk verification_id member_id
            (MemberVerifyIn.outcome payload) staff
            (MemberVerifyIn.notes payload) (MemberVerifyIn.document_ref payload)
            now now) ;;;
        execute (fun s =>
          set_members
            (update_where Member.id member_id
               (set_status (MemberVerifyIn.outcome payload) now) (members s)) s) ;;;
        row <- select (fun s => fetchone Member.id member_id (members s)) ;;
        r <- dict row ;;
        ret (MemberJson (Some r))
    end).

(** ** Suppliers and products ([build_crud_routes]) *)

Section build_crud_routes.
Context {Row Payload : Type}.
Variable table : Store -> list Row.
Variable set_table : list Row -> Store -> Store.
Variable row_id : Row -> string.
(** the table's UNIQUE column and its value in a payload *)
Variable unique_col : Row -> string.
Variable unique_in : Payload -> string.
(** the names sqlite3 reports them by *)
Variable table_name : string.
Variable unique_name : string.
(** [id, *data.values(), now, now] *)
Variable new_row : string -> Payload -> string -> string -> Row.
(** [SET k = ? for k in data.keys(), updated_at = ?] *)
Variable set_fields : Payload -> string -> Row -> Row.
Variable to_json : Row -> Content.

Definition create_item (payload : Payload) : M Content :=
  now <- utc_now ;;
  item_id <- uuid4 ;;
  db_conn (
    rows <- select table ;;
    check_constraint (has_value unique_col (unique_in payload) rows)
      ("UNIQUE constraint failed: " ++ table_name ++ "." ++ unique_name) ;;;
    check_constraint (has_value row_id item_id rows)
      ("UNIQUE constraint failed: " ++ table_name ++ ".id") ;;;
    execute (fun s => set_table (table s ++ [new_row item_id payload now now])%list s) ;;;
    row <- select (fun s => fetchone row_id item_id (table s)) ;;
    r <- dict row ;;
    ret (to_json r)).

Definition update_item (item_id : string) (payload : Payload) : M Content :=
  db_conn (
    found <- select (fun s => fetchone row_id item_id (table s)) ;;
    match found with
    | None => raise (HTTPException 404 "Not found")
    | Some _ =>
        now <- utc_now ;;
        rows <- select table ;;
        check_constraint (update_collides row_id unique_col item_id (unique_in payload) rows)
          ("UNIQUE constraint failed: " ++ table_name ++ "." ++ unique_name) ;;;
        execute (fun s =>
          set_table (update_where row_id item_id (set_fields payload now) (table s)) s) ;;;
        row <- select (fun s => fetchone row_id item_id (table s)) ;;
        r <- dict row ;;
        ret (to_json r)
    end).

Definition delete_item (item_id : string) : M Content :=
  deleted <- db_conn (
    n <- select (fun s => rowcount row_id item_id (table s)) ;;
    execute (fun s => set_table (delete_where row_id item_id (table s)) s) ;;;
    ret n) ;;
  if Nat.eqb deleted 0 then raise (HTTPException 404 "Not found")
  else ret DeletedJson.

End build_crud_routes.

Definition new_supplier (i : string) (p : SupplierIn.t) (created updated : string) : Supplier.t :=
  Supplier.mk i (SupplierIn.name p) (SupplierIn.code p) (SupplierIn.contact_name p)
    (SupplierIn.contact_email p) (SupplierIn.contact_phone p) (SupplierIn.address p)
    (SupplierIn.is_active p) created updated.

Definition set_supplier (p : SupplierIn.t) (updated : string) (r : Supplier.t) : Supplier.t :=
  new_supplier (Supplier.id r) p (Supplier.created_at r) updated.

Definition new_product (i : string) (p : ProductIn.t) (created updated : string) : Product.t :=
  Product.mk i (ProductIn.sku p) (ProductIn.name p) (ProductIn.description p)
    (ProductIn.unit_of_measure p) (ProductIn.is_active p) created updated.

Definition set_product (p : ProductIn.t) (updated : string) (r : Product.t) : Product.t :=
  new_product (Product.id r) p (Product.created_at r) updated.

(** [build_crud_routes("/suppliers", "suppliers", SupplierIn)] *)
Definition create_supplier : SupplierIn.t -> M Content :=
  create_item suppliers set_suppliers Supplier.id Supplier.code SupplierIn.code
    "suppliers" "code" new_supplier SupplierJson.
Definition update_supplier : string -> SupplierIn.t -> M Content :=
  update_item suppliers set_suppliers Supplier.id Supplier.code SupplierIn.code
    "suppliers" "code" set_supplier SupplierJson.
Definition delete_supplier : string -> M Content :=
  delete_item suppliers set_suppliers Supplier.id.

(** [build_crud_routes("/products", "products", ProductIn)] *)
Definition create_product : ProductIn.t -> M Content :=
  create_item products set_products Product.id Product.sku ProductIn.sku
    "products" "sku" new_product ProductJson.
Definition update_product : string -> ProductIn.t -> M Content :=
  update_item products set_products Product.id Product.sku ProductIn.sku
    "products" "sku" set_product ProductJson.
Definition delete_product : string -> M Content :=
  delete_item products set_products Product.id.

(** ** The inventory ledger *)

(** [-abs(q)] *)
Definition neg_abs (q : float) : float := PrimFloat.opp (PrimFloat.abs q).

Definition create_inventory_movement (kind : string) (payload : InventoryMovementIn.t)
    (request : Request) : M Content :=
  let quantity := InventoryMovementIn.quantity payload in
  if ((kind =? "RECEIVE") || (kind =? "WASTE")) && PrimFloat.leb quantity 0 then
    raise (HTTPException 400 "Quantity must be greater than zero")
  else
    let quantity := if kind =? "WASTE" then neg_abs quantity else quantity in
    if (kind =? "ADJUST") && PrimFloat.eqb quantity 0 then
      raise (HTTPException 400 "Quantity cannot be zero")
    else
      movement_id <- uuid4 ;;
      now <- utc_now ;;
      db_conn (
        product <- select (fun s =>
          fetchone Product.id (InventoryMovementIn.product_id payload) (products s)) ;;
        match product with
        | None => raise (HTTPException 404 "Product not found")
        | Some _ =>
            staff <- staff_id_of request ;;
            staff <- bind_parameter "6" staff ;;
            insert_inventory_movement quantity staff (fun staff =>
              InventoryMovement.mk movement_id (InventoryMovementIn.product_id payload)
                kind quantity (InventoryMovementIn.reason payload) staff now now) ;;;
            row <- select (fun s =>
              fetchone InventoryMovement.id movement_id (inventory_movements s)) ;;
            r <- dict row ;;
            ret (MovementJson r)
        end).

Definition inventory_receive (payload : InventoryMovementIn.t) (request : Request) : M Content :=
  create_inventory_movement "RECEIVE" payload request.

Definition inventory_adjust (payload : InventoryMovementIn.t) (request : Request) : M Content :=
  create_inventory_movement "ADJUST" payload request.

Definition inventory_waste (payload : InventoryMovementIn.t) (request : Request) : M Content :=
  create_inventory_movement "WASTE" payload request.

(** ** Orders *)

Definition require_verified_member (member_id : string) : M unit :=
  member <- select (fun s => fetchone Member.id member_id (members s)) ;;
  match member with
  | None => raise (HTTPException 404 "Member not found")
  | Some m =>
      if negb (Member.status m =? "VERIFIED") then
        raise (HTTPException 400
                 "Member must be VERIFIED before orders can be created/finalized")
      else ret tt
  end.

(** [f"ORD-{datetime.now(timezone.utc).strftime('%Y%m%d%H%M%S')}"] *)
Definition order_number_at (dt : datetime) : string := "ORD-" ++ strftime_YmdHMS dt.

(** [SELECT ... FROM order_items WHERE order_id = ?], in table order (the
    rows of one order share their [created_at]). *)
Definition items_of (order_id : string) (s : Store) : list OrderItem.t :=
  filter (fun it => OrderItem.order_id it =? order_id) (order_items s).

Definition create_order (payload : OrderCreateIn.t) (request : Request) : M Content :=
  match OrderCreateIn.items payload with
  | [] => raise (HTTPException 400 "Order requires at least one item")
  | _ :: _ =>
      order_id <- uuid4 ;;
      now <- utc_now ;;
      stamp <- datetime_now ;;
      let order_number := order_number_at stamp in
      db_conn (
        require_verified_member (OrderCreateIn.member_id payload) ;;;
        staff <- staff_id_of request ;;
        staff <- bind_parameter "4" staff ;;
        insert_order staff (fun staff =>
          Order.mk order_id (OrderCreateIn.member_id payload) order_number "PLACED"
            staff now None (OrderCreateIn.notes payload) now now) ;;;
        for_each (OrderCreateIn.items payload) (fun item =>
          item_id <- uuid4 ;;
          insert_order_item
            (OrderItem.mk item_id order_id (OrderItemIn.product_id item)
               (OrderItemIn.quantity item) (OrderItemIn.unit_price item) now)) ;;;
        order <- select (fun s => fetchone Order.id order_id (orders s)) ;;
        items <- select (items_of order_id) ;;
        o <- dict order ;;
        ret (OrderWithItemsJson o items))
  end.

(** The SET clause of [finalize_order]. *)
Definition complete (now : string) (o : Order.t) : Order.t :=
  Order.mk (Order.id o) (Order.member_id o) (Order.order_number o) "COMPLETED"
    (Order.ordered_by_staff_id o) (Order.ordered_at o) (Some now) (Order.notes o)
    (Order.created_at o) now.

(** The movement [finalize_order] inserts for one order line. *)
Definition dispense_row (movement_id : string) (order : Order.t) (staff_id now : string)
    (item : OrderItem.t) : InventoryMovement.t :=
  InventoryMovement.mk movement_id (OrderItem.product_id item) "DISPENSE"
    (neg_abs (OrderItem.quantity item))
    (Some ("Dispense for order " ++ Order.order_number order))
    staff_id now now.

Definition finalize_order (order_id : string) (request : Request) : M Content :=
  now <- utc_now ;;
  db_conn (
    order <- select (fun s => fetchone Order.id order_id (orders s)) ;;
    match order with
    | None => raise (HTTPException 404 "Order not found")
    | Some order =>
        if Order.status order =? "COMPLETED" then
          raise (HTTPException 400 "Order already finalized")
        else
          require_verified_member (Order.member_id order) ;;;
          items <- select (items_of order_id) ;;
          match items with
          | [] => raise (HTTPException 400 "Order has no items")
          | _ :: _ =>
              staff_id <- staff_id_of request ;;
              for_each items (fun item =>
                movement_id <- uuid4 ;;
                staff <- bind_parameter "5" staff_id ;;
                insert_inventory_movement (neg_abs (OrderItem.quantity item)) staff
                  (fun staff => dispense_row movement_id order staff now item)) ;;;
              execute (fun s =>
                set_orders (update_where Order.id order_id (complete now) (orders s)) s) ;;;
              finalized <- select (fun s => fetchone Order.id order_id (orders s)) ;;
              o <- dict finalized ;;
              ret (OrderJson o)
          end
    end).

(** ** The application: validation, dispatch, error responses *)

(** The constraints pydantic enforces on a parsed body before the handler
    runs ([Field(gt=0)], [Field(ge=0)], [Field(pattern=...)]). *)
Definition valid_item (item : OrderItemIn.t) : bool :=
  PrimFloat.ltb 0 (OrderItemIn.quantity item) && PrimFloat.leb 0 (OrderItemIn.unit_price item).

Definition validates (e : Endpoint) : bool :=
  match e with
  | VerifyMember _ payload =>
      (MemberVerifyIn.outcome payload =? "VERIFIED")
      || (MemberVerifyIn.outcome payload =? "REJECTED")
  | CreateOrder payload => forallb valid_item (OrderCreateIn.items payload)
  | _ => true
  end.

(** The numbers of a payload that pydantic rejects: the 422 response repeats
    each of them as the input of its error. *)
Definition rejected_inputs (e : Endpoint) : list float :=
  match e with
  | CreateOrder payload =>
      flat_map (fun item =>
        (if PrimFloat.ltb 0 (OrderItemIn.quantity item) then []
         else [OrderItemIn.quantity item])
        ++ (if PrimFloat.leb 0 (OrderItemIn.unit_price item) then []
            else [OrderItemIn.unit_price item]))%list
        (OrderCreateIn.items payload)
  | _ => []
  end.

(** What the rendering of a returned value as JSON raises, if anything:
    [json.dumps(..., allow_nan=False)] refuses a float that is not finite,
    and the encoding of its result a lone surrogate.  The rows hold texts,
    which are rendered as they are, and the two REAL columns. *)
Definition render_error (c : Content) : option Exn :=
  match c with
  | MovementJson row =>
      if nonfinite (InventoryMovement.quantity row) then Some ValueError else None
  | OrderWithItemsJson _ items =>
      if existsb (fun it => nonfinite (OrderItem.quantity it)
                            || nonfinite (OrderItem.unit_price it)) items
      then Some ValueError else None
  | LoginJson _ staff_id =>
      if holds_nonfinite staff_id then Some ValueError
      else if holds_surrogates staff_id then Some UnicodeEncodeError
      else None
  | _ => None
  end.

Definition handler (request : Request) : M Content :=
  match endpoint request with
  | StaffLogin => staff_login request
  | CreateMember payload => create_member payload
  | UpdateMember member_id payload => update_member member_id payload
  | DeleteMember member_id => delete_member member_id
  | VerifyMember member_id payload => verify_member member_id payload request
  | CreateSupplier payload => create_supplier payload
  | UpdateSupplier item_id payload => update_supplier item_id payload
  | DeleteSupplier item_id => delete_supplier item_id
  | CreateProduct payload => create_product payload
  | UpdateProduct item_id payload => update_product item_id payload
  | DeleteProduct item_id => delete_product item_id
  | InventoryReceive payload => inventory_receive payload request
  | InventoryAdjust payload => inventory_adjust payload request
  | InventoryWaste payload => inventory_waste payload request
  | CreateOrder payload => create_order payload request
  | FinalizeOrder order_id => finalize_order order_id request
  | NoWrite _ _ response => ret (content response)
  end.

(** What the middleware awaits: the routed application.  A returned value
    is rendered as a 200 response, after the handler has committed; an
    [HTTPException] becomes the response it names; a body that fails
    validation is answered with 422 without calling the handler; and any
    other exception, that of a rendering included, goes on to the caller. *)
Definition call_next (request : Request) : M Response :=
  match endpoint request with
  | NoWrite _ _ response => ret response
  | e =>
      if validates e then
        fun env w =>
          match handler request env w with
          | (Return c, w') =>
              match render_error c with
              | None => (Return (mk_response 200 c), w')
              | Some e => (Raise e, w')
              end
          | (Raise (HTTPException status detail), w') =>
              (Return (mk_response status (DetailJson detail)), w')
          | (Raise e, w') => (Raise e, w')
          end
      else if existsb nonfinite (rejected_inputs e) then raise ValueError
      else ret (mk_response 422 ValidationJson)
  end.

Definition body_as_text (request : Request) : text := body_text request.

(** [d[key] = v] *)
Fixpoint dict_set {A : Type} (key : string) (v : A) (d : list (string * A))
    : list (string * A) :=
  match d with
  | [] => [(key, v)]
  | (k, x) :: rest =>
      if k =? key then (k, v) :: rest else (k, x) :: dict_set key v rest
  end.

(** [dict(request.query_params)]: one item for each key, at the place of its
    first pair and with the value of its last. *)
Definition dict_of_pairs {A : Type} (pairs : list (string * A)) : list (string * A) :=
  fold_left (fun d kv => dict_set (fst kv) (snd kv) d) pairs [].

Definition audit_write_middleware (request : Request)
    (call_next : Request -> M Response) : M Response :=
  let method := http_method_of (endpoint request) in
  let body := if is_write_method method then body_as_text request else [] in
  response <- call_next request ;;
  (if is_write_method method then
     now <- utc_now ;;
     db_conn (
       event_id <- uuid4 ;;
       staff <- staff_id_of request ;;
       actor <- bind_parameter "2" staff ;;
       insert_audit_event
         (AuditEvent.mk event_id "STAFF" actor ("HTTP_" ++ method) "endpoint"
            (url_path request)
            (mk_event_data (response_status response)
               (dict_of_pairs (query_params request)) (slice_to 3000 body))
            now now))
   else ret tt) ;;;
  ret response.

Definition app (request : Request) : M Response :=
  audit_write_middleware request call_next.

(** One request served on the database [s]. *)
Definition serve (env : Env) (request : Request) (s : Store) : Result Response * World :=
  app request env (mk_world s 0 0).

Definition store_after (env : Env) (request : Request) (s : Store) : Store :=
  db (snd (serve env request s)).

(** The databases the application can produce from a new file. *)
Inductive reachable : Store -> Prop :=
| reachable_init : reachable empty_store
| reachable_step (s : Store) (env : Env) (request : Request) :
    reachable s -> reachable (store_after env request s).

(** A handler run on its own on the database [s]. *)
Definition run {A : Type} (m : M A) (env : Env) (s : Store) : Result A * World :=
  m env (mk_world s 0 0).

(** ** Notions the statements use *)

(** The error classes of the API, by the exception the handler raises. *)
Definition IneligibleMember : Exn :=
  HTTPException 400 "Member must be VERIFIED before orders can be created/finalized".
Definition AlreadyFinalized : Exn := HTTPException 400 "Order already finalized".
Definition EmptyOrder_create : Exn := HTTPException 400 "Order requires at least one item".
Definition EmptyOrder_finalize : Exn := HTTPException 400 "Order has no items".
Definition InvalidQuantity_positive : Exn :=
  HTTPException 400 "Quantity must be greater than zero".
Definition InvalidQuantity_zero : Exn := HTTPException 400 "Quantity cannot be zero".
Definition ProductNotFound : Exn := HTTPException 404 "Product not found".

(** The movements [finalize_order] inserts for [items], the identifiers
    being the values of [uuid4] from call number [k] on. *)
Fixpoint dispense_rows (env : Env) (k : nat) (order : Order.t) (staff_id now : string)
    (items : list OrderItem.t) : list InventoryMovement.t :=
  match items with
  | [] => []
  | item :: rest =>
      dispense_row (uuid_values env k) order staff_id now item
      :: dispense_rows env (S k) order staff_id now rest
  end.

(** A movement is the dispense of an order line. *)
Definition dispenses (order : Order.t) (item : OrderItem.t) (row : InventoryMovement.t) : Prop :=
  InventoryMovement.movement_type row = "DISPENSE"
  /\ InventoryMovement.product_id row = OrderItem.product_id item
  /\ InventoryMovement.quantity row
     = PrimFloat.opp (PrimFloat.abs (OrderItem.quantity item))
  /\ InventoryMovement.reason row = Some ("Dispense for order " ++ Order.order_number order).

(** The identifiers [ids] can be inserted one after the other into a table
    whose primary keys are [existing]. *)
Definition fresh_ids (ids existing : list string) : Prop :=
  NoDup ids /\ forall i, In i ids -> ~ In i existing.

(** The values of [uuid4] from call number [k] on, [n] of them. *)
Definition uuids_from (env : Env) (k n : nat) : list string :=
  map (uuid_values env) (seq k n).

(** The order lines [create_order] inserts for the items of a payload. *)
Fixpoint order_item_rows (env : Env) (k : nat) (order_id now : string)
    (items : list OrderItemIn.t) : list OrderItem.t :=
  match items with
  | [] => []
  | item :: rest =>
      OrderItem.mk (uuid_values env k) order_id (OrderItemIn.product_id item)
        (OrderItemIn.quantity item) (OrderItemIn.unit_price item) now
      :: order_item_rows env (S k) order_id now rest
  end.

(** The text the TEXT NOT NULL columns hold for the staff id of a request,
    when sqlite3 can bind the value and it is not NULL. *)
Definition stored_staff_id (env : Env) (request : Request) : option string :=
  match adapt env (parse_staff_id env request) with
  | Cell c => c
  | _ => None
  end.

(** The order row [create_order] inserts under the staff id [staff], [k] and
    [c] being the numbers of the calls of [uuid4] and of the clock made
    before. *)
Definition placed_order (env : Env) (staff : string) (payload : OrderCreateIn.t)
    (k c : nat) : Order.t :=
  Order.mk (uuid_values env k) (OrderCreateIn.member_id payload)
    (order_number_at (clock_values env (S c))) "PLACED"
    staff (isoformat (clock_values env c)) None
    (OrderCreateIn.notes payload)
    (isoformat (clock_values env c)) (isoformat (clock_values env c)).

(** The row [audit_write_middleware] inserts for a request and its
    response, [actor] being the cell the staff id was bound to. *)
Definition audit_event_of (env : Env) (request : Request) (response : Response)
    (actor : option string) (k c : nat) : AuditEvent.t :=
  AuditEvent.mk (uuid_values env k) "STAFF" actor
    ("HTTP_" ++ http_method_of (endpoint request)) "endpoint"
    (url_path request)
    (mk_event_data (response_status response) (dict_of_pairs (query_params request))
       (slice_to 3000 (body_as_text request)))
    (isoformat (clock_values env c)) (isoformat (clock_values env c)).

(** The policy table of the ledger, as the specification words it: what a
    kind requires of the requested quantity, and what it stores. *)
Definition policy_requires (kind : string) (q : float) : bool :=
  if kind =? "ADJUST" then PrimFloat.ltb q 0 || PrimFloat.ltb 0 q
  else PrimFloat.ltb 0 q.

Definition policy_stores (kind : string) (q : float) : float :=
  if kind =? "WASTE" then PrimFloat.opp (PrimFloat.abs q) else q.

Definition public_kind (kind : string) : Prop :=
  kind = "RECEIVE" \/ kind = "WASTE" \/ kind = "ADJUST".

(** The stock of a product as the specification derives it, the sum of the
    stored quantities of its movements; the source has no stock query and
    keeps no balance. *)
Definition derived_stock (product_id : string) (s : Store) : float :=
  fold_left PrimFloat.add
    (map InventoryMovement.quantity
       (filter (fun r => InventoryMovement.product_id r =? product_id)
          (inventory_movements s)))
    0%float.

(** The invariant of the orders table. *)
Definition order_consistent (o : Order.t) : Prop :=
  (Order.status o = "PLACED" /\ Order.completed_at o = None)
  \/ (Order.status o = "COMPLETED" /\ Order.completed_at o <> None).

(** The movement the policy table prescribes for a request of a kind under
    the staff id [staff]. *)
Definition policy_row (env : Env) (staff : string) (kind : string)
    (payload : InventoryMovementIn.t) (k c : nat) : InventoryMovement.t :=
  InventoryMovement.mk (uuid_values env k) (InventoryMovementIn.product_id payload) kind
    (policy_stores kind (InventoryMovementIn.quantity payload))
    (InventoryMovementIn.reason payload) staff
    (isoformat (clock_values env c)) (isoformat (clock_values env c)).

(** The current status of a member, as [require_verified_member] reads it. *)
Definition status_of (member_id : string) (s : Store) : option string :=
  option_map Member.status (fetchone Member.id member_id (members s)).

(** Two databases that differ at most in the audit trail. *)
Definition same_domain_tables (a b : Store) : Prop :=
  members a = members b
  /\ member_verifications a = member_verifications b
  /\ suppliers a = suppliers b
  /\ products a = products b
  /\ inventory_movements a = inventory_movements b
  /\ orders a = orders b
  /\ order_items a = order_items b.

(** ** The transitions of the database

    What one routed request can do to the tables, whichever way the handler
    leaves: the abstract step the handlers are shown to follow. *)
Inductive effect : Endpoint -> Store -> Store -> Prop :=
| effect_none (e : Endpoint) (s : Store) :
    effect e s s
| effect_create_member (payload : MemberIn.t) (row : Member.t) (s : Store) :
    Member.status row = "PENDING" ->
    fetchone Member.id (Member.id row) (members s) = None ->
    effect (CreateMember payload) s (set_members (members s ++ [row])%list s)
| effect_update_member (member_id : string) (payload : MemberIn.t) (now : string) (s : Store) :
    effect (UpdateMember member_id payload) s
      (set_members (update_where Member.id member_id (set_profile payload now) (members s)) s)
| effect_delete_member (member_id : string) (s : Store) :
    effect (DeleteMember member_id) s
      (set_members (delete_where Member.id member_id (members s)) s)
| effect_verify_member (member_id : string) (payload : MemberVerifyIn.t)
    (v : MemberVerification.t) (now : string) (s : Store) :
    effect (VerifyMember member_id payload) s
      (set_members
         (update_where Member.id member_id
            (set_status (MemberVerifyIn.outcome payload) now) (members s))
         (set_member_verifications (member_verifications s ++ [v])%list s))
| effect_suppliers (e : Endpoint) (rows : list Supplier.t) (s : Store) :
    effect e s (set_suppliers rows s)
| effect_products (e : Endpoint) (rows : list Product.t) (s : Store) :
    effect e s (set_products rows s)
| effect_movement (e : Endpoint) (row : InventoryMovement.t) (s : Store) :
    effect e s (set_inventory_movements (inventory_movements s ++ [row])%list s)
| effect_create_order (payload : OrderCreateIn.t) (o : Order.t)
    (items : list OrderItem.t) (s : Store) :
    Order.status o = "PLACED" ->
    Order.completed_at o = None ->
    has_value Order.id (Order.id o) (orders s) = false ->
    has_value Order.order_number (Order.order_number o) (orders s) = false ->
    Forall (fun it => PrimFloat.ltb 0 (OrderItem.quantity it) = true) items ->
    effect (CreateOrder payload) s
      (set_order_items (order_items s ++ items)%list (set_orders (orders s ++ [o])%list s))
| effect_finalize_order (order_id : string) (o : Order.t) (now : string)
    (rows : list InventoryMovement.t) (s : Store) :
    fetchone Order.id order_id (orders s) = Some o ->
    (Order.status o =? "COMPLETED") = false ->
    effect (FinalizeOrder order_id) s
      (set_orders (update_where Order.id order_id (complete now) (orders s))
         (set_inventory_movements (inventory_movements s ++ rows)%list s)).

(** The invariants of the reachable databases the statements rest on. *)
Record consistent (s : Store) : Prop := mk_consistent {
  order_ids_unique : NoDup (map Order.id (orders s));
  order_numbers_unique : NoDup (map Order.order_number (orders s));
  orders_consistent : Forall order_consistent (orders s);
  order_lines_positive :
    Forall (fun it => PrimFloat.ltb 0 (OrderItem.quantity it) = true) (order_items s)
}.

(** ** A worked scenario

    The end-to-end test of the API: a product, a member, the verification of
    the member, an order and its finalization, each request with its own
    identifiers. *)

Definition demo_clock : datetime := mk_datetime 2024 5 17 9 30 12 0.

Definition demo_env (tag : string) : Env :=
  mk_env (fun k => tag ++ "-" ++ zero_padded 3 (N.of_nat k))
         (fun _ => demo_clock)
         (fun _ => None)
         (fun _ => "").

Definition demo_request (e : Endpoint) : Request :=
  mk_request e (path_of e) [("x-staff-id", "staff-123")] [] [].

Definition demo_product : ProductIn.t := ProductIn.mk "SKU1" "Blue Dream" None "g" true.

Definition demo_member : MemberIn.t :=
  MemberIn.mk "M-001" "Jane" "Doe" None None (Some "jane@example.com").

Definition demo_order : OrderCreateIn.t :=
  OrderCreateIn.mk "m-000" None [OrderItemIn.mk "p-000" 1%float 100%float].

(** An order for a product that was never created. *)
Definition ghost_order : OrderCreateIn.t :=
  OrderCreateIn.mk "m-000" None [OrderItemIn.mk "ghost" 5%float 10%float].

Definition with_product : Store :=
  store_after (demo_env "p") (demo_request (CreateProduct demo_product)) empty_store.

Definition with_member : Store :=
  store_after (demo_env "m") (demo_request (CreateMember demo_member)) with_product.

Definition with_verified_member : Store :=
  store_after (demo_env "v")
    (demo_request (VerifyMember "m-000" (MemberVerifyIn.mk "VERIFIED" None None)))
    with_member.

Definition with_order : Store :=
  store_after (demo_env "o") (demo_request (CreateOrder demo_order)) with_verified_member.

Definition with_finalized_order : Store :=
  store_after (demo_env "f") (demo_request (FinalizeOrder "o-000")) with_order.

Definition with_ghost_order : Store :=
  store_after (demo_env "g") (demo_request (CreateOrder ghost_order)) with_verified_member.

(** An order with no item, and a waste of a negative quantity. *)
Definition empty_order : OrderCreateIn.t := OrderCreateIn.mk "m-000" None [].

Definition negative_waste : InventoryMovementIn.t :=
  InventoryMovementIn.mk "p-000" (-3)%float None.

(** The order rows the scenario places. *)
Definition demo_placed_order : Order.t :=
  placed_order (demo_env "o") "staff-123" demo_order 0 0.

Definition ghost_placed_order : Order.t :=
  placed_order (demo_env "g") "staff-123" ghost_order 0 0.

Definition demo_receive : InventoryMovementIn.t :=
  InventoryMovementIn.mk "p-000" 5%float (Some "delivery").


(** ** Reads of one row

    The routes that fetch one row by its id.  The list routes sort by
    [created_at], which leaves the order of rows of one instant to SQLite;
    they are not modelled. *)


(** [get_item] of [build_crud_routes] *)
Definition get_item {Row : Type} (table : Store -> list Row) (row_id : Row -> string)
    (to_json : Row -> Content) (item_id : string) : M Content :=
  row <- db_conn (select (fun s => fetchone row_id item_id (table s))) ;;
  match row with
  | None => raise (HTTPException 404 "Not found")
  | Some r => ret (to_json r)
  end.

Definition get_supplier : string -> M Content := get_item suppliers Supplier.id SupplierJson.
Definition get_product : string -> M Content := get_item products Product.id ProductJson.

(** ** Further notions the statements use *)

(** The string [parse_staff_id] hands to the decoder for the second segment
    of a token: [parts[1] + "=" * (-len(parts[1]) % 4)]. *)
Definition payload_raw (part1 : string) : string :=
  part1 ++ equals_signs (Z.to_nat ((- Z.of_nat (String.length part1)) mod 4)).

(** [s[n:]] *)
Fixpoint drop (n : nat) (s : string) : string :=
  match n, s with
  | O, _ => s
  | S k, EmptyString => EmptyString
  | S k, String _ rest => drop k rest
  end.

(** What [parse_staff_id] makes of the claims of a decoded token. *)
Definition staff_of_claims (payload : option (list (string * Value))) : Value :=
  match payload with
  | Some d =>
      match claim "sub" d with
      | Some sub => sub
      | None => match claim "username" d with
                | Some username => username
                | None => VStr "unknown"
                end
      end
  | None => VStr "unknown"
  end.

(** The fields of a datetime are within the widths they print in. *)
Definition printable (dt : datetime) : Prop :=
  (year dt < 10000 /\ month dt < 100 /\ day dt < 100
   /\ hour dt < 100 /\ minute dt < 100 /\ second dt < 100)%N.

(** The tables, and those a route writes to. *)
Inductive Table : Type :=
| Members | MemberVerifications | Suppliers | Products
| InventoryMovements | Orders | OrderItems | AuditEvents.

Definition writes (e : Endpoint) : list Table :=
  match e with
  | CreateMember _ | UpdateMember _ _ | DeleteMember _ => [Members]
  | VerifyMember _ _ => [MemberVerifications; Members]
  | CreateSupplier _ | UpdateSupplier _ _ | DeleteSupplier _ => [Suppliers]
  | CreateProduct _ | UpdateProduct _ _ | DeleteProduct _ => [Products]
  | InventoryReceive _ | InventoryAdjust _ | InventoryWaste _ => [InventoryMovements]
  | CreateOrder _ => [Orders; OrderItems]
  | FinalizeOrder _ => [InventoryMovements; Orders]
  | StaffLogin | NoWrite _ _ _ => []
  end.

Definition same_table (t : Table) (a b : Store) : Prop :=
  match t with
  | Members => members a = members b
  | MemberVerifications => member_verifications a = member_verifications b
  | Suppliers => suppliers a = suppliers b
  | Products => products a = products b
  | InventoryMovements => inventory_movements a = inventory_movements b
  | Orders => orders a = orders b
  | OrderItems => order_items a = order_items b
  | AuditEvents => audit_events a = audit_events b
  end.

(** The kind and the payload of an inventory route. *)
Definition inventory_request (e : Endpoint) : option (string * InventoryMovementIn.t) :=
  match e with
  | InventoryReceive payload => Some ("RECEIVE", payload)
  | InventoryAdjust payload => Some ("ADJUST", payload)
  | InventoryWaste payload => Some ("WASTE", payload)
  | _ => None
  end.

(** The sign convention of the ledger. *)
Definition sign_by_type (r : InventoryMovement.t) : Prop :=
  (InventoryMovement.movement_type r = "RECEIVE"
   /\ PrimFloat.ltb 0 (InventoryMovement.quantity r) = true)
  \/ (InventoryMovement.movement_type r = "WASTE"
      /\ PrimFloat.ltb (InventoryMovement.quantity r) 0 = true)
  \/ (InventoryMovement.movement_type r = "ADJUST"
      /\ PrimFloat.ltb (InventoryMovement.quantity r) 0
         || PrimFloat.ltb 0 (InventoryMovement.quantity r) = true)
  \/ (InventoryMovement.movement_type r = "DISPENSE"
      /\ PrimFloat.ltb (InventoryMovement.quantity r) 0 = true).

(** An order line as [create_order] stores it for an item of the payload. *)
Definition line_of (order_id : string) (item : OrderItemIn.t) (row : OrderItem.t) : Prop :=
  OrderItem.order_id row = order_id
  /\ OrderItem.product_id row = OrderItemIn.product_id item
  /\ OrderItem.quantity row = OrderItemIn.quantity item
  /\ OrderItem.unit_price row = OrderItemIn.unit_price item.

(** ** The transitions, route by route

    What a routed request does to the tables when it changes them, with
    what the handler has checked before. *)
Inductive transition (s : Store) : Endpoint -> Store -> Prop :=
| step_none (e : Endpoint) :
    transition s e s
| step_create_member (payload : MemberIn.t) (row : Member.t) :
    Member.status row = "PENDING" ->
    Member.member_number row = MemberIn.member_number payload ->
    has_value Member.id (Member.id row) (members s) = false ->
    has_value Member.member_number (Member.member_number row) (members s) = false ->
    transition s (CreateMember payload) (set_members (members s ++ [row])%list s)
| step_update_member (member_id : string) (payload : MemberIn.t) (now : string) :
    update_collides Member.id Member.member_number member_id
      (MemberIn.member_number payload) (members s) = false ->
    transition s (UpdateMember member_id payload)
      (set_members (update_where Member.id member_id (set_profile payload now) (members s)) s)
| step_delete_member (member_id : string) :
    transition s (DeleteMember member_id)
      (set_members (delete_where Member.id member_id (members s)) s)
| step_verify_member (member_id : string) (payload : MemberVerifyIn.t)
    (v : MemberVerification.t) (now : string) :
    MemberVerifyIn.outcome payload = "VERIFIED"
    \/ MemberVerifyIn.outcome payload = "REJECTED" ->
    fetchone Member.id member_id (members s) <> None ->
    MemberVerification.member_id v = member_id ->
    MemberVerification.outcome v = MemberVerifyIn.outcome payload ->
    transition s (VerifyMember member_id payload)
      (set_members
         (update_where Member.id member_id
            (set_status (MemberVerifyIn.outcome payload) now) (members s))
         (set_member_verifications (member_verifications s ++ [v])%list s))
| step_suppliers (e : Endpoint) (rows : list Supplier.t) :
    writes e = [Suppliers] ->
    transition s e (set_suppliers rows s)
| step_products (e : Endpoint) (rows : list Product.t) :
    writes e = [Products] ->
    transition s e (set_products rows s)
| step_movement (e : Endpoint) (kind : string) (payload : InventoryMovementIn.t)
    (row : InventoryMovement.t) :
    inventory_request e = Some (kind, payload) ->
    policy_requires kind (InventoryMovementIn.quantity payload) = true ->
    fetchone Product.id (InventoryMovementIn.product_id payload) (products s) <> None ->
    InventoryMovement.movement_type row = kind ->
    InventoryMovement.product_id row = InventoryMovementIn.product_id payload ->
    InventoryMovement.quantity row
    = policy_stores kind (InventoryMovementIn.quantity payload) ->
    transition s e (set_inventory_movements (inventory_movements s ++ [row])%list s)
| step_create_order (payload : OrderCreateIn.t) (o : Order.t) (rows : list OrderItem.t) :
    Order.status o = "PLACED" ->
    Order.completed_at o = None ->
    Order.member_id o = OrderCreateIn.member_id payload ->
    status_of (OrderCreateIn.member_id payload) s = Some "VERIFIED" ->
    has_value Order.id (Order.id o) (orders s) = false ->
    has_value Order.order_number (Order.order_number o) (orders s) = false ->
    OrderCreateIn.items payload <> [] ->
    forallb valid_item (OrderCreateIn.items payload) = true ->
    Forall2 (line_of (Order.id o)) (OrderCreateIn.items payload) rows ->
    transition s (CreateOrder payload)
      (set_order_items (order_items s ++ rows)%list (set_orders (orders s ++ [o])%list s))
| step_finalize_order (order_id : string) (o : Order.t) (now : string)
    (rows : list InventoryMovement.t) :
    fetchone Order.id order_id (orders s) = Some o ->
    (Order.status o =? "COMPLETED") = false ->
    status_of (Order.member_id o) s = Some "VERIFIED" ->
    items_of order_id s <> [] ->
    Forall2 (dispenses o) (items_of order_id s) rows ->
    transition s (FinalizeOrder order_id)
      (set_orders (update_where Order.id order_id (complete now) (orders s))
         (set_inventory_movements (inventory_movements s ++ rows)%list s)).

(** Every line belongs to a stored order, and every stored order has a
    line. *)
Record lines_and_orders (s : Store) : Prop := mk_lines_and_orders {
  lines_have_an_order :
    forall it, In it (order_items s) ->
               has_value Order.id (OrderItem.order_id it) (orders s) = true;
  orders_have_a_line :
    forall o, In o (orders s) -> items_of (Order.id o) s <> []
}.

Definition valid_line (it : OrderItem.t) : Prop :=
  PrimFloat.ltb 0 (OrderItem.quantity it) = true
  /\ PrimFloat.leb 0 (OrderItem.unit_price it) = true.

(** The exceptions of sqlite3 when a statement is executed: a parameter it
    cannot bind, or a constraint of the schema. *)
Definition store_error (e : Exn) : Prop :=
  match e with
  | IntegrityError _ | ProgrammingError _ | OverflowError _ | UnicodeEncodeError => True
  | _ => False
  end.

(** The exceptions the handlers raise on purpose, or get from the store. *)
Definition foreseen (e : Exn) : Prop :=
  match e with
  | HTTPException status _ => status = 400%Z \/ status = 404%Z
  | _ => store_error e
  end.

(** The status of a member row is the initial one, or the outcome of a
    verification on record for that member. *)
Definition decided_on_record (s : Store) (m : Member.t) : Prop :=
  Member.status m = "PENDING"
  \/ ((Member.status m = "VERIFIED" \/ Member.status m = "REJECTED")
      /\ exists v, In v (member_verifications s)
                   /\ MemberVerification.member_id v = Member.id m
                   /\ MemberVerification.outcome v = Member.status m).

(** ** The scenario, continued *)

(** A request that carries a bearer token in place of the staff header.  The
    second segment of the token is the base64url text of the JSON object
    with the one claim sub = staff-7, its padding stripped; the decoder of
    [token_env] knows that one text. *)
Definition demo_token : string := "eyJhbGciOiJub25lIn0.eyJzdWIiOiJzdGFmZi03In0.sig".

Definition token_env : Env :=
  mk_env (fun k => "t-" ++ zero_padded 3 (N.of_nat k))
         (fun _ => demo_clock)
         (fun raw => if raw =? "eyJzdWIiOiJzdGFmZi03In0="
                     then Some [("sub", VStr "staff-7")] else None)
         (fun _ => "").

Definition token_request (e : Endpoint) : Request :=
  mk_request e (path_of e) [("authorization", "Bearer " ++ demo_token)] [] [].

(** The same token read by a decoder under which its claim sub is a list. *)
Definition list_token_env : Env :=
  mk_env (fun k => "l-" ++ zero_padded 3 (N.of_nat k))
         (fun _ => demo_clock)
         (fun _ => Some [("sub", VList [VStr "a"])])
         (fun _ => "").

(** A delivery of a quantity that JSON cannot spell. *)
Definition endless_receive : InventoryMovementIn.t :=
  InventoryMovementIn.mk "p-000" infinity None.

Definition demo_rejection : MemberVerifyIn.t :=
  MemberVerifyIn.mk "REJECTED" (Some "document expired") None.

Definition demo_supplier : SupplierIn.t :=
  SupplierIn.mk "Acme" "ACME" None None None None true.


(** A waste of two units, and a delivery of nothing for a product that was
    never created. *)
Definition demo_waste : InventoryMovementIn.t :=
  InventoryMovementIn.mk "p-000" 2%float None.

Definition nothing_for_ghost : InventoryMovementIn.t :=
  InventoryMovementIn.mk "ghost" 0%float None.

(** POST /suppliers?a=1&b=2&a=3 with a body of four characters, the last
    one beyond the basic plane. *)
Definition query_request : Request :=
  mk_request (CreateSupplier demo_supplier) "/suppliers"
    [("x-staff-id", "staff-123")]
    [("a", "1"); ("b", "2"); ("a", "3")]
    [123; 34; 125; 128512]%N.

(** * Theorems *)

(** ** Comparisons of quantities *)

Lemma Prim2SF_zero : Prim2SF 0%float = S754_zero false.
Proof. reflexivity. Qed.

Lemma positive_not_le_zero (q : float) :
  PrimFloat.ltb 0 q = true -> PrimFloat.leb q 0 = false.
Proof.
  rewrite ltb_spec, leb_spec, Prim2SF_zero. unfold SFltb, SFleb.
  destruct (Prim2SF q) as [ [] | [] | | [] m e ]; simpl; congruence.
Qed.

Lemma positive_not_nan (q : float) :
  PrimFloat.ltb 0 q = true -> is_nan q = false.
Proof.
  unfold is_nan. rewrite ltb_spec, eqb_spec, Prim2SF_zero. unfold SFltb, SFeqb.
  destruct (Prim2SF q) as [ [] | [] | | [] m e ]; simpl; try congruence;
    intros _; rewrite Z.compare_refl, Pos.compare_cont_refl; reflexivity.
Qed.

Lemma not_le_zero_positive (q : float) :
  PrimFloat.leb q 0 = false -> is_nan q = false -> PrimFloat.ltb 0 q = true.
Proof.
  unfold is_nan. rewrite ltb_spec, leb_spec, eqb_spec, Prim2SF_zero. unfold SFltb, SFleb, SFeqb.
  destruct (Prim2SF q) as [ [] | [] | | [] m e ]; simpl; congruence.
Qed.

Lemma neg_abs_positive (q : float) :
  PrimFloat.ltb 0 q = true -> neg_abs q = PrimFloat.opp q.
Proof.
  intros H. apply Prim2SF_inj. unfold neg_abs. rewrite !opp_spec, abs_spec.
  revert H. rewrite ltb_spec, Prim2SF_zero. unfold SFltb.
  destruct (Prim2SF q) as [ [] | [] | | [] m e ]; simpl; congruence.
Qed.

Lemma is_nan_spec (q : float) : is_nan q = true <-> Prim2SF q = S754_nan.
Proof.
  unfold is_nan. rewrite eqb_spec. unfold SFeqb.
  destruct (Prim2SF q) as [ [] | [] | | [] m e ]; simpl;
    rewrite ?Z.compare_refl, ?Pos.compare_cont_refl; simpl; split; congruence.
Qed.

Lemma is_nan_neg_abs (q : float) : is_nan (neg_abs q) = is_nan q.
Proof.
  apply eq_true_iff_eq. rewrite !is_nan_spec. unfold neg_abs.
  rewrite opp_spec, abs_spec.
  destruct (Prim2SF q) as [ [] | [] | | [] m e ]; simpl; split; congruence.
Qed.


Lemma nonzero_number (q : float) :
  PrimFloat.eqb q 0 = false -> is_nan q = false ->
  PrimFloat.ltb q 0 || PrimFloat.ltb 0 q = true.
Proof.
  unfold is_nan. rewrite !ltb_spec, !eqb_spec, Prim2SF_zero. unfold SFltb, SFeqb.
  destruct (Prim2SF q) as [ [] | [] | | [] m e ]; simpl; congruence.
Qed.

Lemma nonzero_not_eq_zero (q : float) :
  PrimFloat.ltb q 0 || PrimFloat.ltb 0 q = true -> PrimFloat.eqb q 0 = false.
Proof.
  rewrite !ltb_spec, !eqb_spec, Prim2SF_zero. unfold SFltb, SFeqb.
  destruct (Prim2SF q) as [ [] | [] | | [] m e ]; simpl; congruence.
Qed.

Lemma nonzero_not_nan (q : float) :
  PrimFloat.ltb q 0 || PrimFloat.ltb 0 q = true -> is_nan q = false.
Proof.
  unfold is_nan. rewrite !ltb_spec, !eqb_spec, Prim2SF_zero. unfold SFltb, SFeqb.
  destruct (Prim2SF q) as [ [] | [] | | [] m e ]; simpl; try congruence;
   intros _; rewrite ?Z.compare_refl, ?Pos.compare_cont_refl; reflexivity.
Qed.

(** ** Facts on the tables *)

Lemma has_value_false {Row : Type} (col : Row -> string) (v : string) (rows : list Row) :
  has_value col v rows = false <-> ~ In v (map col rows).
Proof.
  unfold has_value. induction rows as [|r rows IH]; simpl.
  - tauto.
  - rewrite orb_false_iff, IH, String.eqb_neq. tauto.
Qed.

Lemma has_value_true {Row : Type} (col : Row -> string) (v : string) (rows : list Row) :
  has_value col v rows = true <-> In v (map col rows).
Proof.
  unfold has_value. induction rows as [|r rows IH]; simpl.
  - split; [discriminate | tauto].
  - rewrite orb_true_iff, IH, String.eqb_eq. tauto.
Qed.

Section TableFacts.
Context {Row : Type}.
Variable pk : Row -> string.

Lemma fetchone_none (key : string) (rows : list Row) :
  fetchone pk key rows = None <-> has_value pk key rows = false.
Proof.
  unfold fetchone, has_value. induction rows as [|r rows IH]; simpl.
  - tauto.
  - destruct (pk r =? key); simpl; [split; discriminate | exact IH].
Qed.

Lemma fetchone_some (key : string) (rows : list Row) (r : Row) :
  fetchone pk key rows = Some r -> pk r = key /\ In r rows.
Proof.
  unfold fetchone. intros H. apply find_some in H. destruct H as [Hin Heq].
  apply String.eqb_eq in Heq. auto.
Qed.

Lemma fetchone_app (key : string) (rows more : list Row) :
  fetchone pk key (rows ++ more) =
  match fetchone pk key rows with
  | Some r => Some r
  | None => fetchone pk key more
  end.
Proof.
  unfold fetchone. induction rows as [|r rows IH]; simpl; [reflexivity|].
  destruct (pk r =? key); [reflexivity | exact IH].
Qed.

Lemma fetchone_inserted (rows : list Row) (r : Row) :
  has_value pk (pk r) rows = false ->
  fetchone pk (pk r) (rows ++ [r]) = Some r.
Proof.
  intros H. rewrite fetchone_app. apply fetchone_none in H. rewrite H.
  unfold fetchone. simpl. rewrite String.eqb_refl. reflexivity.
Qed.

Lemma fetchone_update_where (key : string) (f : Row -> Row) (rows : list Row) (r : Row) :
  (forall x, pk (f x) = pk x) ->
  fetchone pk key rows = Some r ->
  fetchone pk key (update_where pk key f rows) = Some (f r).
Proof.
  intros Hf. unfold fetchone, update_where.
  induction rows as [|x rows IH]; simpl; [discriminate|].
  destruct (pk x =? key) eqn:E.
  - intros [= <-]. rewrite Hf, E. reflexivity.
  - rewrite E. exact IH.
Qed.

Lemma update_where_ids (key : string) (f : Row -> Row) (rows : list Row) :
  (forall x, pk (f x) = pk x) ->
  map pk (update_where pk key f rows) = map pk rows.
Proof.
  intros Hf. unfold update_where. rewrite map_map. apply map_ext.
  intros x. destruct (pk x =? key); auto.
Qed.

Lemma update_where_unique (key : string) (f : Row -> Row) (rows : list Row) (r : Row) :
  NoDup (map pk rows) ->
  In r rows -> pk r <> key ->
  In r (update_where pk key f rows).
Proof.
  intros _ Hin Hne. unfold update_where. apply in_map_iff. exists r.
  split; [|exact Hin]. destruct (pk r =? key) eqn:E; [|reflexivity].
  apply String.eqb_eq in E. contradiction.
Qed.

Lemma fetchone_of_unique (rows : list Row) (r : Row) :
  NoDup (map pk rows) -> In r rows -> fetchone pk (pk r) rows = Some r.
Proof.
  unfold fetchone. induction rows as [|x rows IH]; simpl; [tauto|].
  intros Hnd [-> | Hin].
  - rewrite String.eqb_refl. reflexivity.
  - inversion Hnd as [|? ? Hx Hrest]; subst.
    destruct (pk x =? pk r) eqn:E.
    + apply String.eqb_eq in E. exfalso. apply Hx. rewrite E. now apply in_map.
    + auto.
Qed.

End TableFacts.

(** ** Running the handlers *)

Ltac monad_unfold :=
  cbv beta iota delta
    [bind ret raise select execute uuid4 datetime_now utc_now ask staff_id_of
     check_constraint not_null bind_parameter dict db_conn];
  cbn [db uuid_calls clock_calls fst snd].

Ltac monad_unfold_in H :=
  cbv beta iota delta
    [bind ret raise select execute uuid4 datetime_now utc_now ask staff_id_of
     check_constraint not_null bind_parameter dict db_conn] in H;
  cbn [db uuid_calls clock_calls fst snd] in H.

Lemma fresh_ids_cons (i : string) (ids existing : list string) :
  fresh_ids (i :: ids) existing ->
  ~ In i existing /\ fresh_ids ids (existing ++ [i]).
Proof.
  intros [Hnd Hout]. inversion Hnd as [|? ? Hi Hrest]; subst. split.
  - apply Hout. now left.
  - split; [exact Hrest|]. intros j Hj Hin. apply in_app_or in Hin.
    destruct Hin as [Hin | [-> | []]].
    + apply (Hout j); [now right | exact Hin].
    + contradiction.
Qed.

Lemma uuids_from_cons (env : Env) (k n : nat) :
  uuids_from env k (S n) = uuid_values env k :: uuids_from env (S k) n.
Proof. reflexivity. Qed.

Lemma adapt_stored (env : Env) (request : Request) (staff : string) :
  stored_staff_id env request = Some staff ->
  adapt env (parse_staff_id env request) = Cell (Some staff).
Proof.
  unfold stored_staff_id. destruct (adapt env _) as [c| | |]; try discriminate.
  now intros ->.
Qed.

Lemma for_each_dispense_returns (env : Env) (o : Order.t) (staff_id : Value)
    (staff now : string) (items : list OrderItem.t) :
  forall (s : Store) (k c : nat),
  adapt env staff_id = Cell (Some staff) ->
  fresh_ids (uuids_from env k (List.length items))
            (map InventoryMovement.id (inventory_movements s)) ->
  Forall (fun it => is_nan (OrderItem.quantity it) = false) items ->
  for_each items (fun item =>
      movement_id <- uuid4 ;;
      staff <- bind_parameter "5" staff_id ;;
      insert_inventory_movement (neg_abs (OrderItem.quantity item)) staff
        (fun staff => dispense_row movement_id o staff now item))
    env (mk_world s k c)
  = (Return tt,
     mk_world
       (set_inventory_movements
          (inventory_movements s ++ dispense_rows env k o staff now items)%list s)
       (k + List.length items) c).
Proof.
  induction items as [|item rest IH]; intros s k c Hstaff Hfresh Hnum.
  - simpl. unfold ret. rewrite app_nil_r, Nat.add_0_r. destruct s; reflexivity.
  - simpl List.length in *. rewrite uuids_from_cons in Hfresh.
    apply fresh_ids_cons in Hfresh. destruct Hfresh as [Hnew Hrest].
    inversion Hnum as [|? ? Hq Hnum']; subst.
    apply has_value_false in Hnew.
    cbn [for_each dispense_rows]. unfold insert_inventory_movement. monad_unfold.
    rewrite Hstaff. monad_unfold. rewrite is_nan_neg_abs, Hq. monad_unfold.
    cbn [dispense_row InventoryMovement.id]. rewrite Hnew.
    rewrite IH.
    + cbn [inventory_movements set_inventory_movements].
      rewrite <- app_assoc. simpl. f_equal. f_equal. lia.
    + exact Hstaff.
    + cbn [inventory_movements set_inventory_movements]. rewrite map_app. exact Hrest.
    + exact Hnum'.
Qed.

Lemma for_each_dispense_inv (env : Env) (o : Order.t) (staff_id : Value) (now : string)
    (items : list OrderItem.t) :
  forall (s : Store) (k c : nat) (r : Result unit) (w' : World),
  for_each items (fun item =>
      movement_id <- uuid4 ;;
      staff <- bind_parameter "5" staff_id ;;
      insert_inventory_movement (neg_abs (OrderItem.quantity item)) staff
        (fun staff => dispense_row movement_id o staff now item))
    env (mk_world s k c) = (r, w') ->
  (r = Return tt
   /\ Forall (fun it => is_nan (OrderItem.quantity it) = false) items
   /\ exists staff,
        (items <> [] -> adapt env staff_id = Cell (Some staff))
        /\ w' = mk_world
             (set_inventory_movements
                (inventory_movements s ++ dispense_rows env k o staff now items)%list s)
             (k + List.length items) c)
  \/ (exists e, r = Raise e /\ store_error e).
Proof.
  induction items as [|item rest IH]; intros s k c r w'.
  - simpl. unfold ret. intros [= <- <-]. left. split; [reflexivity|].
    split; [constructor|]. exists "". split; [congruence|].
    rewrite app_nil_r, Nat.add_0_r. destruct s; reflexivity.
  - cbn [for_each dispense_rows]. unfold insert_inventory_movement. monad_unfold.
    destruct (adapt env staff_id) as [[staff|]| | |] eqn:Hstaff; monad_unfold;
      try (intros [= <- <-]; right; eexists; split; [reflexivity | exact I]).
    + destruct (is_nan _) eqn:Hq; monad_unfold;
        [intros [= <- <-]; right; eexists; split; [reflexivity | exact I]|].
      rewrite is_nan_neg_abs in Hq.
      cbn [dispense_row InventoryMovement.id].
      destruct (has_value _ _ _); monad_unfold;
        [intros [= <- <-]; right; eexists; split; [reflexivity | exact I]|].
      intros H. apply IH in H. destruct H as [[-> (Hnum & staff' & Hst & ->)] | H];
        [left | right; exact H].
      split; [reflexivity|]. split; [constructor; assumption|].
      exists staff. split; [reflexivity|].
      cbn [inventory_movements set_inventory_movements].
      assert (Hrows : dispense_rows env (S k) o staff' now rest
                      = dispense_rows env (S k) o staff now rest).
      { destruct rest as [|x rest']; [reflexivity|].
        assert (Cell (Some staff') = Cell (Some staff)) as [= ->]
          by (rewrite <- Hst by discriminate; reflexivity).
        reflexivity. }
      rewrite Hrows, <- app_assoc. simpl. f_equal. lia.
    + destruct (is_nan _); monad_unfold;
        intros [= <- <-]; right; eexists; (split; [reflexivity | exact I]).
Qed.

Lemma complete_id (now : string) (o : Order.t) : Order.id (complete now o) = Order.id o.
Proof. reflexivity. Qed.

Lemma require_verified_member_run (member_id : string) (env : Env) (w : World) :
  require_verified_member member_id env w =
  match status_of member_id (db w) with
  | None => (Raise (HTTPException 404 "Member not found"), w)
  | Some st => if st =? "VERIFIED" then (Return tt, w) else (Raise IneligibleMember, w)
  end.
Proof.
  unfold require_verified_member, status_of. monad_unfold.
  destruct (fetchone _ _ _) as [m|]; simpl; [|reflexivity].
  destruct (Member.status m =? "VERIFIED"); reflexivity.
Qed.

(** ** [finalize_order], path by path *)

Section Finalize.
Variables (env : Env) (request : Request) (order_id : string).
Variables (s : Store) (k c : nat).

Lemma finalize_order_not_found :
  fetchone Order.id order_id (orders s) = None ->
  finalize_order order_id request env (mk_world s k c)
  = (Raise (HTTPException 404 "Order not found"), mk_world s k (S c)).
Proof.
  intros H. unfold finalize_order. monad_unfold. rewrite H. reflexivity.
Qed.


Lemma finalize_order_ineligible (o : Order.t) (st : string) :
  fetchone Order.id order_id (orders s) = Some o ->
  Order.status o <> "COMPLETED" ->
  status_of (Order.member_id o) s = Some st ->
  st <> "VERIFIED" ->
  finalize_order order_id request env (mk_world s k c)
  = (Raise IneligibleMember, mk_world s k (S c)).
Proof.
  intros H Hst Hm Hne. unfold finalize_order.
  cbv beta iota delta [bind utc_now datetime_now ret db_conn select raise].
  cbn [db uuid_calls clock_calls]. rewrite H.
  apply String.eqb_neq in Hst. rewrite Hst.
  rewrite require_verified_member_run. cbn [db]. rewrite Hm.
  apply String.eqb_neq in Hne. rewrite Hne. reflexivity.
Qed.

Lemma finalize_order_returns (o : Order.t) (staff : string) :
  fetchone Order.id order_id (orders s) = Some o ->
  Order.status o <> "COMPLETED" ->
  status_of (Order.member_id o) s = Some "VERIFIED" ->
  items_of order_id s <> [] ->
  stored_staff_id env request = Some staff ->
  fresh_ids (uuids_from env k (List.length (items_of order_id s)))
            (map InventoryMovement.id (inventory_movements s)) ->
  Forall (fun it => PrimFloat.is_nan (OrderItem.quantity it) = false) (items_of order_id s) ->
  finalize_order order_id request env (mk_world s k c)
  = (Return (OrderJson (complete (isoformat (clock_values env c)) o)),
     mk_world
       (set_orders (update_where Order.id order_id (complete (isoformat (clock_values env c))) (orders s))
          (set_inventory_movements
             (inventory_movements s
              ++ dispense_rows env k o staff
                   (isoformat (clock_values env c)) (items_of order_id s))%list s))
       (k + List.length (items_of order_id s)) (S c)).
Proof.
  intros H Hst Hm Hitems Hstaff Hfresh Hnum. unfold finalize_order. monad_unfold.
  rewrite H. apply String.eqb_neq in Hst. rewrite Hst.
  rewrite require_verified_member_run. cbn [db]. rewrite Hm. simpl (_ =? _).
  monad_unfold. remember (items_of order_id s) as items eqn:Eitems.
  destruct items as [|item rest]; [congruence|]. monad_unfold.
  match goal with
  | |- context [for_each ?l ?b env ?w] =>
      rewrite (for_each_dispense_returns env o (parse_staff_id env request) staff
                 (isoformat (clock_values env c)) (item :: rest) s k (S c)
                 (adapt_stored env request staff Hstaff) Hfresh Hnum
               : for_each l b env w = _)
  end.
  monad_unfold. cbn [orders set_orders set_inventory_movements].
  rewrite (fetchone_update_where Order.id order_id _ (orders s) o (complete_id _) H).
  reflexivity.
Qed.

Lemma finalize_order_cases (r : Result Content) (w' : World) :
  finalize_order order_id request env (mk_world s k c) = (r, w') ->
  (exists e, r = Raise e /\ db w' = s)
  \/ (exists o staff,
        fetchone Order.id order_id (orders s) = Some o
        /\ (Order.status o =? "COMPLETED") = false
        /\ status_of (Order.member_id o) s = Some "VERIFIED"
        /\ items_of order_id s <> []
        /\ stored_staff_id env request = Some staff
        /\ Forall (fun it => is_nan (OrderItem.quantity it) = false) (items_of order_id s)
        /\ r = Return (OrderJson (complete (isoformat (clock_values env c)) o))
        /\ w' = mk_world
             (set_orders (update_where Order.id order_id (complete (isoformat (clock_values env c))) (orders s))
                (set_inventory_movements
                   (inventory_movements s
                    ++ dispense_rows env k o staff
                   (isoformat (clock_values env c)) (items_of order_id s))%list s))
             (k + List.length (items_of order_id s)) (S c)).
Proof.
  unfold finalize_order.
  cbv beta iota delta [bind utc_now datetime_now ret db_conn select raise].
  cbn [db uuid_calls clock_calls].
  destruct (fetchone Order.id order_id (orders s)) as [o|] eqn:H;
    [|intros [= <- <-]; left; eauto].
  destruct (Order.status o =? "COMPLETED") eqn:Hst; [intros [= <- <-]; left; eauto|].
  rewrite require_verified_member_run. cbn [db].
  destruct (status_of (Order.member_id o) s) as [st|] eqn:Hm;
    [|intros [= <- <-]; left; eauto].
  destruct (st =? "VERIFIED") eqn:Hv; [|intros [= <- <-]; left; eauto].
  apply String.eqb_eq in Hv. subst st. monad_unfold.
  destruct (items_of order_id s) as [|item rest] eqn:Eitems;
    [intros [= <- <-]; left; eauto|].
  monad_unfold.
  destruct (for_each (item :: rest) _ env _) as [r1 w1] eqn:Eloop.
  apply (for_each_dispense_inv env o (parse_staff_id env request)
           (isoformat (clock_values env c))) in Eloop.
  destruct Eloop as [[-> (Hnum & staff & Hstaff & ->)] | (e & -> & _)];
    [|intros [= <- <-]; left; eauto].
  specialize (Hstaff ltac:(discriminate)).
  monad_unfold. cbn [orders set_orders set_inventory_movements].
  rewrite (fetchone_update_where Order.id order_id _ (orders s) o (complete_id _) H).
  intros [= <- <-]. right. exists o, staff.
  repeat (split; [first [assumption | reflexivity | discriminate]|]).
  split; [unfold stored_staff_id; now rewrite Hstaff|].
  split; [exact Hnum|]. split; reflexivity.
Qed.

End Finalize.

(** ** [create_order], path by path *)

Lemma for_each_order_items_inv (env : Env) (order_id now : string)
    (items : list OrderItemIn.t) :
  forall (s : Store) (k c : nat) (r : Result unit) (w' : World),
  for_each items (fun item =>
      item_id <- uuid4 ;;
      insert_order_item
        (OrderItem.mk item_id order_id (OrderItemIn.product_id item)
           (OrderItemIn.quantity item) (OrderItemIn.unit_price item) now))
    env (mk_world s k c) = (r, w') ->
  (r = Return tt
   /\ w' = mk_world
        (set_order_items
           (order_items s ++ order_item_rows env k order_id now items)%list s)
        (k + List.length items) c)
  \/ (exists msg, r = Raise (IntegrityError msg)).
Proof.
  induction items as [|item rest IH]; intros s k c r w'.
  - simpl. unfold ret. intros [= <- <-]. left. split; [reflexivity|].
    rewrite app_nil_r, Nat.add_0_r. destruct s; reflexivity.
  - cbn [for_each order_item_rows]. unfold insert_order_item. monad_unfold.
    cbn [OrderItem.id OrderItem.quantity OrderItem.unit_price].
    destruct (PrimFloat.is_nan (OrderItemIn.quantity item)); monad_unfold;
      [intros [= <- <-]; right; eauto|].
    destruct (PrimFloat.is_nan (OrderItemIn.unit_price item)); monad_unfold;
      [intros [= <- <-]; right; eauto|].
    destruct (has_value _ _ _); monad_unfold; [intros [= <- <-]; right; eauto|].
    intros H. apply IH in H. destruct H as [[-> ->] | H]; [left | right; exact H].
    split; [reflexivity|]. cbn [order_items set_order_items].
    rewrite <- app_assoc. simpl. f_equal. lia.
Qed.

Lemma for_each_order_items_returns (env : Env) (order_id now : string)
    (items : list OrderItemIn.t) :
  forall (s : Store) (k c : nat),
  fresh_ids (uuids_from env k (List.length items)) (map OrderItem.id (order_items s)) ->
  Forall (fun it => valid_item it = true) items ->
  for_each items (fun item =>
      item_id <- uuid4 ;;
      insert_order_item
        (OrderItem.mk item_id order_id (OrderItemIn.product_id item)
           (OrderItemIn.quantity item) (OrderItemIn.unit_price item) now))
    env (mk_world s k c)
  = (Return tt,
     mk_world
       (set_order_items
          (order_items s ++ order_item_rows env k order_id now items)%list s)
       (k + List.length items) c).
Proof.
  induction items as [|item rest IH]; intros s k c Hfresh Hvalid.
  - simpl. unfold ret. rewrite app_nil_r, Nat.add_0_r. destruct s; reflexivity.
  - simpl List.length in *. rewrite uuids_from_cons in Hfresh.
    apply fresh_ids_cons in Hfresh. destruct Hfresh as [Hnew Hrest].
    inversion Hvalid as [|? ? Hq Hvalid']; subst.
    apply has_value_false in Hnew.
    unfold valid_item in Hq. apply andb_true_iff in Hq. destruct Hq as [Hq Hp].
    assert (Hpn : PrimFloat.is_nan (OrderItemIn.unit_price item) = false).
    { revert Hp. unfold PrimFloat.is_nan. rewrite leb_spec, eqb_spec.
      unfold SFleb, SFeqb. change (Prim2SF 0) with (S754_zero false).
      destruct (Prim2SF (OrderItemIn.unit_price item)) as [ [] | [] | | [] m e ];
        simpl; try congruence;
        intros _; rewrite ?Z.compare_refl, ?Pos.compare_cont_refl; reflexivity. }
    cbn [for_each order_item_rows]. unfold insert_order_item. monad_unfold.
    cbn [OrderItem.id OrderItem.quantity OrderItem.unit_price].
    rewrite (positive_not_nan _ Hq). monad_unfold. rewrite Hpn. monad_unfold.
    rewrite Hnew. monad_unfold.
    match goal with
    | |- context [for_each rest ?b env ?w] =>
        rewrite (IH (set_order_items (order_items s ++ [OrderItem.mk (uuid_values env k) order_id
                      (OrderItemIn.product_id item) (OrderItemIn.quantity item)
                      (OrderItemIn.unit_price item) now])%list s) (S k) c
                 : _ -> _ -> for_each rest b env w = _)
    end.
    + cbn [order_items set_order_items].
      rewrite <- app_assoc. simpl. f_equal. f_equal. lia.
    + cbn [order_items set_order_items]. rewrite map_app. exact Hrest.
    + exact Hvalid'.
Qed.

Lemma order_item_rows_positive (env : Env) (order_id now : string)
    (items : list OrderItemIn.t) :
  forall k,
  forallb valid_item items = true ->
  Forall (fun it => PrimFloat.ltb 0 (OrderItem.quantity it) = true)
         (order_item_rows env k order_id now items).
Proof.
  induction items as [|item rest IH]; intros k H; simpl; [constructor|].
  simpl in H. apply andb_true_iff in H. destruct H as [Hitem Hrest].
  constructor; [|apply IH; exact Hrest].
  unfold valid_item in Hitem. apply andb_true_iff in Hitem. simpl. tauto.
Qed.

Section CreateOrder.
Variables (env : Env) (request : Request) (payload : OrderCreateIn.t).
Variables (s : Store) (k c : nat).

Lemma create_order_empty :
  OrderCreateIn.items payload = [] ->
  create_order payload request env (mk_world s k c)
  = (Raise EmptyOrder_create, mk_world s k c).
Proof. intros H. unfold create_order. rewrite H. reflexivity. Qed.

Lemma create_order_ineligible (st : string) :
  OrderCreateIn.items payload <> [] ->
  status_of (OrderCreateIn.member_id payload) s = Some st ->
  st <> "VERIFIED" ->
  create_order payload request env (mk_world s k c)
  = (Raise IneligibleMember, mk_world s (S k) (S (S c))).
Proof.
  intros Hitems Hm Hne. unfold create_order.
  destruct (OrderCreateIn.items payload) as [|item rest]; [congruence|].
  monad_unfold. rewrite require_verified_member_run. cbn [db]. rewrite Hm.
  apply String.eqb_neq in Hne. rewrite Hne. reflexivity.
Qed.

Lemma create_order_cases (r : Result Content) (w' : World) :
  create_order payload request env (mk_world s k c) = (r, w') ->
  (exists e, r = Raise e /\ db w' = s)
  \/ (exists staff,
        stored_staff_id env request = Some staff
        /\ OrderCreateIn.items payload <> []
        /\ status_of (OrderCreateIn.member_id payload) s = Some "VERIFIED"
        /\ has_value Order.id (Order.id (placed_order env staff payload k c)) (orders s) = false
        /\ has_value Order.order_number (Order.order_number (placed_order env staff payload k c)) (orders s) = false
        /\ (exists items, r = Return (OrderWithItemsJson (placed_order env staff payload k c) items))
        /\ w' = mk_world
             (set_order_items
                (order_items s
                 ++ order_item_rows env (S k) (uuid_values env k)
                      (isoformat (clock_values env c)) (OrderCreateIn.items payload))%list
                (set_orders (orders s ++ [(placed_order env staff payload k c)])%list s))
             (S k + List.length (OrderCreateIn.items payload)) (S (S c))).
Proof.
  unfold create_order.
  destruct (OrderCreateIn.items payload) as [|item rest] eqn:Eitems;
    [intros [= <- <-]; left; eauto|].
  monad_unfold. rewrite require_verified_member_run. cbn [db].
  destruct (status_of (OrderCreateIn.member_id payload) s) as [st|] eqn:Hm;
    [|intros [= <- <-]; left; eauto].
  destruct (st =? "VERIFIED") eqn:Hv; [|intros [= <- <-]; left; eauto].
  apply String.eqb_eq in Hv. subst st. unfold insert_order. monad_unfold.
  destruct (adapt env (parse_staff_id env request)) as [[staff|]| | |] eqn:Hstaff;
    monad_unfold; try (intros [= <- <-]; left; eauto).
  cbn [Order.id Order.order_number].
  destruct (has_value Order.order_number _ _) eqn:Hnum; monad_unfold;
    [intros [= <- <-]; left; eauto|].
  destruct (has_value Order.id _ _) eqn:Hid; monad_unfold;
    [intros [= <- <-]; left; eauto|].
  destruct (for_each (item :: rest) _ env _) as [r1 w1] eqn:Eloop.
  apply (for_each_order_items_inv env (uuid_values env k) (isoformat (clock_values env c)))
    in Eloop.
  destruct Eloop as [[-> ->] | [msg ->]]; [|intros [= <- <-]; left; eauto].
  monad_unfold. cbn [orders set_orders set_order_items].
  fold (placed_order env staff payload k c).
  change (uuid_values env k) with (Order.id (placed_order env staff payload k c)) at 1.
  rewrite (fetchone_inserted Order.id (orders s) (placed_order env staff payload k c) Hid).
  intros [= <- <-]. right. exists staff.
  split; [unfold stored_staff_id; now rewrite Hstaff|].
  repeat (split; [first [assumption | reflexivity | discriminate | eauto]|]).
  reflexivity.
Qed.

End CreateOrder.

(** Case analysis on whatever the run in [H] branches on next. *)
Ltac branch H :=
  match type of H with
  | context [match ?x with _ => _ end] =>
      lazymatch x with
      | context [match _ with _ => _ end] => fail
      | _ => destruct x eqn:?
      end
  end; monad_unfold_in H.

Ltac finish H :=
  injection H as <- <-; cbn [db];
  first [ apply effect_none | eauto using effect ].

Lemma staff_login_effect (env : Env) (request : Request) (w : World) r w' :
  staff_login request env w = (r, w') -> db w' = db w.
Proof. unfold staff_login. monad_unfold. intros [= <- <-]. reflexivity. Qed.

Lemma create_member_effect (env : Env) (payload : MemberIn.t) (w : World) r w' :
  create_member payload env w = (r, w') ->
  effect (CreateMember payload) (db w) (db w').
Proof.
  destruct w as [s k c]. unfold create_member, insert_member. monad_unfold.
  cbn [Member.id Member.member_number]. intros H.
  destruct (has_value Member.member_number _ _) eqn:Hnum; monad_unfold_in H; [finish H|].
  destruct (has_value Member.id _ _) eqn:Hid; monad_unfold_in H; [finish H|].
  injection H as <- <-. cbn [db].
  apply (effect_create_member payload
           (Member.mk (uuid_values env k) _ _ _ _ _ _ "PENDING" _ _)).
  - reflexivity.
  - apply fetchone_none. exact Hid.
Qed.

Lemma update_member_effect (env : Env) member_id (payload : MemberIn.t) (w : World) r w' :
  update_member member_id payload env w = (r, w') ->
  effect (UpdateMember member_id payload) (db w) (db w').
Proof.
  destruct w as [s k c]. unfold update_member. monad_unfold. intros H.
  repeat (first [finish H | branch H]).
Qed.

Lemma delete_member_effect (env : Env) member_id (w : World) r w' :
  delete_member member_id env w = (r, w') ->
  effect (DeleteMember member_id) (db w) (db w').
Proof.
  destruct w as [s k c]. unfold delete_member. monad_unfold. intros H.
  repeat (first [finish H | branch H]).
Qed.

Lemma verify_member_effect (env : Env) member_id payload request (w : World) r w' :
  verify_member member_id payload request env w = (r, w') ->
  effect (VerifyMember member_id payload) (db w) (db w').
Proof.
  destruct w as [s k c]. unfold verify_member, insert_member_verification.
  monad_unfold. intros H.
  repeat (first [finish H | branch H]).
Qed.

Section CrudEffect.
Context {Row Payload : Type}.
Variable table : Store -> list Row.
Variable set_table : list Row -> Store -> Store.
Variable row_id : Row -> string.
Variable unique_col : Row -> string.
Variable unique_in : Payload -> string.
Variable table_name : string.
Variable unique_name : string.
Variable new_row : string -> Payload -> string -> string -> Row.
Variable set_fields : Payload -> string -> Row -> Row.
Variable to_json : Row -> Content.

Lemma create_item_effect (env : Env) payload (w : World) r w' :
  create_item table set_table row_id unique_col unique_in table_name unique_name new_row
    to_json payload env w = (r, w') ->
  db w' = db w \/ exists rows, db w' = set_table rows (db w).
Proof.
  destruct w as [s k c]. unfold create_item. monad_unfold. intros H.
  repeat (first [injection H as <- <-; cbn [db]; eauto | branch H]).
Qed.

Lemma update_item_effect (env : Env) item_id payload (w : World) r w' :
  update_item table set_table row_id unique_col unique_in table_name unique_name
    set_fields to_json item_id payload env w = (r, w') ->
  db w' = db w \/ exists rows, db w' = set_table rows (db w).
Proof.
  destruct w as [s k c]. unfold update_item. monad_unfold. intros H.
  repeat (first [injection H as <- <-; cbn [db]; eauto | branch H]).
Qed.

Lemma delete_item_effect (env : Env) item_id (w : World) r w' :
  delete_item table set_table row_id item_id env w = (r, w') ->
  db w' = db w \/ exists rows, db w' = set_table rows (db w).
Proof.
  destruct w as [s k c]. unfold delete_item. monad_unfold. intros H.
  repeat (first [injection H as <- <-; cbn [db]; eauto | branch H]).
Qed.

End CrudEffect.

Lemma create_inventory_movement_effect (env : Env) kind payload request (w : World) r w' :
  create_inventory_movement kind payload request env w = (r, w') ->
  db w' = db w
  \/ exists row, db w' = set_inventory_movements (inventory_movements (db w) ++ [row])%list (db w).
Proof.
  destruct w as [s k c]. unfold create_inventory_movement, insert_inventory_movement.
  monad_unfold. intros H.
  repeat (first [injection H as <- <-; cbn [db]; eauto | branch H]).
Qed.

Lemma handler_effect (env : Env) (request : Request) (w : World) r w' :
  validates (endpoint request) = true ->
  handler request env w = (r, w') ->
  effect (endpoint request) (db w) (db w').
Proof.
  unfold handler. intros Hvalid H.
  destruct (endpoint request) eqn:E.
  - apply staff_login_effect in H. rewrite H. constructor.
  - now apply create_member_effect in H.
  - now apply update_member_effect in H.
  - now apply delete_member_effect in H.
  - now apply verify_member_effect in H.
  - apply create_item_effect in H. destruct H as [-> | [rows ->]]; constructor.
  - apply update_item_effect in H. destruct H as [-> | [rows ->]]; constructor.
  - apply delete_item_effect in H. destruct H as [-> | [rows ->]]; constructor.
  - apply create_item_effect in H. destruct H as [-> | [rows ->]]; constructor.
  - apply update_item_effect in H. destruct H as [-> | [rows ->]]; constructor.
  - apply delete_item_effect in H. destruct H as [-> | [rows ->]]; constructor.
  - apply create_inventory_movement_effect in H. destruct H as [-> | [row ->]]; constructor.
  - apply create_inventory_movement_effect in H. destruct H as [-> | [row ->]]; constructor.
  - apply create_inventory_movement_effect in H. destruct H as [-> | [row ->]]; constructor.
  - destruct w as [s k c]. apply create_order_cases in H.
    destruct H as [[e [-> Hdb]] | (staff & _ & Hitems & Hm & Hid & Hnum & _ & ->)].
    + rewrite Hdb. constructor.
    + cbn [db]. apply effect_create_order; try reflexivity; try assumption.
      apply order_item_rows_positive. exact Hvalid.
  - destruct w as [s k c]. apply finalize_order_cases in H.
    destruct H as [[e [-> Hdb]] | (o & staff & Ho & Hst & _ & _ & _ & _ & _ & ->)].
    + rewrite Hdb. constructor.
    + cbn [db]. now apply effect_finalize_order with (o := o).
  - unfold ret in H. injection H as <- <-. constructor.
Qed.

(** ** The routed application and the middleware *)

Lemma call_next_run (env : Env) (request : Request) (w : World) :
  call_next request env w =
  match endpoint request with
  | NoWrite _ _ response => (Return response, w)
  | e =>
      if validates e then
        match handler request env w with
        | (Return c, w') =>
            match render_error c with
            | None => (Return (mk_response 200 c), w')
            | Some x => (Raise x, w')
            end
        | (Raise (HTTPException status detail), w') =>
            (Return (mk_response status (DetailJson detail)), w')
        | (Raise x, w') => (Raise x, w')
        end
      else if existsb nonfinite (rejected_inputs e) then (Raise ValueError, w)
      else (Return (mk_response 422 ValidationJson), w)
  end.
Proof.
  unfold call_next.
  destruct (endpoint request); try reflexivity;
    destruct (validates _); try reflexivity;
    destruct (existsb nonfinite _); reflexivity.
Qed.

Lemma call_next_effect (env : Env) (request : Request) (w : World) r w' :
  call_next request env w = (r, w') ->
  effect (endpoint request) (db w) (db w').
Proof.
  rewrite call_next_run. intros H.
  destruct (handler request env w) as [r0 w0] eqn:Hrun.
  pose proof (fun Hv => handler_effect env request w r0 w0 Hv Hrun) as Heff.
  assert (Hdone :
    validates (endpoint request) = true ->
    match r0 with
    | Return c =>
        match render_error c with
        | None => (Return (mk_response 200 c), w0)
        | Some x => (Raise x, w0)
        end
    | Raise (HTTPException status detail) =>
        (Return (mk_response status (DetailJson detail)), w0)
    | Raise x => (Raise x, w0)
    end = (r, w') ->
    effect (endpoint request) (db w) (db w')).
  { intros Hv Hr. specialize (Heff Hv).
    destruct r0 as [c0 | e0]; [destruct (render_error c0) | destruct e0];
      injection Hr as <- <-; exact Heff. }
  destruct (validates (endpoint request)) eqn:Hvalid.
  - specialize (Hdone eq_refl).
    destruct (endpoint request) eqn:E; cbn [validates] in H, Hvalid;
      try rewrite Hvalid in H; try (exact (Hdone H)).
    injection H as <- <-. apply effect_none.
  - destruct (endpoint request) eqn:E; cbn [validates] in H, Hvalid;
      try discriminate Hvalid; try rewrite Hvalid in H;
      try (destruct (existsb nonfinite _)); injection H as <- <-; apply effect_none.
Qed.

Lemma bind_parameter_run (position : string) (v : Value) (env : Env) (w : World) :
  bind_parameter position v env w =
  match adapt env v with
  | Cell c => (Return c, w)
  | Unsupported type_name =>
      (Raise (ProgrammingError
                ("Error binding parameter " ++ position ++ ": type '" ++ type_name
                 ++ "' is not supported")), w)
  | TooLarge =>
      (Raise (OverflowError "Python int too large to convert to SQLite INTEGER"), w)
  | Unencodable => (Raise UnicodeEncodeError, w)
  end.
Proof. unfold bind_parameter. monad_unfold. destruct (adapt env v); reflexivity. Qed.

Lemma bind_parameter_cases (position : string) (v : Value) (env : Env) (w : World) :
  (exists c, adapt env v = Cell c /\ bind_parameter position v env w = (Return c, w))
  \/ (exists e, store_error e /\ bind_parameter position v env w = (Raise e, w)).
Proof.
  rewrite bind_parameter_run.
  destruct (adapt env v); [left; eauto | right | right | right];
    eexists; (split; [|reflexivity]); exact I.
Qed.

Lemma serve_run (env : Env) (request : Request) (s : Store) :
  serve env request s =
  match call_next request env (mk_world s 0 0) with
  | (Raise e, w1) => (Raise e, w1)
  | (Return response, w1) =>
      if is_write_method (http_method_of (endpoint request)) then
        let w2 := mk_world (db w1) (S (uuid_calls w1)) (S (clock_calls w1)) in
        match adapt env (parse_staff_id env request) with
        | Cell actor =>
            if has_value AuditEvent.id (uuid_values env (uuid_calls w1))
                 (audit_events (db w1))
            then (Raise (IntegrityError "UNIQUE constraint failed: audit_events.id"), w2)
            else (Return response,
                  mk_world
                    (set_audit_events
                       (audit_events (db w1)
                        ++ [audit_event_of env request response actor
                              (uuid_calls w1) (clock_calls w1)])%list
                       (db w1))
                    (S (uuid_calls w1)) (S (clock_calls w1)))
        | Unsupported type_name =>
            (Raise (ProgrammingError
                      ("Error binding parameter 2: type '" ++ type_name
                       ++ "' is not supported")), w2)
        | TooLarge =>
            (Raise (OverflowError "Python int too large to convert to SQLite INTEGER"), w2)
        | Unencodable => (Raise UnicodeEncodeError, w2)
        end
      else (Return response, w1)
  end.
Proof.
  unfold serve, app, audit_write_middleware.
  cbv beta iota delta [bind].
  destruct (call_next request env (mk_world s 0 0)) as [[response | e] w1]; [|reflexivity].
  destruct (is_write_method (http_method_of (endpoint request))).
  - unfold insert_audit_event. monad_unfold. cbv zeta.
    destruct (adapt env _); try reflexivity.
    monad_unfold. cbn [AuditEvent.id].
    destruct (has_value AuditEvent.id _ _); reflexivity.
  - monad_unfold. destruct w1; reflexivity.
Qed.

Lemma store_after_effect (env : Env) (request : Request) (s : Store) :
  exists s1,
    effect (endpoint request) s s1
    /\ (store_after env request s = s1
        \/ exists ev, store_after env request s
                      = set_audit_events (audit_events s1 ++ [ev])%list s1).
Proof.
  unfold store_after. rewrite serve_run.
  destruct (call_next request env (mk_world s 0 0)) as [r w1] eqn:Hrun.
  apply call_next_effect in Hrun. cbn [db] in Hrun.
  exists (db w1). split; [exact Hrun|].
  destruct r as [response | e]; [|left; reflexivity].
  destruct (is_write_method _); [|left; reflexivity]. cbv zeta.
  destruct (adapt env _); try (left; reflexivity).
  destruct (has_value _ _ _); [left; reflexivity | right; eexists; reflexivity].
Qed.

(** An exception the application does not turn into a response leaves
    through the middleware before the audit row is written. *)
Lemma unhandled_exception_is_not_audited (env : Env) (request : Request) (s : Store)
    (e : Exn) (w1 : World) :
  call_next request env (mk_world s 0 0) = (Raise e, w1) ->
  serve env request s = (Raise e, w1).
Proof. intros H. rewrite serve_run, H. reflexivity. Qed.

(** ** The invariants of the reachable databases *)

Lemma consistent_audit (evs : list AuditEvent.t) (s : Store) :
  consistent s -> consistent (set_audit_events evs s).
Proof. intros [H1 H2 H3 H4]. constructor; assumption. Qed.

Lemma complete_consistent (now : string) (o : Order.t) : order_consistent (complete now o).
Proof. right. split; [reflexivity | discriminate]. Qed.

Lemma effect_consistent (e : Endpoint) (s s1 : Store) :
  effect e s s1 -> consistent s -> consistent s1.
Proof.
  intros Heff [Hids Hnums Hord Hlines].
  destruct Heff; try (constructor; assumption).
  - (* create_order *)
    constructor; cbn [orders order_items set_orders set_order_items].
    + rewrite map_app. simpl. apply NoDup_app; [exact Hids | repeat constructor; simpl; tauto |].
      intros i Hi [<- | []]. apply has_value_false in H1. contradiction.
    + rewrite map_app. simpl. apply NoDup_app; [exact Hnums | repeat constructor; simpl; tauto |].
      intros i Hi [<- | []]. apply has_value_false in H2. contradiction.
    + apply Forall_app. split; [exact Hord|].
      constructor; [left; split; assumption | constructor].
    + apply Forall_app. split; assumption.
  - (* finalize_order *)
    constructor; cbn [orders order_items set_orders set_inventory_movements].
    + rewrite update_where_ids; [exact Hids | reflexivity].
    + unfold update_where. rewrite map_map.
      erewrite map_ext; [exact Hnums|]. intros x. simpl.
      destruct (Order.id x =? order_id); reflexivity.
    + unfold update_where. apply Forall_map. eapply Forall_impl; [|exact Hord].
      intros x Hx. simpl. destruct (Order.id x =? order_id); [apply complete_consistent | exact Hx].
    + exact Hlines.
Qed.

Lemma reachable_consistent (s : Store) : reachable s -> consistent s.
Proof.
  induction 1 as [|s env request Hreach IH].
  - constructor; simpl; constructor.
  - destruct (store_after_effect env request s) as (s1 & Heff & [-> | [ev ->]]).
    + eapply effect_consistent; eassumption.
    + apply consistent_audit. eapply effect_consistent; eassumption.
Qed.

(** No request removes an order or takes it backwards. *)
Lemma effect_orders_forward (e : Endpoint) (s s1 : Store) (o : Order.t) :
  effect e s s1 -> consistent s -> In o (orders s) ->
  (Order.status o = "COMPLETED" -> In o (orders s1))
  /\ (In o (orders s1)
      \/ exists now, Order.status o = "PLACED" /\ In (complete now o) (orders s1)).
Proof.
  intros Heff Hc Hin. destruct Heff; try (split; [intros _|left]; exact Hin).
  - cbn [orders set_orders set_order_items].
    split; [intros _|left]; apply in_or_app; left; exact Hin.
  - cbn [orders set_orders set_inventory_movements].
    destruct (Order.id o =? order_id) eqn:E.
    + apply String.eqb_eq in E. subst order_id.
      rewrite (fetchone_of_unique Order.id (orders s) o (order_ids_unique s Hc) Hin) in H.
      injection H as <-. split.
      * intros Hst. rewrite Hst in H0. discriminate.
      * right. exists now. split.
        -- destruct (Forall_forall order_consistent (orders s)) as [Hall _].
           specialize (Hall (orders_consistent s Hc) o Hin).
           destruct Hall as [[Hp _] | [Hcomp _]]; [exact Hp|].
           rewrite Hcomp in H0. discriminate.
        -- unfold update_where. apply in_map_iff. exists o.
           rewrite String.eqb_refl. split; [reflexivity | exact Hin].
    + apply String.eqb_neq in E.
      assert (In o (update_where Order.id order_id (complete now) (orders s))).
      { apply update_where_unique; [apply (order_ids_unique s Hc) | exact Hin | exact E]. }
      split; [intros _|left]; assumption.
Qed.

Lemma dispense_rows_dispenses (env : Env) (o : Order.t) (staff now : string)
    (items : list OrderItem.t) :
  forall k, Forall2 (dispenses o) items (dispense_rows env k o staff now items).
Proof.
  induction items as [|item rest IH]; intros k; simpl; constructor.
  - repeat split.
  - apply IH.
Qed.

Lemma reachable_lines_numbers (s : Store) (order_id : string) :
  reachable s ->
  Forall (fun it => PrimFloat.is_nan (OrderItem.quantity it) = false) (items_of order_id s).
Proof.
  intros Hreach. apply reachable_consistent in Hreach.
  apply Forall_forall. intros it Hin. apply filter_In in Hin. destruct Hin as [Hin _].
  apply positive_not_nan.
  exact (proj1 (Forall_forall _ _) (order_lines_positive s Hreach) it Hin).
Qed.

Lemma placed_not_completed (o : Order.t) :
  Order.status o = "PLACED" -> Order.status o <> "COMPLETED".
Proof. intros ->. discriminate. Qed.





(** ** [create_inventory_movement], path by path *)

Lemma policy_guards (kind : string) (q : float) :
  public_kind kind ->
  policy_requires kind q = true ->
  (((kind =? "RECEIVE") || (kind =? "WASTE")) && PrimFloat.leb q 0 = false)
  /\ ((kind =? "ADJUST") && PrimFloat.eqb (policy_stores kind q) 0 = false)
  /\ PrimFloat.is_nan (policy_stores kind q) = false.
Proof.
  unfold policy_requires, policy_stores.
  intros [-> | [-> | ->]]; simpl (_ =? _); cbv iota; intros H.
  - rewrite (positive_not_le_zero _ H), (positive_not_nan _ H). auto.
  - fold (neg_abs q).
    rewrite (positive_not_le_zero _ H), is_nan_neg_abs, (positive_not_nan _ H). auto.
  - rewrite (nonzero_not_eq_zero _ H), (nonzero_not_nan _ H). auto.
Qed.

Lemma guards_policy (kind : string) (q : float) :
  public_kind kind ->
  ((kind =? "RECEIVE") || (kind =? "WASTE")) && PrimFloat.leb q 0 = false ->
  (kind =? "ADJUST") && PrimFloat.eqb (policy_stores kind q) 0 = false ->
  PrimFloat.is_nan (policy_stores kind q) = false ->
  policy_requires kind q = true.
Proof.
  unfold policy_requires, policy_stores.
  intros [-> | [-> | ->]]; simpl (_ =? _); cbv iota; simpl; intros H1 H2 H3.
  - now apply not_le_zero_positive.
  - fold (neg_abs q) in H3. rewrite is_nan_neg_abs in H3. now apply not_le_zero_positive.
  - now apply nonzero_number.
Qed.

Lemma rejected_guards (kind : string) (q : float) :
  public_kind kind ->
  PrimFloat.is_nan q = false ->
  policy_requires kind q = false ->
  (((kind =? "RECEIVE") || (kind =? "WASTE")) && PrimFloat.leb q 0 = true)
  \/ ((((kind =? "RECEIVE") || (kind =? "WASTE")) && PrimFloat.leb q 0 = false)
      /\ (kind =? "ADJUST") && PrimFloat.eqb (policy_stores kind q) 0 = true).
Proof.
  unfold policy_requires, policy_stores.
  intros [-> | [-> | ->]]; simpl (_ =? _); cbv iota; simpl; intros Hn H.
  - left. destruct (PrimFloat.leb q 0) eqn:E; [reflexivity|].
    rewrite (not_le_zero_positive q E Hn) in H. discriminate.
  - left. destruct (PrimFloat.leb q 0) eqn:E; [reflexivity|].
    rewrite (not_le_zero_positive q E Hn) in H. discriminate.
  - right. split; [reflexivity|]. destruct (PrimFloat.eqb q 0) eqn:E; [reflexivity|].
    rewrite (nonzero_number q E Hn) in H. discriminate.
Qed.

Section Movement.
Variables (env : Env) (request : Request) (kind : string) (payload : InventoryMovementIn.t).
Variables (s : Store) (k c : nat).

Lemma create_inventory_movement_run :
  create_inventory_movement kind payload request env (mk_world s k c) =
  let q := InventoryMovementIn.quantity payload in
  let stored := policy_stores kind q in
  let w' := mk_world s (S k) (S c) in
  if ((kind =? "RECEIVE") || (kind =? "WASTE")) && PrimFloat.leb q 0 then
    (Raise InvalidQuantity_positive, mk_world s k c)
  else if (kind =? "ADJUST") && PrimFloat.eqb stored 0 then
    (Raise InvalidQuantity_zero, mk_world s k c)
  else
    match fetchone Product.id (InventoryMovementIn.product_id payload) (products s) with
    | None => (Raise ProductNotFound, w')
    | Some _ =>
        match adapt env (parse_staff_id env request) with
        | Cell cell =>
            if PrimFloat.is_nan stored then
              (Raise (IntegrityError
                        "NOT NULL constraint failed: inventory_movements.quantity"), w')
            else
              match cell with
              | None =>
                  (Raise (IntegrityError
                     "NOT NULL constraint failed: inventory_movements.recorded_by_staff_id"),
                   w')
              | Some staff =>
                  if has_value InventoryMovement.id (uuid_values env k)
                       (inventory_movements s) then
                    (Raise (IntegrityError
                              "UNIQUE constraint failed: inventory_movements.id"), w')
                  else
                    (Return (MovementJson (policy_row env staff kind payload k c)),
                     mk_world (set_inventory_movements
                                 (inventory_movements s
                                  ++ [policy_row env staff kind payload k c])%list s)
                              (S k) (S c))
              end
        | Unsupported type_name =>
            (Raise (ProgrammingError ("Error binding parameter 6: type '" ++ type_name
                                      ++ "' is not supported")), w')
        | TooLarge =>
            (Raise (OverflowError "Python int too large to convert to SQLite INTEGER"), w')
        | Unencodable => (Raise UnicodeEncodeError, w')
        end
    end.
Proof.
  unfold create_inventory_movement, insert_inventory_movement, policy_row, policy_stores.
  cbv zeta. fold (neg_abs (InventoryMovementIn.quantity payload)).
  destruct (((kind =? "RECEIVE") || (kind =? "WASTE"))
            && PrimFloat.leb (InventoryMovementIn.quantity payload) 0); [reflexivity|].
  destruct ((kind =? "ADJUST") && PrimFloat.eqb _ 0); [reflexivity|].
  monad_unfold. destruct (fetchone Product.id _ _); [|reflexivity].
  destruct (adapt env _) as [cell | | |]; try reflexivity.
  monad_unfold.
  destruct (PrimFloat.is_nan _); [reflexivity|].
  destruct cell as [staff|]; [|reflexivity].
  monad_unfold. cbn [InventoryMovement.id InventoryMovement.quantity].
  destruct (has_value InventoryMovement.id _ _) eqn:Hid; [reflexivity|].
  monad_unfold. cbn [inventory_movements set_inventory_movements].
  match goal with
  | |- context [fetchone InventoryMovement.id ?i (?rows ++ [?r])] =>
      rewrite (fetchone_inserted InventoryMovement.id rows r Hid
               : fetchone InventoryMovement.id i (rows ++ [r]) = Some r)
  end.
  reflexivity.
Qed.

End Movement.

(** C4, as amended.  [create_inventory_movement] follows the policy table
    for RECEIVE, WASTE and ADJUST.  A quantity (a number) that the kind does
    not allow is refused with the quantity error of the kind and nothing is
    written, whether the product exists or not; an allowed quantity for a
    missing product is refused with "Product not found" and nothing is
    written; an allowed quantity for an existing product, from a request
    whose staff id the database stores as [staff], under a new identifier,
    appends exactly the row the policy prescribes after the rows already
    there: the quantity as given for RECEIVE and ADJUST, minus its absolute
    value for WASTE.  Conversely the call returns only in that last way, so
    a stored row always obeys the policy, and every refusal leaves the
    database as it was. *)
Theorem record_movement_policy (env : Env) (request : Request) (kind : string)
    (payload : InventoryMovementIn.t) (s : Store) :
  public_kind kind ->
  let q := InventoryMovementIn.quantity payload in
  let product := fetchone Product.id (InventoryMovementIn.product_id payload) (products s) in
  let row := fun staff => policy_row env staff kind payload 0 0 in
  let appended := fun staff =>
    set_inventory_movements (inventory_movements s ++ [row staff])%list s in
  let outcome := run (create_inventory_movement kind payload request) env s in
  (PrimFloat.is_nan q = false -> policy_requires kind q = false ->
     exists w', outcome = (Raise (if kind =? "ADJUST" then InvalidQuantity_zero
                                  else InvalidQuantity_positive), w')
                /\ db w' = s)
  /\ (policy_requires kind q = true -> product = None ->
     exists w', outcome = (Raise ProductNotFound, w') /\ db w' = s)
  /\ (forall staff, policy_requires kind q = true -> product <> None ->
      stored_staff_id env request = Some staff ->
      has_value InventoryMovement.id (uuid_values env 0) (inventory_movements s) = false ->
     exists w', outcome = (Return (MovementJson (row staff)), w')
                /\ db w' = appended staff)
  /\ (forall content w', outcome = (Return content, w') ->
      policy_requires kind q = true /\ product <> None
      /\ exists staff, stored_staff_id env request = Some staff
           /\ content = MovementJson (row staff) /\ db w' = appended staff)
  /\ (forall staff, InventoryMovement.quantity (row staff)
                    = if kind =? "WASTE" then PrimFloat.opp (PrimFloat.abs q) else q)
  /\ (forall e w', outcome = (Raise e, w') -> db w' = s).
Proof.
  intros Hkind q product row appended outcome.
  assert (Hrun := create_inventory_movement_run env request kind payload s 0 0).
  cbv zeta in Hrun. fold q in Hrun. fold product in Hrun.
  change (create_inventory_movement kind payload request env (mk_world s 0 0))
    with outcome in Hrun.
  unfold stored_staff_id. subst row appended. cbv beta.
  clearbody outcome product.
  split; [|split; [|split; [|split; [|split]]]].
  - intros Hn Hreq. destruct (rejected_guards kind q Hkind Hn Hreq) as [H1 | [H1 H2]].
    + rewrite H1 in Hrun. apply andb_prop in H1. destruct H1 as [H1 _].
      assert ((kind =? "ADJUST") = false) as ->.
      { destruct Hkind as [-> | [-> | ->]]; [reflexivity | reflexivity | discriminate]. }
      eauto.
    + rewrite H1, H2 in Hrun. apply andb_prop in H2. destruct H2 as [-> _]. eauto.
  - intros Hreq Hp. destruct (policy_guards kind q Hkind Hreq) as (H1 & H2 & H3).
    rewrite H1, H2, Hp in Hrun. eauto.
  - intros staff Hreq Hp Hstaff Hid.
    destruct (policy_guards kind q Hkind Hreq) as (H1 & H2 & H3).
    rewrite H1, H2, H3 in Hrun. destruct product; [|congruence].
    destruct (adapt env _) as [cell | | |]; try discriminate.
    subst cell. rewrite Hid in Hrun. eauto.
  - intros content w'. rewrite Hrun.
    destruct (_ && PrimFloat.leb q 0) eqn:H1; [discriminate|].
    destruct (_ && PrimFloat.eqb _ 0) eqn:H2; [discriminate|].
    destruct product; [|discriminate].
    destruct (adapt env _) as [cell | | |]; try discriminate.
    destruct (PrimFloat.is_nan _) eqn:H3; [discriminate|].
    destruct cell as [staff|]; [|discriminate].
    destruct (has_value _ _ _); [discriminate|].
    intros [= <- <-]. split; [now apply guards_policy|]. split; [discriminate|].
    exists staff. repeat split.
  - intros staff. reflexivity.
  - intros e w'. rewrite Hrun.
    destruct (_ && PrimFloat.leb q 0); [now intros [= _ <-]|].
    destruct (_ && PrimFloat.eqb _ 0); [now intros [= _ <-]|].
    destruct product; [|now intros [= _ <-]].
    destruct (adapt env _) as [cell | | |]; try (now intros [= _ <-]).
    destruct (PrimFloat.is_nan _); [now intros [= _ <-]|].
    destruct cell as [staff|]; [|now intros [= _ <-]].
    destruct (has_value _ _ _); [now intros [= _ <-]|]. discriminate.
Qed.

Lemma serve_domain_tables (env : Env) (request : Request) (s : Store) r w1 :
  call_next request env (mk_world s 0 0) = (r, w1) ->
  same_domain_tables (db w1) (store_after env request s).
Proof.
  intros H. unfold store_after. rewrite serve_run, H.
  destruct r as [response | e]; [|repeat split].
  destruct (is_write_method _); [|repeat split]. cbv zeta.
  destruct (adapt env _); try (repeat split; fail).
  destruct (has_value _ _ _); repeat split.
Qed.

(** C2, as amended.  A member exists and its status is not VERIFIED.
    [create_order] with at least one item, and [finalize_order] on an
    existing order that is not COMPLETED, raise the error of the ineligible
    member and leave the database as it was.  Whatever the items and the
    status of the order, serving such a request changes no table but the
    audit trail. *)
Theorem unverified_member_is_refused (env : Env) (request : Request) (s : Store) :
  (forall (payload : OrderCreateIn.t) (st : string),
      OrderCreateIn.items payload <> [] ->
      status_of (OrderCreateIn.member_id payload) s = Some st ->
      st <> "VERIFIED" ->
      exists w', run (create_order payload request) env s = (Raise IneligibleMember, w')
                 /\ db w' = s)
  /\ (forall (order_id : string) (o : Order.t) (st : string),
      fetchone Order.id order_id (orders s) = Some o ->
      Order.status o <> "COMPLETED" ->
      status_of (Order.member_id o) s = Some st ->
      st <> "VERIFIED" ->
      exists w', run (finalize_order order_id request) env s = (Raise IneligibleMember, w')
                 /\ db w' = s)
  /\ (forall (payload : OrderCreateIn.t) (st : string),
      endpoint request = CreateOrder payload ->
      status_of (OrderCreateIn.member_id payload) s = Some st ->
      st <> "VERIFIED" ->
      same_domain_tables s (store_after env request s))
  /\ (forall (order_id : string) (o : Order.t) (st : string),
      endpoint request = FinalizeOrder order_id ->
      fetchone Order.id order_id (orders s) = Some o ->
      status_of (Order.member_id o) s = Some st ->
      st <> "VERIFIED" ->
      same_domain_tables s (store_after env request s)).
Proof.
  split; [|split; [|split]].
  - intros payload st Hitems Hm Hne. eexists. split.
    + unfold run. eapply create_order_ineligible; eassumption.
    + reflexivity.
  - intros order_id o st Ho Hst Hm Hne. eexists. split.
    + unfold run. eapply finalize_order_ineligible; eassumption.
    + reflexivity.
  - intros payload st E Hm Hne.
    destruct (call_next request env (mk_world s 0 0)) as [r w1] eqn:Hnext.
    assert (Hdb : db w1 = s).
    { rewrite call_next_run, E in Hnext. unfold handler in Hnext. rewrite E in Hnext.
      destruct (validates _);
        [|destruct (existsb _ _); now injection Hnext as _ <-].
      destruct (create_order payload request env (mk_world s 0 0)) as [r0 w0] eqn:Hrun.
      apply create_order_cases in Hrun.
      destruct Hrun as [[e [-> Hdb]] | (staff & _ & _ & Hv & _)]; [|congruence].
      destruct e; now injection Hnext as _ <-. }
    rewrite <- Hdb at 1. eapply serve_domain_tables. exact Hnext.
  - intros order_id o st E Ho Hm Hne.
    destruct (call_next request env (mk_world s 0 0)) as [r w1] eqn:Hnext.
    assert (Hdb : db w1 = s).
    { rewrite call_next_run, E in Hnext. unfold handler in Hnext. rewrite E in Hnext.
      cbn [validates] in Hnext.
      destruct (finalize_order order_id request env (mk_world s 0 0)) as [r0 w0] eqn:Hrun.
      apply finalize_order_cases in Hrun.
      destruct Hrun as [[e [-> Hdb]] | (o' & staff & Ho' & _ & Hv & _)]; [|congruence].
      destruct e; now injection Hnext as _ <-. }
    rewrite <- Hdb at 1. eapply serve_domain_tables. exact Hnext.
Qed.

(** C2 as stated fails: the order of a PENDING member with no item is refused
    for being empty, not for the member. *)
Lemma empty_order_on_pending_member_is_not_ineligible :
  status_of (OrderCreateIn.member_id empty_order) with_member = Some "PENDING"
  /\ run (create_order empty_order (demo_request (CreateOrder empty_order)))
         (demo_env "o") with_member
     = (Raise EmptyOrder_create, mk_world with_member 0 0)
  /\ EmptyOrder_create <> IneligibleMember.
Proof. split; [|split]; [vm_compute; reflexivity | vm_compute; reflexivity | discriminate]. Qed.

(** C5, as amended.  A WASTE request of quantity -3 is refused with
    "Quantity must be greater than zero" and nothing is written.  The WASTE
    entry point accepts only positive quantities: every quantity that is
    zero or below is refused in the same way, and a request that is accepted
    has a quantity above zero and is stored as its negation.  A WASTE
    request of quantity 3 for an existing product, from a request whose
    staff id the database stores, under a new identifier, is stored as -3. *)
Theorem waste_with_negative_quantity_is_refused (env : Env) (request : Request)
    (s : Store) (product_id : string) (reason : option string) :
  (exists w', run (inventory_waste (InventoryMovementIn.mk product_id (-3)%float reason)
                     request) env s = (Raise InvalidQuantity_positive, w')
              /\ db w' = s)
  /\ (forall q : float, PrimFloat.leb q 0 = true ->
      exists w', run (inventory_waste (InventoryMovementIn.mk product_id q reason)
                        request) env s = (Raise InvalidQuantity_positive, w')
                 /\ db w' = s)
  /\ (forall (q : float) content w',
      run (inventory_waste (InventoryMovementIn.mk product_id q reason) request) env s
      = (Return content, w') ->
      PrimFloat.ltb 0 q = true
      /\ exists row, content = MovementJson row
           /\ InventoryMovement.quantity row = PrimFloat.opp q
           /\ inventory_movements (db w') = (inventory_movements s ++ [row])%list)
  /\ (forall staff : string,
      fetchone Product.id product_id (products s) <> None ->
      stored_staff_id env request = Some staff ->
      has_value InventoryMovement.id (uuid_values env 0) (inventory_movements s) = false ->
      exists row w',
        run (inventory_waste (InventoryMovementIn.mk product_id 3%float reason) request)
          env s = (Return (MovementJson row), w')
        /\ InventoryMovement.quantity row = (-3)%float
        /\ InventoryMovement.recorded_by_staff_id row = staff
        /\ inventory_movements (db w') = (inventory_movements s ++ [row])%list).
Proof.
  split; [|split; [|split]].
  - eexists. split.
    + unfold run, inventory_waste. rewrite create_inventory_movement_run. reflexivity.
    + reflexivity.
  - intros q Hq. eexists. split.
    + unfold run, inventory_waste. rewrite create_inventory_movement_run. cbv zeta.
      cbn [InventoryMovementIn.quantity]. simpl (_ =? _). cbn [orb andb].
      rewrite Hq. reflexivity.
    + reflexivity.
  - intros q content w'. unfold run, inventory_waste.
    rewrite create_inventory_movement_run. cbv zeta.
    cbn [InventoryMovementIn.quantity InventoryMovementIn.product_id].
    simpl (_ =? _). cbn [orb andb].
    destruct (PrimFloat.leb q 0) eqn:Hle; [discriminate|].
    destruct (fetchone Product.id product_id (products s)); [|discriminate].
    destruct (adapt env _) as [cell | | |]; try discriminate.
    unfold policy_stores. simpl (_ =? _). cbv iota. fold (neg_abs q).
    rewrite is_nan_neg_abs.
    destruct (PrimFloat.is_nan q) eqn:Hn; [discriminate|].
    destruct cell as [staff|]; [|discriminate].
    destruct (has_value _ _ _); [discriminate|].
    intros [= <- <-].
    assert (Hpos := not_le_zero_positive q Hle Hn).
    split; [exact Hpos|]. eexists. split; [reflexivity|]. split; [|reflexivity].
    unfold policy_row, policy_stores. cbn [InventoryMovement.quantity].
    simpl (_ =? _). cbv iota. cbn [InventoryMovementIn.quantity].
    fold (neg_abs q). now apply neg_abs_positive.
  - intros staff Hp Hstaff Hid. unfold run, inventory_waste.
    rewrite create_inventory_movement_run. cbv zeta.
    cbn [InventoryMovementIn.quantity InventoryMovementIn.product_id].
    destruct (fetchone Product.id product_id (products s)); [|congruence].
    rewrite (adapt_stored _ _ _ Hstaff), Hid. simpl (_ =? _). cbn [orb andb].
    change (PrimFloat.leb 3 0) with false.
    change (policy_stores "WASTE" 3) with (-3)%float.
    change (PrimFloat.is_nan (-3)) with false. cbv iota.
    eexists _, _. split; [reflexivity|]. repeat split.
Qed.

(** C5 as stated fails: WASTE with -3 is not accepted. *)
Lemma waste_minus_three_rejected :
  run (inventory_waste negative_waste (demo_request (InventoryWaste negative_waste)))
      (demo_env "w") with_product
  = (Raise InvalidQuantity_positive, mk_world with_product 0 0).
Proof. vm_compute. reflexivity. Qed.

(** ** What [finalize_order] reads *)

Lemma for_each_dispense_agree (env : Env) (o : Order.t) (staff_id : Value) (now : string)
    (items : list OrderItem.t) :
  forall (s1 s2 : Store) (k c : nat),
  map InventoryMovement.id (inventory_movements s1)
  = map InventoryMovement.id (inventory_movements s2) ->
  fst (for_each items (fun item =>
         movement_id <- uuid4 ;;
         staff <- bind_parameter "5" staff_id ;;
         insert_inventory_movement (neg_abs (OrderItem.quantity item)) staff
           (fun staff => dispense_row movement_id o staff now item))
       env (mk_world s1 k c))
  = fst (for_each items (fun item =>
         movement_id <- uuid4 ;;
         staff <- bind_parameter "5" staff_id ;;
         insert_inventory_movement (neg_abs (OrderItem.quantity item)) staff
           (fun staff => dispense_row movement_id o staff now item))
       env (mk_world s2 k c)).
Proof.
  induction items as [|item rest IH]; intros s1 s2 k c Hids; [reflexivity|].
  cbn [for_each]. unfold insert_inventory_movement. monad_unfold.
  destruct (adapt env staff_id) as [[staff|]| | |]; monad_unfold; try reflexivity.
  - destruct (PrimFloat.is_nan (neg_abs (OrderItem.quantity item))); [reflexivity|].
    monad_unfold. cbn [dispense_row InventoryMovement.id].
    assert (Hsame : has_value InventoryMovement.id (uuid_values env k) (inventory_movements s1)
                    = has_value InventoryMovement.id (uuid_values env k) (inventory_movements s2)).
    { apply eq_true_iff_eq. rewrite !has_value_true, Hids. tauto. }
    rewrite Hsame.
    destruct (has_value InventoryMovement.id (uuid_values env k) (inventory_movements s2));
      [reflexivity|].
    monad_unfold.
    apply IH. cbn [inventory_movements set_inventory_movements].
    rewrite !map_app, Hids. reflexivity.
  - destruct (PrimFloat.is_nan (neg_abs (OrderItem.quantity item))); reflexivity.
Qed.

Lemma finalize_order_reads (env : Env) (request : Request) (order_id : string)
    (s1 s2 : Store) :
  orders s1 = orders s2 ->
  order_items s1 = order_items s2 ->
  members s1 = members s2 ->
  map InventoryMovement.id (inventory_movements s1)
  = map InventoryMovement.id (inventory_movements s2) ->
  fst (run (finalize_order order_id request) env s1)
  = fst (run (finalize_order order_id request) env s2).
Proof.
  intros Ho Hi Hm Hids. unfold run, finalize_order. monad_unfold. rewrite Ho.
  destruct (fetchone Order.id order_id (orders s2)) as [o|]; [|reflexivity].
  destruct (Order.status o =? "COMPLETED"); [reflexivity|].
  rewrite !require_verified_member_run. unfold status_of. cbn [db]. rewrite Hm.
  destruct (option_map _ _) as [st|]; [|reflexivity].
  destruct (st =? "VERIFIED"); [|reflexivity].
  monad_unfold. unfold items_of. rewrite Hi.
  destruct (filter _ (order_items s2)) as [|item rest]; [reflexivity|].
  monad_unfold.
  pose proof (for_each_dispense_agree env o (parse_staff_id env request)
                (isoformat (clock_values env 0)) (item :: rest) s1 s2 0 1 Hids) as Hloop.
  destruct (for_each (item :: rest) _ env (mk_world s1 0 1)) as [r1 w1] eqn:E1.
  destruct (for_each (item :: rest) _ env (mk_world s2 0 1)) as [r2 w2] eqn:E2.
  cbn [fst] in Hloop. subst r2.
  apply (for_each_dispense_inv env o (parse_staff_id env request)
           (isoformat (clock_values env 0))) in E1, E2.
  destruct E1 as [(-> & _ & staff1 & _ & ->) | [e [-> _]]].
  - destruct E2 as [(_ & _ & staff2 & _ & ->) | [e [Habs _]]]; [|discriminate].
    monad_unfold. cbn [orders set_orders set_inventory_movements]. rewrite Ho.
    destruct (fetchone _ _ _); reflexivity.
  - reflexivity.
Qed.

(** C10, as amended.  The outcome of [finalize_order] is the same on two
    databases that agree on the orders, the order lines, the members and the
    identifiers of the stored movements: it reads neither the products nor
    the stored quantities.  So an order that is PLACED, with a VERIFIED
    member and lines, from a request whose staff id the database stores as
    [staff], is finalized and its DISPENSE movements are inserted whatever
    the products table and the stock are.  [create_inventory_movement], for
    a product that does not exist, answers "Product not found" when the
    quantity is one the kind allows, and the quantity error of the kind,
    as for an existing product, when it is a number the kind does not
    allow; either way nothing is written. *)
Theorem finalize_order_checks_neither_products_nor_stock :
  (forall env request order_id s1 s2,
      orders s1 = orders s2 ->
      order_items s1 = order_items s2 ->
      members s1 = members s2 ->
      map InventoryMovement.id (inventory_movements s1)
      = map InventoryMovement.id (inventory_movements s2) ->
      fst (run (finalize_order order_id request) env s1)
      = fst (run (finalize_order order_id request) env s2))
  /\ (forall env request order_id s o staff,
      reachable s ->
      fetchone Order.id order_id (orders s) = Some o ->
      Order.status o = "PLACED" ->
      status_of (Order.member_id o) s = Some "VERIFIED" ->
      items_of order_id s <> [] ->
      stored_staff_id env request = Some staff ->
      fresh_ids (uuids_from env 0 (List.length (items_of order_id s)))
                (map InventoryMovement.id (inventory_movements s)) ->
      exists content w' rows,
        run (finalize_order order_id request) env s = (Return content, w')
        /\ inventory_movements (db w') = (inventory_movements s ++ rows)%list
        /\ Forall2 (dispenses o) (items_of order_id s) rows)
  /\ (forall env request kind payload s,
      public_kind kind ->
      fetchone Product.id (InventoryMovementIn.product_id payload) (products s) = None ->
      let q := InventoryMovementIn.quantity payload in
      let outcome := run (create_inventory_movement kind payload request) env s in
      (policy_requires kind q = true ->
       exists w', outcome = (Raise ProductNotFound, w') /\ db w' = s)
      /\ (PrimFloat.is_nan q = false -> policy_requires kind q = false ->
          exists w', outcome = (Raise (if kind =? "ADJUST" then InvalidQuantity_zero
                                       else InvalidQuantity_positive), w')
                     /\ db w' = s)).
Proof.
  split; [|split].
  - intros. now apply finalize_order_reads.
  - intros env request order_id s o staff Hreach Ho Hst Hm Hitems Hstaff Hfresh.
    eexists _, _, _. split; [|split].
    + exact (finalize_order_returns env request order_id s 0 0 o staff Ho
               (placed_not_completed o Hst) Hm Hitems Hstaff Hfresh
               (reachable_lines_numbers s order_id Hreach)).
    + reflexivity.
    + apply dispense_rows_dispenses.
  - intros env request kind payload s Hkind Hp q outcome. subst outcome.
    unfold run. rewrite create_inventory_movement_run. cbv zeta. fold q. split.
    + intros Hreq. destruct (policy_guards kind _ Hkind Hreq) as (H1 & H2 & H3).
      rewrite H1, H2, Hp. eauto.
    + intros Hn Hreq. destruct (rejected_guards kind q Hkind Hn Hreq) as [H1 | [H1 H2]].
      * rewrite H1. apply andb_prop in H1. destruct H1 as [H1 _].
        assert ((kind =? "ADJUST") = false) as ->.
        { destruct Hkind as [-> | [-> | ->]]; [reflexivity | reflexivity | discriminate]. }
        eauto.
      * rewrite H1, H2. apply andb_prop in H2. destruct H2 as [-> _]. eauto.
Qed.

(** C6, as amended.  The order number [create_order] stores is "ORD-"
    followed by the second clock reading printed as YYYYMMDDHHMMSS, and it
    is not the number of an order already stored; two readings within one
    second give one number, there is nothing else in it; and the order
    numbers of a reachable database are pairwise distinct. *)
Theorem order_number_is_the_creation_second :
  (forall env request payload s content w',
      run (create_order payload request) env s = (Return content, w') ->
      exists o items,
        content = OrderWithItemsJson o items
        /\ fetchone Order.id (Order.id o) (orders (db w')) = Some o
        /\ Order.order_number o = "ORD-" ++ strftime_YmdHMS (clock_values env 1)
        /\ has_value Order.order_number (Order.order_number o) (orders s) = false)
  /\ (forall dt1 dt2,
      year dt1 = year dt2 -> month dt1 = month dt2 -> day dt1 = day dt2 ->
      hour dt1 = hour dt2 -> minute dt1 = minute dt2 -> second dt1 = second dt2 ->
      order_number_at dt1 = order_number_at dt2)
  /\ (forall s, reachable s -> NoDup (map Order.order_number (orders s))).
Proof.
  split; [|split].
  - intros env request payload s content w' H. unfold run in H.
    apply create_order_cases in H.
    destruct H as [[e [He _]] | (staff & _ & _ & _ & Hid & Hnum & [items Hr] & ->)];
      [discriminate|].
    injection Hr as ->. exists (placed_order env staff payload 0 0), items.
    cbn [db orders set_orders set_order_items].
    split; [reflexivity|]. split; [|split; [reflexivity | exact Hnum]].
    apply fetchone_inserted. exact Hid.
  - intros dt1 dt2 Hy Hmo Hd Hh Hmi Hs. unfold order_number_at, strftime_YmdHMS.
    now rewrite Hy, Hmo, Hd, Hh, Hmi, Hs.
  - intros s Hreach. apply reachable_consistent in Hreach. apply Hreach.
Qed.

(** C6 as stated fails: two creations within one second, with different
    identifiers, get the same order number; after the first has succeeded the
    second is stopped by the UNIQUE constraint on [order_number]. *)
Lemma orders_of_one_second_collide :
  uuid_values (demo_env "o") 0 <> uuid_values (demo_env "q") 0
  /\ order_number_at (clock_values (demo_env "o") 1)
     = order_number_at (clock_values (demo_env "q") 1)
  /\ (exists content,
        fst (serve (demo_env "o") (demo_request (CreateOrder demo_order))
               with_verified_member)
        = Return (mk_response 200 content))
  /\ serve (demo_env "q") (demo_request (CreateOrder demo_order)) with_order
     = (Raise (IntegrityError "UNIQUE constraint failed: orders.order_number"),
        mk_world with_order 1 2).
Proof.
  split; [|split; [|split]].
  - vm_compute. discriminate.
  - vm_compute. reflexivity.
  - eexists. vm_compute. reflexivity.
  - vm_compute. reflexivity.
Qed.

(** ** The status of a member *)

Lemma fetchone_update_where_any {Row : Type} (pk : Row -> string) (key other : string)
    (f : Row -> Row) (rows : list Row) :
  (forall x, pk (f x) = pk x) ->
  fetchone pk other (update_where pk key f rows)
  = option_map (fun r => if pk r =? key then f r else r) (fetchone pk other rows).
Proof.
  intros Hf. unfold fetchone, update_where.
  induction rows as [|x rows IH]; simpl; [reflexivity|].
  assert (Hpk : pk (if pk x =? key then f x else x) = pk x).
  { destruct (pk x =? key); [apply Hf | reflexivity]. }
  rewrite Hpk. destruct (pk x =? other); [reflexivity | exact IH].
Qed.

Lemma fetchone_delete_where {Row : Type} (pk : Row -> string) (key other : string)
    (rows : list Row) (r : Row) :
  fetchone pk other (delete_where pk key rows) = Some r ->
  fetchone pk other rows = Some r.
Proof.
  unfold fetchone, delete_where.
  induction rows as [|x rows IH]; simpl; [discriminate|].
  destruct (pk x =? key) eqn:Ek; simpl.
  - intros H. specialize (IH H). destruct (pk x =? other) eqn:Eo; [|exact IH].
    apply String.eqb_eq in Ek, Eo. apply find_some in H. destruct H as [Hin Hr].
    apply filter_In in Hin. destruct Hin as [_ Hne].
    apply String.eqb_eq in Hr. rewrite Hr, <- Eo, Ek, String.eqb_refl in Hne. discriminate.
  - destruct (pk x =? other); [tauto | exact IH].
Qed.

Lemma effect_status (e : Endpoint) (s s1 : Store) (member_id st st' : string) :
  effect e s s1 ->
  status_of member_id s = Some st ->
  status_of member_id s1 = Some st' ->
  st' = st
  \/ exists payload, e = VerifyMember member_id payload
                     /\ st' = MemberVerifyIn.outcome payload.
Proof.
  unfold status_of. intros Heff. destruct Heff; cbn [members set_members
    set_member_verifications set_suppliers set_products set_inventory_movements
    set_orders set_order_items]; intros Hs Hs1; try (left; congruence).
  - (* create_member *)
    rewrite fetchone_app in Hs1.
    destruct (fetchone Member.id member_id (members s)); [left; congruence | discriminate].
  - (* update_member *)
    rewrite fetchone_update_where_any in Hs1 by reflexivity.
    destruct (fetchone Member.id member_id (members s)) as [m|]; [|discriminate].
    simpl in Hs, Hs1. left.
    destruct (Member.id m =? member_id0); simpl in Hs1; congruence.
  - (* delete_member *)
    destruct (fetchone Member.id member_id (delete_where _ _ _)) as [m|] eqn:E;
      [|discriminate].
    apply fetchone_delete_where in E. rewrite E in Hs. left. congruence.
  - (* verify_member *)
    rewrite fetchone_update_where_any in Hs1 by reflexivity.
    destruct (fetchone Member.id member_id (members s)) as [m|] eqn:E; [|discriminate].
    simpl in Hs, Hs1. apply fetchone_some in E. destruct E as [Eid _].
    destruct (Member.id m =? member_id0) eqn:Ek; simpl in Hs1.
    + apply String.eqb_eq in Ek. right. exists payload. split; congruence.
    + left. congruence.
Qed.

Lemma create_member_run (env : Env) (payload : MemberIn.t) (s : Store) (k c : nat) :
  create_member payload env (mk_world s k c) =
  let now := isoformat (clock_values env c) in
  let row := Member.mk (uuid_values env k)
               (MemberIn.member_number payload) (MemberIn.first_name payload)
               (MemberIn.last_name payload) (MemberIn.date_of_birth payload)
               (MemberIn.phone payload) (MemberIn.email payload) "PENDING" now now in
  if has_value Member.member_number (MemberIn.member_number payload) (members s) then
    (Raise (IntegrityError "UNIQUE constraint failed: members.member_number"),
     mk_world s (S k) (S c))
  else if has_value Member.id (uuid_values env k) (members s) then
    (Raise (IntegrityError "UNIQUE constraint failed: members.id"), mk_world s (S k) (S c))
  else
    (Return (MemberJson (Some row)),
     mk_world (set_members (members s ++ [row])%list s) (S k) (S c)).
Proof.
  unfold create_member, insert_member. monad_unfold. cbn [Member.id Member.member_number].
  destruct (has_value Member.member_number _ _); [reflexivity|].
  monad_unfold.
  destruct (has_value Member.id _ _) eqn:Hid; [reflexivity|].
  monad_unfold. cbn [members set_members].
  match goal with
  | |- context [fetchone Member.id ?i (?rows ++ [?r])] =>
      rewrite (fetchone_inserted Member.id rows r Hid
               : fetchone Member.id i (rows ++ [r]) = Some r)
  end.
  reflexivity.
Qed.

Lemma update_where_statuses (key : string) (payload : MemberIn.t) (now : string)
    (rows : list Member.t) :
  map Member.status (update_where Member.id key (set_profile payload now) rows)
  = map Member.status rows
  /\ map Member.id (update_where Member.id key (set_profile payload now) rows)
     = map Member.id rows.
Proof.
  unfold update_where. rewrite !map_map. split; apply map_ext; intros m;
    destruct (Member.id m =? key); reflexivity.
Qed.

Lemma verify_member_returns (env : Env) (member_id : string) (payload : MemberVerifyIn.t)
    (request : Request) (s : Store) (content : Content) (w' : World) :
  run (verify_member member_id payload request) env s = (Return content, w') ->
  status_of member_id s <> None
  /\ status_of member_id (db w') = Some (MemberVerifyIn.outcome payload).
Proof.
  unfold run, verify_member, insert_member_verification, status_of. monad_unfold.
  destruct (fetchone Member.id member_id (members s)) as [m|] eqn:Hm; [|discriminate].
  destruct (adapt env _) as [[staff|]| | |]; monad_unfold; try discriminate.
  cbn [MemberVerification.id].
  destruct (has_value MemberVerification.id _ _); [discriminate|].
  monad_unfold. cbn [members set_members set_member_verifications].
  rewrite (fetchone_update_where Member.id member_id
             (set_status (MemberVerifyIn.outcome payload) (isoformat (clock_values env 0)))
             (members s) m (fun x => eq_refl) Hm).
  intros [= <- <-]. cbn [db members set_members]. split; [discriminate|].
  rewrite (fetchone_update_where Member.id member_id
             (set_status (MemberVerifyIn.outcome payload) (isoformat (clock_values env 0)))
             (members s) m (fun x => eq_refl) Hm).
  reflexivity.
Qed.

(** C7.  A member [create_member] has inserted is PENDING.  When the status
    of a member differs before and after a request, the request was the
    verification of that member and the new status is its outcome; and a
    verification that returns leaves the member with its outcome.
    [update_member], however it ends, leaves the identifiers and the
    statuses of all members as they were. *)
Theorem member_status_changes_only_by_decision :
  (forall env payload s content w',
      run (create_member payload) env s = (Return content, w') ->
      exists row,
        content = MemberJson (Some row)
        /\ Member.status row = "PENDING"
        /\ members (db w') = (members s ++ [row])%list
        /\ status_of (Member.id row) (db w') = Some "PENDING")
  /\ (forall env request s member_id st st',
      status_of member_id s = Some st ->
      status_of member_id (store_after env request s) = Some st' ->
      st' <> st ->
      exists payload,
        endpoint request = VerifyMember member_id payload
        /\ st' = MemberVerifyIn.outcome payload)
  /\ (forall env request member_id payload s content w',
      run (verify_member member_id payload request) env s = (Return content, w') ->
      status_of member_id (db w') = Some (MemberVerifyIn.outcome payload))
  /\ (forall env member_id payload s r w',
      run (update_member member_id payload) env s = (r, w') ->
      map Member.status (members (db w')) = map Member.status (members s)
      /\ map Member.id (members (db w')) = map Member.id (members s)).
Proof.
  split; [|split; [|split]].
  - intros env payload s content w'. unfold run. rewrite create_member_run. cbv zeta.
    destruct (has_value Member.member_number _ _); [discriminate|].
    destruct (has_value Member.id _ _) eqn:Hid; [discriminate|].
    intros [= <- <-]. eexists. split; [reflexivity|]. split; [reflexivity|].
    split; [reflexivity|]. unfold status_of. cbn [db members set_members Member.id].
    match goal with
    | |- context [fetchone Member.id ?i (?rows ++ [?r])] =>
        rewrite (fetchone_inserted Member.id rows r Hid
                 : fetchone Member.id i (rows ++ [r]) = Some r)
    end.
    reflexivity.
  - intros env request s member_id st st' Hs Hs' Hne.
    destruct (store_after_effect env request s) as (s1 & Heff & Hafter).
    assert (Hs1 : status_of member_id s1 = Some st').
    { destruct Hafter as [<- | [ev Hev]]; [exact Hs'|]. rewrite Hev in Hs'. exact Hs'. }
    destruct (effect_status _ _ _ _ _ _ Heff Hs Hs1) as [-> | H]; [contradiction | exact H].
  - intros env request member_id payload s content w' H.
    apply (verify_member_returns env member_id payload request s content w' H).
  - intros env member_id payload s r w' H. unfold run in H.
    apply update_member_effect in H. cbn [db] in H.
    inversion H; subst; cbn [members set_members]; auto using update_where_statuses.
    all: try (split; reflexivity).
Qed.

(** C8.  In a reachable database every order is PLACED or COMPLETED, and
    its [completed_at] is set exactly when it is COMPLETED.  No request
    removes an order or moves it back: a COMPLETED order is still there,
    unchanged, after any request, and a PLACED order is either unchanged or
    has become its completion. *)
Theorem order_status_only_moves_forward :
  (forall s o,
      reachable s -> In o (orders s) ->
      (Order.completed_at o <> None <-> Order.status o = "COMPLETED")
      /\ (Order.status o = "PLACED" \/ Order.status o = "COMPLETED"))
  /\ (forall s env request o,
      reachable s -> In o (orders s) ->
      (Order.status o = "COMPLETED" -> In o (orders (store_after env request s)))
      /\ (In o (orders (store_after env request s))
          \/ exists now,
               Order.status o = "PLACED"
               /\ In (complete now o) (orders (store_after env request s)))).
Proof.
  split.
  - intros s o Hreach Hin. apply reachable_consistent in Hreach.
    pose proof (proj1 (Forall_forall _ _) (orders_consistent s Hreach) o Hin) as Ho.
    destruct Ho as [[Hst Hc] | [Hst Hc]]; rewrite Hst.
    + split; [|left; reflexivity]. rewrite Hc. split; [congruence | discriminate].
    + split; [|right; reflexivity]. tauto.
  - intros s env request o Hreach Hin. apply reachable_consistent in Hreach.
    destruct (store_after_effect env request s) as (s1 & Heff & Hafter).
    pose proof (effect_orders_forward _ _ _ o Heff Hreach Hin) as Hfwd.
    destruct Hafter as [-> | [ev ->]]; exact Hfwd.
Qed.

(** ** The audit trail *)

Lemma effect_audit_events (e : Endpoint) (s s1 : Store) :
  effect e s s1 -> audit_events s1 = audit_events s.
Proof. intros H. destruct H; reflexivity. Qed.

Lemma json_escaped_width_le (c : N) : json_escaped_width c <= 12.
Proof.
  unfold json_escaped_width.
  repeat match goal with
         | |- context [if ?b then _ else _] => destruct b
         end; lia.
Qed.

Lemma json_string_size_slice (n : nat) (t : text) :
  json_string_size (slice_to n t) <= 2 + 12 * n.
Proof.
  unfold json_string_size, slice_to. apply Nat.add_le_mono_l. revert t.
  induction n as [|n IH]; intros [|c t]; simpl; try lia.
  specialize (IH t). pose proof (json_escaped_width_le c). lia.
Qed.

(** C9, as amended.  For a request with a writing method:
    - when the routed application answers with a response, of whatever
      status, the staff id is one sqlite3 binds, to the cell [actor], and
      the audit identifier is new, the middleware returns that response and
      the audit trail grows by exactly one event.  The event holds [actor]
      (the staff id itself when it is a text), "HTTP_" and the method, the
      path of the URL, the status of the response, the query parameters as
      a dictionary and the first 3000 characters of the body, which
      [json.dumps] writes in at most 2 + 12 * 3000 characters.  An
      [HTTPException] of the handler is such a response;
    - when the application ends in an exception instead, the exception goes
      through the middleware and no event is added;
    - when the application has answered and the audit insert is refused,
      the request ends in the error of the store and no event is added;
    - in every case the tables other than the audit trail are as the
      application left them. *)
Theorem every_write_is_audited_once (env : Env) (request : Request) (s : Store) :
  is_write_method (http_method_of (endpoint request)) = true ->
  (forall (response : Response) (w1 : World) (actor : option string),
      call_next request env (mk_world s 0 0) = (Return response, w1) ->
      adapt env (parse_staff_id env request) = Cell actor ->
      has_value AuditEvent.id (uuid_values env (uuid_calls w1)) (audit_events s) = false ->
      let ev := audit_event_of env request response actor (uuid_calls w1) (clock_calls w1) in
      fst (serve env request s) = Return response
      /\ audit_events (store_after env request s) = (audit_events s ++ [ev])%list
      /\ AuditEvent.actor_id ev = actor
      /\ (forall staff, parse_staff_id env request = VStr staff -> actor = Some staff)
      /\ AuditEvent.event_type ev = "HTTP_" ++ http_method_of (endpoint request)
      /\ AuditEvent.entity_id ev = url_path request
      /\ status_code (AuditEvent.event_data ev) = response_status response
      /\ query (AuditEvent.event_data ev) = dict_of_pairs (query_params request)
      /\ body (AuditEvent.event_data ev) = firstn 3000 (body_text request)
      /\ List.length (body (AuditEvent.event_data ev)) <= 3000
      /\ json_string_size (body (AuditEvent.event_data ev)) <= 2 + 12 * 3000
      /\ (forall status detail w',
            validates (endpoint request) = true ->
            handler request env (mk_world s 0 0)
            = (Raise (HTTPException status detail), w') ->
            response = mk_response status (DetailJson detail) /\ w1 = w'))
  /\ (forall (e : Exn) (w1 : World),
      call_next request env (mk_world s 0 0) = (Raise e, w1) ->
      serve env request s = (Raise e, w1)
      /\ audit_events (store_after env request s) = audit_events s)
  /\ (forall (response : Response) (w1 : World),
      call_next request env (mk_world s 0 0) = (Return response, w1) ->
      (forall actor, adapt env (parse_staff_id env request) <> Cell actor)
      \/ has_value AuditEvent.id (uuid_values env (uuid_calls w1)) (audit_events s) = true ->
      exists e w2,
        serve env request s = (Raise e, w2) /\ store_error e
        /\ audit_events (store_after env request s) = audit_events s)
  /\ (forall (r : Result Response) (w1 : World),
      call_next request env (mk_world s 0 0) = (r, w1) ->
      same_domain_tables (db w1) (store_after env request s)).
Proof.
  intros Hwrite.
  assert (Haudit : forall r w1, call_next request env (mk_world s 0 0) = (r, w1) ->
                                audit_events (db w1) = audit_events s).
  { intros r w1 Hnext.
    exact (effect_audit_events _ _ _ (call_next_effect _ _ _ _ _ Hnext)). }
  split; [|split; [|split]].
  - intros response w1 actor Hnext Hactor Hfresh ev.
    pose proof (Haudit _ _ Hnext) as Hsame.
    assert (Hserve : serve env request s
                     = (Return response,
                        mk_world (set_audit_events (audit_events (db w1) ++ [ev])%list
                                    (db w1))
                                 (S (uuid_calls w1)) (S (clock_calls w1)))).
    { rewrite serve_run, Hnext, Hwrite. cbv zeta. rewrite Hactor, Hsame, Hfresh.
      reflexivity. }
    split; [rewrite Hserve; reflexivity|].
    split; [unfold store_after; rewrite Hserve; cbn [snd db audit_events set_audit_events];
            rewrite Hsame; reflexivity|].
    split; [reflexivity|].
    split; [intros staff Hstaff; rewrite Hstaff in Hactor; now injection Hactor as <-|].
    do 5 (split; [reflexivity|]).
    split; [cbn [ev audit_event_of AuditEvent.event_data body]; unfold slice_to;
            apply firstn_le_length|].
    split; [cbn [ev audit_event_of AuditEvent.event_data body];
            apply (json_string_size_slice 3000)|].
    intros status detail w' Hvalid Hrun.
    rewrite call_next_run in Hnext. unfold handler in Hnext, Hrun.
    revert Hnext Hvalid Hrun.
    destruct (endpoint request); intros Hnext Hvalid Hrun;
      try (rewrite Hvalid, Hrun in Hnext; injection Hnext as <- <-; split; reflexivity).
    discriminate.
  - intros e w1 Hnext. pose proof (Haudit _ _ Hnext) as Hsame.
    assert (Hserve : serve env request s = (Raise e, w1))
      by (rewrite serve_run, Hnext; reflexivity).
    split; [exact Hserve|]. unfold store_after. rewrite Hserve. exact Hsame.
  - intros response w1 Hnext Hrefused. pose proof (Haudit _ _ Hnext) as Hsame.
    unfold store_after. rewrite serve_run, Hnext, Hwrite. cbv zeta.
    destruct (adapt env (parse_staff_id env request)) as [actor | | |] eqn:Hactor;
      try (eexists _, _; split; [reflexivity | split; [exact I | exact Hsame]]).
    destruct Hrefused as [Hno | Hdup]; [now destruct (Hno actor)|].
    rewrite Hsame, Hdup.
    eexists _, _; split; [reflexivity | split; [exact I | exact Hsame]].
  - intros r w1 Hnext. eapply serve_domain_tables. exact Hnext.
Qed.

(** * The scenario, run

    Each theorem above that has premises is applied here to the scenario of
    the end-to-end test. *)

Ltac evaluate := vm_compute; first [reflexivity | discriminate | tauto].

Ltac fresh_by_evaluation :=
  split; [vm_compute; repeat constructor; simpl; intuition discriminate
         | vm_compute; intuition discriminate].

Ltac reachable_by_steps :=
  unfold with_finalized_order, with_ghost_order, with_order, with_verified_member,
         with_member, with_product;
  repeat apply reachable_step; apply reachable_init.



Lemma record_movement_policy_witness :
  public_kind "WASTE"
  /\ stored_staff_id (demo_env "w") (demo_request (InventoryWaste demo_waste))
     = Some "staff-123"
  /\ exists w',
       run (create_inventory_movement "WASTE" demo_waste
              (demo_request (InventoryWaste demo_waste)))
           (demo_env "w") with_product
       = (Return (MovementJson
                    (policy_row (demo_env "w") "staff-123" "WASTE" demo_waste 0 0)), w')
       /\ InventoryMovementIn.quantity demo_waste = 2%float
       /\ InventoryMovement.quantity
            (policy_row (demo_env "w") "staff-123" "WASTE" demo_waste 0 0) = (-2)%float
       /\ inventory_movements (db w')
          = (inventory_movements with_product
             ++ [policy_row (demo_env "w") "staff-123" "WASTE" demo_waste 0 0])%list.
Proof.
  split; [right; left; reflexivity|]. split; [evaluate|].
  destruct (record_movement_policy (demo_env "w")
              (demo_request (InventoryWaste demo_waste)) "WASTE" demo_waste
              with_product (or_intror (or_introl eq_refl))) as (_ & _ & Hok & _ & Hq & _).
  destruct (Hok "staff-123") as [w' [H Hdb]]; [evaluate | evaluate | evaluate | evaluate |].
  exists w'. split; [exact H|]. split; [reflexivity|]. split; [exact (Hq "staff-123")|].
  rewrite Hdb. reflexivity.
Defined.

(** C4 as stated fails: a delivery of nothing for a product that does not
    exist is refused for its quantity, not with "Product not found". *)
Lemma nothing_for_a_missing_product_is_not_notfound :
  fetchone Product.id (InventoryMovementIn.product_id nothing_for_ghost)
    (products with_product) = None
  /\ run (create_inventory_movement "RECEIVE" nothing_for_ghost
            (demo_request (InventoryReceive nothing_for_ghost)))
         (demo_env "r") with_product
     = (Raise InvalidQuantity_positive, mk_world with_product 0 0)
  /\ InvalidQuantity_positive <> ProductNotFound.
Proof. split; [|split]; [vm_compute; reflexivity | vm_compute; reflexivity | discriminate]. Qed.

Lemma unverified_member_is_refused_witness :
  status_of "m-000" with_member = Some "PENDING"
  /\ exists w',
       run (create_order demo_order (demo_request (CreateOrder demo_order)))
           (demo_env "o") with_member = (Raise IneligibleMember, w')
       /\ db w' = with_member.
Proof.
  split; [evaluate|].
  apply (proj1 (unverified_member_is_refused (demo_env "o")
                  (demo_request (CreateOrder demo_order)) with_member)
           demo_order "PENDING"); evaluate.
Defined.

Lemma waste_with_negative_quantity_is_refused_witness :
  stored_staff_id (demo_env "w")
    (demo_request (InventoryWaste (InventoryMovementIn.mk "p-000" 3%float None)))
  = Some "staff-123"
  /\ exists row w',
    run (inventory_waste (InventoryMovementIn.mk "p-000" 3%float None)
           (demo_request (InventoryWaste (InventoryMovementIn.mk "p-000" 3%float None))))
        (demo_env "w") with_product = (Return (MovementJson row), w')
    /\ InventoryMovement.quantity row = (-3)%float
    /\ InventoryMovement.recorded_by_staff_id row = "staff-123"
    /\ inventory_movements (db w') = (inventory_movements with_product ++ [row])%list.
Proof.
  split; [evaluate|].
  apply (proj2 (proj2 (proj2
           (waste_with_negative_quantity_is_refused (demo_env "w")
              (demo_request (InventoryWaste (InventoryMovementIn.mk "p-000" 3%float None)))
              with_product "p-000" None))) "staff-123"); evaluate.
Defined.

Lemma finalize_order_checks_neither_products_nor_stock_witness :
  reachable with_ghost_order
  /\ stored_staff_id (demo_env "f") (demo_request (FinalizeOrder "g-000")) = Some "staff-123"
  /\ fetchone Product.id "ghost" (products with_ghost_order) = None
  /\ derived_stock "ghost" with_ghost_order = 0%float
  /\ exists content w' rows,
       run (finalize_order "g-000" (demo_request (FinalizeOrder "g-000")))
           (demo_env "f") with_ghost_order = (Return content, w')
       /\ inventory_movements (db w') = (inventory_movements with_ghost_order ++ rows)%list
       /\ Forall2 (dispenses ghost_placed_order) (items_of "g-000" with_ghost_order) rows.
Proof.
  split; [reachable_by_steps|]. split; [evaluate|]. split; [evaluate|]. split; [evaluate|].
  apply (proj1 (proj2 finalize_order_checks_neither_products_nor_stock) (demo_env "f")
           (demo_request (FinalizeOrder "g-000")) "g-000" with_ghost_order
           ghost_placed_order "staff-123").
  - reachable_by_steps.
  - evaluate.
  - evaluate.
  - evaluate.
  - evaluate.
  - evaluate.
  - fresh_by_evaluation.
Defined.

(** C10 as stated fails: an adjustment by nothing for a product that does
    not exist is refused for its quantity, not with "Product not found". *)
Lemma no_adjustment_of_a_missing_product_is_not_notfound :
  fetchone Product.id (InventoryMovementIn.product_id nothing_for_ghost)
    (products with_ghost_order) = None
  /\ run (create_inventory_movement "ADJUST" nothing_for_ghost
            (demo_request (InventoryAdjust nothing_for_ghost)))
         (demo_env "a") with_ghost_order
     = (Raise InvalidQuantity_zero, mk_world with_ghost_order 0 0)
  /\ InvalidQuantity_zero <> ProductNotFound.
Proof. split; [|split]; [vm_compute; reflexivity | vm_compute; reflexivity | discriminate]. Qed.

(** The stock of the product that does not exist, once the order is
    finalized. *)
Example ghost_stock_goes_negative :
  derived_stock "ghost"
    (store_after (demo_env "f") (demo_request (FinalizeOrder "g-000")) with_ghost_order)
  = (-5)%float.
Proof. vm_compute. reflexivity. Qed.

Lemma order_number_is_the_creation_second_witness :
  exists content w' o items,
    run (create_order demo_order (demo_request (CreateOrder demo_order)))
        (demo_env "o") with_verified_member = (Return content, w')
    /\ content = OrderWithItemsJson o items
    /\ Order.order_number o = "ORD-20240517093012".
Proof.
  eexists _, _.
  destruct (proj1 order_number_is_the_creation_second (demo_env "o")
              (demo_request (CreateOrder demo_order)) demo_order with_verified_member _ _
              ltac:(vm_compute; reflexivity))
    as (o & items & Hc & _ & Hnum & _).
  exists o, items. split; [vm_compute; reflexivity|]. split; [exact Hc|].
  rewrite Hnum. vm_compute. reflexivity.
Defined.

Lemma member_status_changes_only_by_decision_witness :
  status_of "m-000" with_member = Some "PENDING"
  /\ status_of "m-000" with_verified_member = Some "VERIFIED"
  /\ exists payload,
       endpoint (demo_request (VerifyMember "m-000" (MemberVerifyIn.mk "VERIFIED" None None)))
       = VerifyMember "m-000" payload
       /\ "VERIFIED" = MemberVerifyIn.outcome payload.
Proof.
  split; [evaluate|]. split; [evaluate|].
  apply (proj1 (proj2 member_status_changes_only_by_decision) (demo_env "v")
           (demo_request (VerifyMember "m-000" (MemberVerifyIn.mk "VERIFIED" None None)))
           with_member "m-000" "PENDING" "VERIFIED"); evaluate.
Defined.

Lemma order_status_only_moves_forward_witness :
  reachable with_order
  /\ In demo_placed_order (orders with_order)
  /\ (Order.completed_at demo_placed_order <> None
      <-> Order.status demo_placed_order = "COMPLETED")
  /\ (In demo_placed_order (orders with_finalized_order)
      \/ exists now,
           Order.status demo_placed_order = "PLACED"
           /\ In (complete now demo_placed_order) (orders with_finalized_order)).
Proof.
  assert (Hreach : reachable with_order) by reachable_by_steps.
  assert (Hin : In demo_placed_order (orders with_order)) by (vm_compute; left; reflexivity).
  split; [exact Hreach|]. split; [exact Hin|]. split.
  - apply (proj1 order_status_only_moves_forward with_order demo_placed_order Hreach Hin).
  - apply (proj2 order_status_only_moves_forward with_order (demo_env "f")
             (demo_request (FinalizeOrder "o-000")) demo_placed_order Hreach Hin).
Defined.

Lemma every_write_is_audited_once_witness :
  is_write_method (http_method_of (endpoint (demo_request (CreateOrder demo_order)))) = true
  /\ adapt (demo_env "o") (parse_staff_id (demo_env "o")
                             (demo_request (CreateOrder demo_order)))
     = Cell (Some "staff-123")
  /\ exists response w1,
       call_next (demo_request (CreateOrder demo_order)) (demo_env "o")
         (mk_world with_member 0 0) = (Return response, w1)
       /\ response_status response = 400%Z
       /\ fst (serve (demo_env "o") (demo_request (CreateOrder demo_order)) with_member)
          = Return response
       /\ audit_events
            (store_after (demo_env "o") (demo_request (CreateOrder demo_order)) with_member)
          = (audit_events with_member
             ++ [audit_event_of (demo_env "o") (demo_request (CreateOrder demo_order))
                   response (Some "staff-123") (uuid_calls w1) (clock_calls w1)])%list.
Proof.
  split; [evaluate|]. split; [evaluate|]. eexists _, _.
  split; [vm_compute; reflexivity|]. split; [reflexivity|].
  destruct (proj1 (every_write_is_audited_once (demo_env "o")
                     (demo_request (CreateOrder demo_order)) with_member
                     ltac:(vm_compute; reflexivity))
              _ _ (Some "staff-123")
              ltac:(vm_compute; reflexivity) ltac:(vm_compute; reflexivity)
              ltac:(vm_compute; reflexivity))
    as (Hresp & Haudit & _).
  split; [exact Hresp | exact Haudit].
Defined.

(** C9 as stated fails: a POST that repeats the number of a member ends in
    the error of the UNIQUE constraint, which no handler catches, and leaves
    no audit event. *)
Lemma repeated_member_number_is_not_audited :
  is_write_method (http_method_of (endpoint (demo_request (CreateMember demo_member)))) = true
  /\ serve (demo_env "x") (demo_request (CreateMember demo_member)) with_member
     = (Raise (IntegrityError "UNIQUE constraint failed: members.member_number"),
        mk_world with_member 1 1)
  /\ audit_events
       (store_after (demo_env "x") (demo_request (CreateMember demo_member)) with_member)
     = audit_events with_member.
Proof. split; [|split]; vm_compute; reflexivity. Qed.

(** A delivery of an infinite quantity is stored, and then fails to be
    rendered as JSON: the request ends in a ValueError, with the movement
    committed and no audit event. *)
Example endless_delivery_is_stored_and_not_audited :
  serve (demo_env "r") (demo_request (InventoryReceive endless_receive)) with_product
  = (Raise ValueError,
     mk_world
       (set_inventory_movements
          [policy_row (demo_env "r") "staff-123" "RECEIVE" endless_receive 0 0]
          with_product) 1 1)
  /\ inventory_movements with_product = []
  /\ audit_events
       (store_after (demo_env "r") (demo_request (InventoryReceive endless_receive))
          with_product)
     = audit_events with_product.
Proof. split; [|split]; vm_compute; reflexivity. Qed.

(** The end-to-end test of the API: the order of a PENDING member is
    answered with 400, the member is verified, the same order is placed, and
    its finalization completes it and dispenses one unit. *)
Example end_to_end :
  (exists content,
     fst (serve (demo_env "o") (demo_request (CreateOrder demo_order)) with_member)
     = Return (mk_response 400 content)
     /\ content = DetailJson "Member must be VERIFIED before orders can be created/finalized")
  /\ status_of "m-000" with_verified_member = Some "VERIFIED"
  /\ map Order.status (orders with_order) = ["PLACED"]
  /\ inventory_movements with_order = []
  /\ map Order.status (orders with_finalized_order) = ["COMPLETED"]
  /\ map (fun r => (InventoryMovement.movement_type r, InventoryMovement.product_id r,
                    InventoryMovement.quantity r))
         (inventory_movements with_finalized_order)
     = [("DISPENSE", "p-000", (-1)%float)].
Proof.
  split; [eexists; split; vm_compute; reflexivity|].
  repeat split; vm_compute; reflexivity.
Qed.

(** The audit test of the API: a write with the header [x-staff-id] set is
    logged under that staff id. *)
Example audit_logged_for_write :
  map AuditEvent.actor_id
    (audit_events
       (store_after (demo_env "s")
          (demo_request (CreateSupplier
             (SupplierIn.mk "Acme" "ACME" None None None None true)))
          empty_store))
  = [Some "staff-123"].
Proof. vm_compute. reflexivity. Qed.

(** * Further theorems *)

(** ** The handlers, route by route *)

Lemma update_member_cases (env : Env) (member_id : string) (payload : MemberIn.t)
    (s : Store) (k c : nat) r w' :
  update_member member_id payload env (mk_world s k c) = (r, w') ->
  (db w' = s /\ exists e, r = Raise e)
  \/ (fetchone Member.id member_id (members s) <> None
      /\ update_collides Member.id Member.member_number member_id
           (MemberIn.member_number payload) (members s) = false
      /\ db w' = set_members
                   (update_where Member.id member_id
                      (set_profile payload (isoformat (clock_values env c))) (members s)) s
      /\ exists row, r = Return (MemberJson (Some row))).
Proof.
  unfold update_member. monad_unfold. intros H.
  destruct (fetchone Member.id member_id (members s)) as [m|] eqn:Hm; monad_unfold_in H;
    [|injection H as <- <-; left; eauto].
  destruct (update_collides _ _ _ _ _) eqn:Hc; monad_unfold_in H;
    [injection H as <- <-; left; eauto|].
  cbn [members set_members] in H.
  rewrite (fetchone_update_where Member.id member_id
             (set_profile payload (isoformat (clock_values env c))) (members s) m
             (fun x => eq_refl) Hm) in H.
  injection H as <- <-. right. cbn [db]. repeat split; eauto. discriminate.
Qed.

Lemma rowcount_zero {Row : Type} (pk : Row -> string) (key : string) (rows : list Row) :
  rowcount pk key rows = 0 -> delete_where pk key rows = rows.
Proof.
  unfold rowcount, delete_where. induction rows as [|x rows IH]; simpl; [reflexivity|].
  destruct (pk x =? key); simpl; [discriminate|]. intros H. now rewrite IH.
Qed.

Lemma delete_member_run (env : Env) (member_id : string) (s : Store) (k c : nat) :
  delete_member member_id env (mk_world s k c) =
  (if Nat.eqb (rowcount Member.id member_id (members s)) 0
   then Raise (HTTPException 404 "Member not found")
   else Return DeletedJson,
   mk_world (set_members (delete_where Member.id member_id (members s)) s) k c).
Proof.
  unfold delete_member. monad_unfold.
  destruct (Nat.eqb _ 0); reflexivity.
Qed.

Lemma verify_member_cases (env : Env) (member_id : string) (payload : MemberVerifyIn.t)
    (request : Request) (s : Store) (k c : nat) r w' :
  verify_member member_id payload request env (mk_world s k c) = (r, w') ->
  (db w' = s /\ exists e, r = Raise e)
  \/ (exists staff,
      stored_staff_id env request = Some staff
      /\ fetchone Member.id member_id (members s) <> None
      /\ has_value MemberVerification.id (uuid_values env k) (member_verifications s) = false
      /\ db w' = set_members
                   (update_where Member.id member_id
                      (set_status (MemberVerifyIn.outcome payload)
                         (isoformat (clock_values env c))) (members s))
                   (set_member_verifications
                      (member_verifications s
                       ++ [MemberVerification.mk (uuid_values env k) member_id
                             (MemberVerifyIn.outcome payload) staff
                             (MemberVerifyIn.notes payload)
                             (MemberVerifyIn.document_ref payload)
                             (isoformat (clock_values env c))
                             (isoformat (clock_values env c))])%list s)
      /\ exists row, r = Return (MemberJson (Some row))).
Proof.
  unfold verify_member, insert_member_verification, stored_staff_id. monad_unfold.
  intros H.
  destruct (fetchone Member.id member_id (members s)) as [m|] eqn:Hm; monad_unfold_in H;
    [|injection H as <- <-; left; eauto].
  destruct (adapt env _) as [[staff|]| | |]; monad_unfold_in H;
    try (injection H as <- <-; left; eauto; fail).
  cbn [MemberVerification.id] in H.
  destruct (has_value MemberVerification.id _ _) eqn:Hid; monad_unfold_in H;
    [injection H as <- <-; left; eauto|].
  cbn [members set_members set_member_verifications] in H.
  rewrite (fetchone_update_where Member.id member_id
             (set_status (MemberVerifyIn.outcome payload) (isoformat (clock_values env c)))
             (members s) m (fun x => eq_refl) Hm) in H.
  injection H as <- <-. right. exists staff. cbn [db]. repeat split; eauto. discriminate.
Qed.

Lemma order_item_rows_lines (env : Env) (order_id now : string) (items : list OrderItemIn.t) :
  forall k, Forall2 (line_of order_id) items (order_item_rows env k order_id now items).
Proof.
  induction items as [|item rest IH]; intros k; simpl; constructor.
  - repeat split.
  - apply IH.
Qed.

Lemma create_inventory_movement_cases (env : Env) (request : Request) (kind : string)
    (payload : InventoryMovementIn.t) (s : Store) (k c : nat) r w' :
  public_kind kind ->
  create_inventory_movement kind payload request env (mk_world s k c) = (r, w') ->
  (db w' = s /\ exists e, r = Raise e)
  \/ (exists staff,
      stored_staff_id env request = Some staff
      /\ policy_requires kind (InventoryMovementIn.quantity payload) = true
      /\ fetchone Product.id (InventoryMovementIn.product_id payload) (products s) <> None
      /\ has_value InventoryMovement.id (uuid_values env k) (inventory_movements s) = false
      /\ db w' = set_inventory_movements
                   (inventory_movements s ++ [policy_row env staff kind payload k c])%list s
      /\ r = Return (MovementJson (policy_row env staff kind payload k c))).
Proof.
  intros Hkind. rewrite create_inventory_movement_run. cbv zeta. unfold stored_staff_id.
  destruct (_ && PrimFloat.leb _ 0) eqn:H1; [intros [= <- <-]; left; eauto|].
  destruct (_ && PrimFloat.eqb _ 0) eqn:H2; [intros [= <- <-]; left; eauto|].
  destruct (fetchone Product.id _ _) eqn:Hp; [|intros [= <- <-]; left; eauto].
  destruct (adapt env _) as [cell | | |]; try (intros [= <- <-]; left; eauto; fail).
  destruct (is_nan _) eqn:H3; [intros [= <- <-]; left; eauto|].
  destruct cell as [staff|]; [|intros [= <- <-]; left; eauto].
  destruct (has_value _ _ _) eqn:Hid; intros [= <- <-]; [left; eauto|].
  right. exists staff. cbn [db]. repeat split; try reflexivity.
  - now apply guards_policy.
  - discriminate.
Qed.

Lemma handler_transition (env : Env) (request : Request) (w : World) r w' :
  validates (endpoint request) = true ->
  handler request env w = (r, w') ->
  transition (db w) (endpoint request) (db w').
Proof.
  unfold handler. intros Hvalid H. destruct w as [s k c]. cbn [db].
  assert (Hmove : forall e kind payload,
             inventory_request e = Some (kind, payload) -> public_kind kind ->
             create_inventory_movement kind payload request env (mk_world s k c) = (r, w') ->
             transition s e (db w')).
  { intros e kind payload He Hkind Hrun.
    apply create_inventory_movement_cases in Hrun; [|exact Hkind].
    destruct Hrun as [[-> _] | (staff & _ & Hreq & Hp & _ & -> & _)]; [constructor|].
    eapply step_movement; eauto. }
  destruct (endpoint request) eqn:E.
  - apply staff_login_effect in H. cbn [db] in H. rewrite H. constructor.
  - rewrite create_member_run in H. cbv zeta in H.
    destruct (has_value Member.member_number _ _) eqn:Hnum;
      [injection H as <- <-; constructor|].
    destruct (has_value Member.id _ _) eqn:Hid;
      injection H as <- <-; cbn [db]; [constructor|].
    apply step_create_member; try reflexivity; assumption.
  - apply update_member_cases in H.
    destruct H as [[-> _] | (_ & Hc & -> & _)]; [constructor|].
    now apply step_update_member.
  - rewrite delete_member_run in H. injection H as <- <-. apply step_delete_member.
  - apply verify_member_cases in H.
    destruct H as [[-> _] | (staff & _ & Hm & _ & -> & _)]; [constructor|].
    apply step_verify_member; try reflexivity; try assumption.
    cbn [validates] in Hvalid. apply orb_true_iff in Hvalid.
    destruct Hvalid as [Hv | Hv]; apply String.eqb_eq in Hv; auto.
  - apply create_item_effect in H. destruct H as [-> | [rows ->]];
      [constructor | now apply step_suppliers].
  - apply update_item_effect in H. destruct H as [-> | [rows ->]];
      [constructor | now apply step_suppliers].
  - apply delete_item_effect in H. destruct H as [-> | [rows ->]];
      [constructor | now apply step_suppliers].
  - apply create_item_effect in H. destruct H as [-> | [rows ->]];
      [constructor | now apply step_products].
  - apply update_item_effect in H. destruct H as [-> | [rows ->]];
      [constructor | now apply step_products].
  - apply delete_item_effect in H. destruct H as [-> | [rows ->]];
      [constructor | now apply step_products].
  - apply (Hmove _ "RECEIVE" payload); [reflexivity | left; reflexivity | exact H].
  - apply (Hmove _ "ADJUST" payload); [reflexivity | right; right; reflexivity | exact H].
  - apply (Hmove _ "WASTE" payload); [reflexivity | right; left; reflexivity | exact H].
  - apply create_order_cases in H.
    destruct H as [[e [-> Hdb]] | (staff & _ & Hitems & Hm & Hid & Hnum & _ & ->)].
    + rewrite Hdb. constructor.
    + cbn [db]. apply step_create_order; try reflexivity; try assumption.
      apply order_item_rows_lines.
  - apply finalize_order_cases in H.
    destruct H as [[e [-> Hdb]] | (o & staff & Ho & Hst & Hm & Hitems & _ & _ & _ & ->)].
    + rewrite Hdb. constructor.
    + cbn [db]. apply step_finalize_order with (o := o); try assumption.
      apply dispense_rows_dispenses.
  - unfold ret in H. injection H as <- <-. constructor.
Qed.

Lemma call_next_outcomes (env : Env) (request : Request) (w : World) r w' :
  call_next request env w = (r, w') ->
  (exists m p response,
      endpoint request = NoWrite m p response /\ r = Return response /\ w' = w)
  \/ (validates (endpoint request) = false /\ w' = w
      /\ (r = Raise ValueError \/ r = Return (mk_response 422 ValidationJson)))
  \/ (validates (endpoint request) = true
      /\ exists r0,
           handler request env w = (r0, w')
           /\ r = match r0 with
                  | Return c =>
                      match render_error c with
                      | None => Return (mk_response 200 c)
                      | Some x => Raise x
                      end
                  | Raise (HTTPException status detail) =>
                      Return (mk_response status (DetailJson detail))
                  | Raise x => Raise x
                  end).
Proof.
  rewrite call_next_run. intros H.
  destruct (handler request env w) as [r0 w0] eqn:Hrun.
  assert (Hdone :
    match r0 with
    | Return c =>
        match render_error c with
        | None => (Return (mk_response 200 c), w0)
        | Some x => (Raise x, w0)
        end
    | Raise (HTTPException status detail) =>
        (Return (mk_response status (DetailJson detail)), w0)
    | Raise x => (Raise x, w0)
    end = (r, w') ->
    exists r1,
      (r0, w0) = (r1, w')
      /\ r = match r1 with
             | Return c =>
                 match render_error c with
                 | None => Return (mk_response 200 c)
                 | Some x => Raise x
                 end
             | Raise (HTTPException status detail) =>
                 Return (mk_response status (DetailJson detail))
             | Raise x => Raise x
             end).
  { intros Hr. exists r0.
    destruct r0 as [c0 | e0]; [destruct (render_error c0) | destruct e0];
      injection Hr as <- <-; split; reflexivity. }
  destruct (validates (endpoint request)) eqn:Hvalid.
  - destruct (endpoint request) eqn:E; cbn [validates] in H, Hvalid;
      try rewrite Hvalid in H;
      try (right; right; split; [reflexivity | exact (Hdone H)]).
    injection H as <- <-. left. exists http_method, path, response. repeat split.
  - right; left. split; [reflexivity|].
    destruct (endpoint request) eqn:E; cbn [validates] in H, Hvalid;
      try discriminate Hvalid; try rewrite Hvalid in H;
      try (destruct (existsb nonfinite _)); injection H as <- <-; auto.
Qed.

Lemma call_next_cases (env : Env) (request : Request) (w : World) r w' :
  call_next request env w = (r, w') ->
  w' = w
  \/ (validates (endpoint request) = true
      /\ exists r0, handler request env w = (r0, w')).
Proof.
  intros H. apply call_next_outcomes in H.
  destruct H as [(m & p & response & _ & _ & ->) | [(_ & -> & _) | (Hv & r0 & Hrun & _)]];
    eauto.
Qed.

Lemma render_error_cases (c : Content) (e : Exn) :
  render_error c = Some e -> e = ValueError \/ e = UnicodeEncodeError.
Proof.
  destruct c; simpl; try discriminate;
    repeat match goal with
           | |- context [if ?b then _ else _] => destruct b
           end; intros [= <-]; auto.
Qed.

Lemma call_next_transition (env : Env) (request : Request) (w : World) r w' :
  call_next request env w = (r, w') ->
  transition (db w) (endpoint request) (db w').
Proof.
  intros H. apply call_next_cases in H.
  destruct H as [-> | (Hvalid & r0 & Hrun)]; [constructor|].
  exact (handler_transition env request w r0 w' Hvalid Hrun).
Qed.

Lemma store_after_transition (env : Env) (request : Request) (s : Store) :
  exists s1,
    transition s (endpoint request) s1
    /\ (store_after env request s = s1
        \/ (is_write_method (http_method_of (endpoint request)) = true
            /\ exists ev, store_after env request s
                          = set_audit_events (audit_events s1 ++ [ev])%list s1)).
Proof.
  unfold store_after. rewrite serve_run.
  destruct (call_next request env (mk_world s 0 0)) as [r w1] eqn:Hrun.
  apply call_next_transition in Hrun. cbn [db] in Hrun.
  exists (db w1). split; [exact Hrun|].
  destruct r as [response | e]; [|left; reflexivity].
  destruct (is_write_method _); [|left; reflexivity]. cbv zeta.
  destruct (adapt env _); try (left; reflexivity).
  destruct (has_value _ _ _); [left; reflexivity | right; split; [reflexivity|]].
  eexists. reflexivity.
Qed.

(** ** What a request touches *)

Lemma inventory_request_writes (e : Endpoint) kind payload :
  inventory_request e = Some (kind, payload) ->
  writes e = [InventoryMovements] /\ public_kind kind.
Proof.
  destruct e; simpl; try discriminate; intros [= <- <-]; split; try reflexivity;
    unfold public_kind; auto.
Qed.

Lemma transition_footprint (s s1 : Store) (e : Endpoint) (t : Table) :
  transition s e s1 -> ~ In t (writes e) -> same_table t s s1.
Proof.
  intros Hstep Hnot.
  destruct Hstep as [e | | | | | e rows Hw | e rows Hw | e kind payload row He | | ];
    try (apply inventory_request_writes in He; destruct He as [Hw _]);
    try rewrite Hw in Hnot;
    destruct t; try reflexivity; exfalso; apply Hnot; simpl; tauto.
Qed.

(** X1.  A request changes only the tables its route writes to: a table
    other than the audit trail that is not among [writes] of the endpoint
    is the same before and after the request, however the request ends. *)
Theorem write_footprint (env : Env) (request : Request) (s : Store) (t : Table) :
  t <> AuditEvents ->
  ~ In t (writes (endpoint request)) ->
  same_table t s (store_after env request s).
Proof.
  intros Haudit Hnot.
  destruct (store_after_transition env request s) as (s1 & Hstep & Hafter).
  pose proof (transition_footprint s s1 _ t Hstep Hnot) as Hsame.
  destruct Hafter as [-> | [_ [ev ->]]]; [exact Hsame|].
  destruct t; try exact Hsame. contradiction.
Qed.

(** X2.  The ledger, the order lines and the verification history only grow
    at their end: after any request each of the three tables is the old
    table followed by new rows, and a request adds at most one
    verification. *)
Theorem history_is_append_only (env : Env) (request : Request) (s : Store) :
  (exists rows, inventory_movements (store_after env request s)
                = (inventory_movements s ++ rows)%list)
  /\ (exists rows, order_items (store_after env request s) = (order_items s ++ rows)%list)
  /\ (exists rows, member_verifications (store_after env request s)
                   = (member_verifications s ++ rows)%list
        /\ List.length rows <= 1).
Proof.
  destruct (store_after_transition env request s) as (s1 & Hstep & Hafter).
  assert (Hs1 : (exists rows, inventory_movements s1 = (inventory_movements s ++ rows)%list)
                /\ (exists rows, order_items s1 = (order_items s ++ rows)%list)
                /\ (exists rows, member_verifications s1
                                 = (member_verifications s ++ rows)%list
                      /\ List.length rows <= 1)).
  { destruct Hstep; cbn [inventory_movements order_items member_verifications
      set_members set_member_verifications set_suppliers set_products
      set_inventory_movements set_orders set_order_items];
      (split; [|split]);
      first [ exists []; rewrite app_nil_r; first [reflexivity | split; [reflexivity | simpl; lia]]
            | eexists; first [reflexivity | split; [reflexivity | simpl; lia]] ]. }
  destruct Hafter as [-> | [_ [ev ->]]]; exact Hs1.
Qed.

(** X3.  The audit trail only grows at its end, by at most one event for a
    request; a request whose method is not a write method adds none; and
    an event that is added names the path of the URL of the request as its
    entity, holds as its actor the cell sqlite3 binds the staff id of
    [parse_staff_id] to, and has STAFF as the type of the actor. *)
Theorem audit_trail_is_append_only (env : Env) (request : Request) (s : Store) :
  exists evs,
    audit_events (store_after env request s) = (audit_events s ++ evs)%list
    /\ List.length evs <= 1
    /\ (is_write_method (http_method_of (endpoint request)) = false -> evs = [])
    /\ Forall (fun ev => AuditEvent.entity_id ev = url_path request
                         /\ adapt env (parse_staff_id env request)
                            = Cell (AuditEvent.actor_id ev)
                         /\ AuditEvent.actor_type ev = "STAFF") evs.
Proof.
  unfold store_after. rewrite serve_run.
  destruct (call_next request env (mk_world s 0 0)) as [r w1] eqn:Hrun.
  pose proof (effect_audit_events _ _ _ (call_next_effect _ _ _ _ _ Hrun)) as Ha.
  cbn [db] in Ha.
  assert (Hnone : exists evs, audit_events (db w1) = (audit_events s ++ evs)%list
            /\ List.length evs <= 1
            /\ (is_write_method (http_method_of (endpoint request)) = false -> evs = [])
            /\ Forall (fun ev => AuditEvent.entity_id ev = url_path request
                         /\ adapt env (parse_staff_id env request)
                            = Cell (AuditEvent.actor_id ev)
                         /\ AuditEvent.actor_type ev = "STAFF") evs).
  { exists []. rewrite app_nil_r. repeat split; auto. }
  destruct r as [response | e]; [|exact Hnone].
  destruct (is_write_method _) eqn:Hw; [|exact Hnone]. cbv zeta.
  destruct (adapt env _) as [actor | | |] eqn:Hactor; try exact Hnone.
  destruct (has_value _ _ _); [exact Hnone|].
  cbn [snd db audit_events set_audit_events]. rewrite Ha.
  eexists. split; [reflexivity|]. split; [simpl; lia|]. split; [discriminate|].
  repeat constructor.
Qed.

(** ** Invariants of the reachable databases, continued *)

Lemma reachable_invariant (P : Store -> Prop) :
  P empty_store ->
  (forall s e s1, reachable s -> P s -> transition s e s1 -> P s1) ->
  (forall s evs, P s -> P (set_audit_events evs s)) ->
  forall s, reachable s -> P s.
Proof.
  intros Hinit Hstep Haudit s Hreach.
  induction Hreach as [|s env request Hreach IH]; [exact Hinit|].
  destruct (store_after_transition env request s) as (s1 & Htr & [-> | [_ [ev ->]]]).
  - eapply Hstep; eassumption.
  - apply Haudit. eapply Hstep; eassumption.
Qed.

Lemma neg_abs_negative (q : float) :
  PrimFloat.ltb 0 q = true -> PrimFloat.ltb (neg_abs q) 0 = true.
Proof.
  unfold neg_abs. rewrite !ltb_spec, opp_spec, abs_spec, Prim2SF_zero. unfold SFltb.
  destruct (Prim2SF q) as [ [] | [] | | [] m e ]; simpl; congruence.
Qed.

Lemma policy_row_sign (kind : string) (q : float) (row : InventoryMovement.t) :
  public_kind kind ->
  policy_requires kind q = true ->
  InventoryMovement.movement_type row = kind ->
  InventoryMovement.quantity row = policy_stores kind q ->
  sign_by_type row.
Proof.
  unfold sign_by_type, policy_requires, policy_stores.
  intros [-> | [-> | ->]]; simpl (_ =? _); cbv iota; intros Hreq Hk Hq; rewrite Hk, Hq.
  - left. auto.
  - right; left. split; [reflexivity | now apply neg_abs_negative].
  - right; right; left. auto.
Qed.

Lemma dispensed_rows_sign (o : Order.t) (items : list OrderItem.t)
    (rows : list InventoryMovement.t) :
  Forall2 (dispenses o) items rows ->
  Forall (fun it => PrimFloat.ltb 0 (OrderItem.quantity it) = true) items ->
  Forall sign_by_type rows.
Proof.
  induction 1 as [|item row items rows Hd Hrest IH]; intros Hpos; constructor.
  - inversion Hpos; subst. destruct Hd as (Ht & _ & Hq & _).
    right; right; right. rewrite Hq. split; [exact Ht | now apply neg_abs_negative].
  - inversion Hpos; subst. now apply IH.
Qed.

Lemma items_of_positive (s : Store) (order_id : string) :
  consistent s ->
  Forall (fun it => PrimFloat.ltb 0 (OrderItem.quantity it) = true) (items_of order_id s).
Proof.
  intros Hc. apply Forall_forall. intros it Hin. apply filter_In in Hin.
  exact (proj1 (Forall_forall _ _) (order_lines_positive s Hc) it (proj1 Hin)).
Qed.

(** X4.  In every database the application can produce, the sign of a ledger
    quantity follows the type of the movement: a RECEIVE is positive, a
    WASTE and a DISPENSE are negative, and an ADJUST is a number other than
    zero. *)
Theorem ledger_sign_follows_type (s : Store) :
  reachable s -> Forall sign_by_type (inventory_movements s).
Proof.
  revert s. apply reachable_invariant.
  - constructor.
  - intros s e s1 Hreach IH Hstep. apply reachable_consistent in Hreach.
    destruct Hstep; try exact IH; cbn [inventory_movements set_orders set_inventory_movements].
    + apply Forall_app. split; [exact IH|]. constructor; [|constructor].
      match goal with He : inventory_request _ = _ |- _ =>
        apply inventory_request_writes in He; destruct He as [_ Hkind] end.
      eapply policy_row_sign; eassumption.
    + apply Forall_app. split; [exact IH|].
      eapply dispensed_rows_sign; [eassumption | now apply items_of_positive].
  - intros s evs H. exact H.
Qed.

Lemma items_of_app (order_id : string) (s : Store) (rows : list OrderItem.t)
    (orders' : list Order.t) :
  items_of order_id (set_order_items (order_items s ++ rows)%list (set_orders orders' s))
  = (items_of order_id s ++ filter (fun it => OrderItem.order_id it =? order_id) rows)%list.
Proof. unfold items_of. cbn [order_items set_order_items]. apply filter_app. Qed.

Lemma lines_of_order (order_id : string) (items : list OrderItemIn.t)
    (rows : list OrderItem.t) :
  Forall2 (line_of order_id) items rows ->
  filter (fun it => OrderItem.order_id it =? order_id) rows = rows
  /\ Forall (fun it => OrderItem.order_id it = order_id) rows
  /\ List.length rows = List.length items.
Proof.
  induction 1 as [|item row items rows Hl Hrest IH]; simpl; [auto|].
  destruct Hl as (Ho & _). destruct IH as (IH1 & IH2 & IH3).
  rewrite Ho, String.eqb_refl, IH1, IH3. auto.
Qed.

Lemma lines_valid (order_id : string) (items : list OrderItemIn.t) (rows : list OrderItem.t) :
  Forall2 (line_of order_id) items rows ->
  forallb valid_item items = true ->
  Forall valid_line rows.
Proof.
  induction 1 as [|item row items rows Hl Hrest IH]; simpl; intros Hv; constructor.
  - apply andb_true_iff in Hv. destruct Hv as [Hv _].
    unfold valid_item in Hv. apply andb_true_iff in Hv.
    destruct Hl as (_ & _ & Hq & Hp). unfold valid_line. rewrite Hq, Hp. exact Hv.
  - apply andb_true_iff in Hv. apply IH. apply Hv.
Qed.

Lemma has_value_app {Row : Type} (col : Row -> string) (v : string) (a b : list Row) :
  has_value col v (a ++ b) = has_value col v a || has_value col v b.
Proof. unfold has_value. apply existsb_app. Qed.

Lemma has_value_update_where (key now v : string) (rows : list Order.t) :
  has_value Order.id v (update_where Order.id key (complete now) rows)
  = has_value Order.id v rows.
Proof.
  apply eq_true_iff_eq. rewrite !has_value_true, update_where_ids; [tauto | reflexivity].
Qed.

Lemma reachable_linked (s : Store) :
  reachable s ->
  lines_and_orders s /\ Forall valid_line (order_items s).
Proof.
  revert s. apply reachable_invariant.
  - split; [constructor; simpl; tauto | constructor].
  - intros s e s1 _ [[Hlines Hords] Hval] Hstep.
    destruct Hstep; try (split; [constructor|]; assumption).
    + (* create_order *)
      match goal with Hl : Forall2 (line_of _) _ _ |- _ =>
        destruct (lines_of_order _ _ _ Hl) as (Hfilter & Hall & Hlen);
        pose proof (lines_valid _ _ _ Hl ltac:(assumption)) as Hnew end.
      split; [constructor|].
      * intros it Hin. cbn [orders order_items set_orders set_order_items] in *.
        rewrite has_value_app. apply in_app_or in Hin. destruct Hin as [Hin | Hin].
        -- rewrite (Hlines it Hin). reflexivity.
        -- rewrite (proj1 (Forall_forall _ _) Hall it Hin). simpl.
           rewrite String.eqb_refl. apply orb_true_r.
      * intros o' Hin. cbn [orders set_orders set_order_items] in Hin.
        rewrite items_of_app. apply in_app_or in Hin. destruct Hin as [Hin | [<- | []]].
        -- intros Habs. apply app_eq_nil in Habs. exact (Hords o' Hin (proj1 Habs)).
        -- rewrite Hfilter. intros Habs. apply app_eq_nil in Habs. destruct Habs as [_ Habs].
           rewrite Habs in Hlen. destruct (OrderCreateIn.items payload); [congruence | discriminate].
      * cbn [order_items set_order_items]. apply Forall_app. split; assumption.
    + (* finalize_order *)
      split; [constructor|exact Hval].
      * intros it Hin. cbn [orders order_items set_orders set_inventory_movements] in *.
        rewrite has_value_update_where. exact (Hlines it Hin).
      * intros o' Hin. cbn [orders set_orders set_inventory_movements] in Hin.
        unfold update_where in Hin. apply in_map_iff in Hin. destruct Hin as (x & Hx & Hin).
        assert (Hid : Order.id o' = Order.id x).
        { rewrite <- Hx. destruct (Order.id x =? order_id); reflexivity. }
        rewrite Hid. exact (Hords x Hin).
  - intros s evs [[Hlines Hords] Hval]. split; [constructor|]; assumption.
Qed.

(** X5.  In every database the application can produce, each order line has
    a positive quantity and a price that is not negative and belongs to a
    stored order, and each stored order has at least one line. *)
Theorem orders_and_lines_are_linked (s : Store) :
  reachable s ->
  (forall it, In it (order_items s) ->
     valid_line it
     /\ exists o, In o (orders s) /\ Order.id o = OrderItem.order_id it)
  /\ (forall o, In o (orders s) ->
       exists it, In it (order_items s) /\ OrderItem.order_id it = Order.id o).
Proof.
  intros Hreach. destruct (reachable_linked s Hreach) as [[Hlines Hords] Hval]. split.
  - intros it Hin. split; [exact (proj1 (Forall_forall _ _) Hval it Hin)|].
    specialize (Hlines it Hin). apply has_value_true in Hlines.
    apply in_map_iff in Hlines. destruct Hlines as (o & Hid & Ho). eauto.
  - intros o Hin. specialize (Hords o Hin). unfold items_of in Hords.
    destruct (filter _ (order_items s)) as [|it rest] eqn:E; [congruence|].
    assert (Hit : In it (filter (fun it => OrderItem.order_id it =? Order.id o)
                           (order_items s))) by (rewrite E; now left).
    apply filter_In in Hit. destruct Hit as [Hit Heq]. apply String.eqb_eq in Heq. eauto.
Qed.

(** ** What the handlers raise *)

Lemma finalize_order_raises (env : Env) (request : Request) (order_id : string)
    (s : Store) (k c : nat) (e : Exn) (w' : World) :
  finalize_order order_id request env (mk_world s k c) = (Raise e, w') ->
  (e = HTTPException 404 "Order not found"
   /\ fetchone Order.id order_id (orders s) = None)
  \/ (e = AlreadyFinalized
      /\ exists o, fetchone Order.id order_id (orders s) = Some o
                   /\ Order.status o = "COMPLETED")
  \/ (e = HTTPException 404 "Member not found"
      /\ exists o, fetchone Order.id order_id (orders s) = Some o
                   /\ status_of (Order.member_id o) s = None)
  \/ (e = IneligibleMember
      /\ exists o st, fetchone Order.id order_id (orders s) = Some o
                      /\ status_of (Order.member_id o) s = Some st /\ st <> "VERIFIED")
  \/ (e = EmptyOrder_finalize
      /\ exists o, fetchone Order.id order_id (orders s) = Some o
                   /\ items_of order_id s = [])
  \/ store_error e.
Proof.
  unfold finalize_order. monad_unfold.
  destruct (fetchone Order.id order_id (orders s)) as [o|] eqn:H;
    [|intros [= <- <-]; left; auto].
  destruct (Order.status o =? "COMPLETED") eqn:Hst.
  { intros [= <- <-]. right; left. apply String.eqb_eq in Hst. eauto. }
  rewrite require_verified_member_run. cbn [db].
  destruct (status_of (Order.member_id o) s) as [st|] eqn:Hm;
    [|intros [= <- <-]; right; right; left; eauto].
  destruct (st =? "VERIFIED") eqn:Hv.
  2:{ intros [= <- <-]. right; right; right; left. apply String.eqb_neq in Hv.
      split; [reflexivity|]. eauto. }
  monad_unfold.
  destruct (items_of order_id s) as [|item rest] eqn:Eitems;
    [intros [= <- <-]; right; right; right; right; left; eauto|].
  monad_unfold.
  destruct (for_each (item :: rest) _ env _) as [r1 w1] eqn:Eloop.
  apply (for_each_dispense_inv env o (parse_staff_id env request)
           (isoformat (clock_values env c))) in Eloop.
  destruct Eloop as [(-> & _ & staff & _ & ->) | (e0 & -> & He0)];
    [|intros [= <- <-]; right; right; right; right; right; exact He0].
  monad_unfold. cbn [orders set_orders set_inventory_movements].
  rewrite (fetchone_update_where Order.id order_id _ (orders s) o (complete_id _) H).
  discriminate.
Qed.

(** X6.  On a database the application has produced, [finalize_order] never
    raises the error of an order without items: when it raises, the order
    or its member is missing, the order is already finalized, the member is
    not eligible, or the store refuses an insert, for a constraint or for a
    staff id that sqlite3 cannot bind. *)
Theorem finalize_never_finds_an_empty_order (env : Env) (request : Request)
    (order_id : string) (s : Store) (e : Exn) (w' : World) :
  reachable s ->
  run (finalize_order order_id request) env s = (Raise e, w') ->
  e <> EmptyOrder_finalize
  /\ (e = HTTPException 404 "Order not found" \/ e = AlreadyFinalized
      \/ e = HTTPException 404 "Member not found" \/ e = IneligibleMember
      \/ store_error e).
Proof.
  intros Hreach Hrun. unfold run in Hrun. apply finalize_order_raises in Hrun.
  destruct Hrun as [[-> _] | [[-> _] | [[-> _] | [[-> _] | [[_ Hempty] | He]]]]];
    try (split; [discriminate | eauto 6]).
  - exfalso. destruct Hempty as (o & Ho & Hempty).
    apply fetchone_some in Ho. destruct Ho as [Hid Hin].
    destruct (reachable_linked s Hreach) as [[_ Hords] _].
    apply (Hords o Hin). rewrite Hid. exact Hempty.
  - split; [|tauto]. intros ->. exact He.
Qed.

Lemma update_member_raises (env : Env) (member_id : string) (payload : MemberIn.t)
    (s : Store) (k c : nat) (e : Exn) (w' : World) :
  update_member member_id payload env (mk_world s k c) = (Raise e, w') ->
  db w' = s
  /\ ((e = HTTPException 404 "Member not found"
       /\ fetchone Member.id member_id (members s) = None)
      \/ (e = IntegrityError "UNIQUE constraint failed: members.member_number"
          /\ update_collides Member.id Member.member_number member_id
               (MemberIn.member_number payload) (members s) = true)).
Proof.
  unfold update_member. monad_unfold. intros H.
  destruct (fetchone Member.id member_id (members s)) as [m|] eqn:Hm; monad_unfold_in H;
    [|injection H as <- <-; auto].
  destruct (update_collides _ _ _ _ _) eqn:Hc; monad_unfold_in H;
    [injection H as <- <-; auto|].
  cbn [members set_members] in H.
  rewrite (fetchone_update_where Member.id member_id
             (set_profile payload (isoformat (clock_values env c))) (members s) m
             (fun x => eq_refl) Hm) in H.
  discriminate.
Qed.

Lemma verify_member_raises (env : Env) (member_id : string) (payload : MemberVerifyIn.t)
    (request : Request) (s : Store) (k c : nat) (e : Exn) (w' : World) :
  verify_member member_id payload request env (mk_world s k c) = (Raise e, w') ->
  db w' = s
  /\ ((e = HTTPException 404 "Member not found"
       /\ fetchone Member.id member_id (members s) = None)
      \/ store_error e).
Proof.
  unfold verify_member, insert_member_verification. monad_unfold. intros H.
  destruct (fetchone Member.id member_id (members s)) as [m|] eqn:Hm; monad_unfold_in H;
    [|injection H as <- <-; auto].
  destruct (adapt env _) as [[staff|]| | |]; monad_unfold_in H;
    try (injection H as <- <-; split; [reflexivity | right; exact I]).
  cbn [MemberVerification.id] in H.
  destruct (has_value MemberVerification.id _ _) eqn:Hid; monad_unfold_in H;
    [injection H as <- <-; split; [reflexivity | right; exact I]|].
  cbn [members set_members set_member_verifications] in H.
  rewrite (fetchone_update_where Member.id member_id
             (set_status (MemberVerifyIn.outcome payload) (isoformat (clock_values env c)))
             (members s) m (fun x => eq_refl) Hm) in H.
  discriminate.
Qed.

Lemma create_order_raises (env : Env) (request : Request) (payload : OrderCreateIn.t)
    (s : Store) (k c : nat) (e : Exn) (w' : World) :
  create_order payload request env (mk_world s k c) = (Raise e, w') ->
  (e = EmptyOrder_create /\ OrderCreateIn.items payload = [])
  \/ (e = HTTPException 404 "Member not found"
      /\ status_of (OrderCreateIn.member_id payload) s = None)
  \/ (e = IneligibleMember
      /\ exists st, status_of (OrderCreateIn.member_id payload) s = Some st
                    /\ st <> "VERIFIED")
  \/ store_error e.
Proof.
  unfold create_order.
  destruct (OrderCreateIn.items payload) as [|item rest] eqn:Eitems;
    [intros [= <- <-]; left; auto|].
  monad_unfold. rewrite require_verified_member_run. cbn [db].
  destruct (status_of (OrderCreateIn.member_id payload) s) as [st|] eqn:Hm;
    [|intros [= <- <-]; right; left; auto].
  destruct (st =? "VERIFIED") eqn:Hv.
  2:{ intros [= <- <-]. right; right; left. apply String.eqb_neq in Hv. eauto. }
  unfold insert_order. monad_unfold.
  destruct (adapt env (parse_staff_id env request)) as [[staff|]| | |];
    monad_unfold; try (intros [= <- <-]; right; right; right; exact I).
  cbn [Order.id Order.order_number].
  destruct (has_value Order.order_number _ _) eqn:Hnum; monad_unfold;
    [intros [= <- <-]; right; right; right; exact I|].
  destruct (has_value Order.id _ _) eqn:Hid; monad_unfold;
    [intros [= <- <-]; right; right; right; exact I|].
  destruct (for_each (item :: rest) _ env _) as [r1 w1] eqn:Eloop.
  apply (for_each_order_items_inv env (uuid_values env k) (isoformat (clock_values env c)))
    in Eloop.
  destruct Eloop as [[-> ->] | [msg ->]];
    [|intros [= <- <-]; right; right; right; exact I].
  monad_unfold. cbn [orders set_orders set_order_items].
  fold (placed_order env staff payload k c).
  change (uuid_values env k) with (Order.id (placed_order env staff payload k c)) at 1.
  rewrite (fetchone_inserted Order.id (orders s) (placed_order env staff payload k c) Hid).
  discriminate.
Qed.

Section CrudRaises.
Context {Row Payload : Type}.
Variable table : Store -> list Row.
Variable set_table : list Row -> Store -> Store.
Variable row_id : Row -> string.
Variable unique_col : Row -> string.
Variable unique_in : Payload -> string.
Variable table_name : string.
Variable unique_name : string.
Variable new_row : string -> Payload -> string -> string -> Row.
Variable set_fields : Payload -> string -> Row -> Row.
Variable to_json : Row -> Content.
Hypothesis table_set : forall rows s, table (set_table rows s) = rows.
Hypothesis set_table_same : forall s, set_table (table s) s = s.
Hypothesis new_row_id : forall i p created updated, row_id (new_row i p created updated) = i.
Hypothesis set_fields_id : forall p updated r, row_id (set_fields p updated r) = row_id r.

Lemma create_item_run (env : Env) (payload : Payload) (s : Store) (k c : nat) :
  create_item table set_table row_id unique_col unique_in table_name unique_name new_row
    to_json payload env (mk_world s k c) =
  let row := new_row (uuid_values env k) payload (isoformat (clock_values env c))
               (isoformat (clock_values env c)) in
  if has_value unique_col (unique_in payload) (table s) then
    (Raise (IntegrityError
              ("UNIQUE constraint failed: " ++ table_name ++ "." ++ unique_name)),
     mk_world s (S k) (S c))
  else if has_value row_id (uuid_values env k) (table s) then
    (Raise (IntegrityError ("UNIQUE constraint failed: " ++ table_name ++ ".id")),
     mk_world s (S k) (S c))
  else
    (Return (to_json row), mk_world (set_table (table s ++ [row])%list s) (S k) (S c)).
Proof.
  unfold create_item. monad_unfold.
  destruct (has_value unique_col _ _); [reflexivity|]. monad_unfold.
  destruct (has_value row_id _ _) eqn:Hid; [reflexivity|].
  monad_unfold. rewrite table_set.
  match goal with
  | |- context [fetchone row_id ?i (?rows ++ [?r])] =>
      replace (fetchone row_id i (rows ++ [r])) with (Some r)
  end; [reflexivity|].
  symmetry. rewrite <- (new_row_id (uuid_values env k) payload
                          (isoformat (clock_values env c)) (isoformat (clock_values env c)))
    at 1.
  apply fetchone_inserted. now rewrite new_row_id.
Qed.

Lemma update_item_run (env : Env) (item_id : string) (payload : Payload)
    (s : Store) (k c : nat) :
  update_item table set_table row_id unique_col unique_in table_name unique_name
    set_fields to_json item_id payload env (mk_world s k c) =
  match fetchone row_id item_id (table s) with
  | None => (Raise (HTTPException 404 "Not found"), mk_world s k c)
  | Some old =>
      if update_collides row_id unique_col item_id (unique_in payload) (table s) then
        (Raise (IntegrityError
                  ("UNIQUE constraint failed: " ++ table_name ++ "." ++ unique_name)),
         mk_world s k (S c))
      else
        (Return (to_json (set_fields payload (isoformat (clock_values env c)) old)),
         mk_world
           (set_table
              (update_where row_id item_id
                 (set_fields payload (isoformat (clock_values env c))) (table s)) s)
           k (S c))
  end.
Proof.
  unfold update_item. monad_unfold.
  destruct (fetchone row_id item_id (table s)) as [old|] eqn:Hold; [|reflexivity].
  monad_unfold. destruct (update_collides _ _ _ _ _); [reflexivity|].
  monad_unfold. rewrite table_set.
  rewrite (fetchone_update_where row_id item_id _ (table s) old
             (set_fields_id payload (isoformat (clock_values env c))) Hold).
  reflexivity.
Qed.

Lemma delete_item_run (env : Env) (item_id : string) (s : Store) (k c : nat) :
  delete_item table set_table row_id item_id env (mk_world s k c) =
  (if Nat.eqb (rowcount row_id item_id (table s)) 0
   then Raise (HTTPException 404 "Not found")
   else Return DeletedJson,
   mk_world (set_table (delete_where row_id item_id (table s)) s) k c).
Proof.
  unfold delete_item. monad_unfold. destruct (Nat.eqb _ 0); reflexivity.
Qed.

Lemma crud_raises (env : Env) (w : World) (e : Exn) (w' : World) :
  (forall payload,
      create_item table set_table row_id unique_col unique_in table_name unique_name
        new_row to_json payload env w = (Raise e, w') -> foreseen e /\ db w' = db w)
  /\ (forall item_id payload,
      update_item table set_table row_id unique_col unique_in table_name unique_name
        set_fields to_json item_id payload env w = (Raise e, w') ->
      foreseen e /\ db w' = db w)
  /\ (forall item_id,
      delete_item table set_table row_id item_id env w = (Raise e, w') ->
      foreseen e /\ db w' = db w).
Proof.
  destruct w as [s k c]. split; [|split].
  - intros payload. rewrite create_item_run. cbv zeta.
    destruct (has_value unique_col _ _); [intros [= <- <-]; simpl; auto|].
    destruct (has_value row_id _ _); [intros [= <- <-]; simpl; auto | discriminate].
  - intros item_id payload. rewrite update_item_run.
    destruct (fetchone row_id item_id (table s)); [|intros [= <- <-]; simpl; auto].
    destruct (update_collides _ _ _ _ _); [intros [= <- <-]; simpl; auto | discriminate].
  - intros item_id. rewrite delete_item_run.
    destruct (Nat.eqb _ 0) eqn:Hz; [|discriminate].
    intros [= <- <-]. cbn [db]. split; [simpl; auto|].
    apply Nat.eqb_eq in Hz. rewrite (rowcount_zero _ _ _ Hz). apply set_table_same.
Qed.

End CrudRaises.

Lemma set_suppliers_same (s : Store) : set_suppliers (suppliers s) s = s.
Proof. destruct s; reflexivity. Qed.

Lemma set_products_same (s : Store) : set_products (products s) s = s.
Proof. destruct s; reflexivity. Qed.

Lemma set_members_same (s : Store) : set_members (members s) s = s.
Proof. destruct s; reflexivity. Qed.

Lemma handler_raises (env : Env) (request : Request) (w : World) (e : Exn) (w' : World) :
  handler request env w = (Raise e, w') ->
  foreseen e /\ db w' = db w.
Proof.
  unfold handler. intros H. destruct w as [s k c]. cbn [db].
  assert (Hmove : forall kind payload,
             create_inventory_movement kind payload request env (mk_world s k c)
             = (Raise e, w') -> foreseen e /\ db w' = s).
  { intros kind payload. rewrite create_inventory_movement_run. cbv zeta.
    destruct (_ && PrimFloat.leb _ 0); [intros [= <- <-]; simpl; auto|].
    destruct (_ && PrimFloat.eqb _ 0); [intros [= <- <-]; simpl; auto|].
    destruct (fetchone Product.id _ _); [|intros [= <- <-]; simpl; auto].
    destruct (adapt env _) as [[staff|]| | |];
      try (destruct (is_nan _)); try (intros [= <- <-]; simpl; auto; fail).
    destruct (has_value _ _ _); [intros [= <- <-]; simpl; auto | discriminate]. }
  destruct (endpoint request) eqn:E.
  - unfold staff_login in H. monad_unfold_in H. discriminate.
  - rewrite create_member_run in H. cbv zeta in H.
    destruct (has_value Member.member_number _ _); [injection H as <- <-; simpl; auto|].
    destruct (has_value Member.id _ _);
      [injection H as <- <-; simpl; auto | discriminate].
  - apply update_member_raises in H.
    destruct H as [-> [[-> _] | [-> _]]]; simpl; auto.
  - rewrite delete_member_run in H.
    destruct (Nat.eqb _ 0) eqn:Hz; [|discriminate]. injection H as <- <-. cbn [db].
    apply Nat.eqb_eq in Hz. rewrite (rowcount_zero _ _ _ Hz), set_members_same.
    simpl; auto.
  - apply verify_member_raises in H.
    destruct H as [-> [[-> _] | He]]; [simpl; auto|].
    split; [|reflexivity]. destruct e; try contradiction; exact I.
  - apply (proj1 (crud_raises suppliers set_suppliers Supplier.id Supplier.code
                    SupplierIn.code "suppliers" "code" new_supplier set_supplier
                    SupplierJson (fun _ _ => eq_refl) set_suppliers_same
                    (fun _ _ _ _ => eq_refl) (fun _ _ _ => eq_refl)
                    env (mk_world s k c) e w') payload H).
  - apply (proj1 (proj2 (crud_raises suppliers set_suppliers Supplier.id Supplier.code
                    SupplierIn.code "suppliers" "code" new_supplier set_supplier
                    SupplierJson (fun _ _ => eq_refl) set_suppliers_same
                    (fun _ _ _ _ => eq_refl) (fun _ _ _ => eq_refl)
                    env (mk_world s k c) e w')) item_id payload H).
  - apply (proj2 (proj2 (crud_raises suppliers set_suppliers Supplier.id Supplier.code
                    SupplierIn.code "suppliers" "code" new_supplier set_supplier
                    SupplierJson (fun _ _ => eq_refl) set_suppliers_same
                    (fun _ _ _ _ => eq_refl) (fun _ _ _ => eq_refl)
                    env (mk_world s k c) e w')) item_id H).
  - apply (proj1 (crud_raises products set_products Product.id Product.sku
                    ProductIn.sku "products" "sku" new_product set_product
                    ProductJson (fun _ _ => eq_refl) set_products_same
                    (fun _ _ _ _ => eq_refl) (fun _ _ _ => eq_refl)
                    env (mk_world s k c) e w') payload H).
  - apply (proj1 (proj2 (crud_raises products set_products Product.id Product.sku
                    ProductIn.sku "products" "sku" new_product set_product
                    ProductJson (fun _ _ => eq_refl) set_products_same
                    (fun _ _ _ _ => eq_refl) (fun _ _ _ => eq_refl)
                    env (mk_world s k c) e w')) item_id payload H).
  - apply (proj2 (proj2 (crud_raises products set_products Product.id Product.sku
                    ProductIn.sku "products" "sku" new_product set_product
                    ProductJson (fun _ _ => eq_refl) set_products_same
                    (fun _ _ _ _ => eq_refl) (fun _ _ _ => eq_refl)
                    env (mk_world s k c) e w')) item_id H).
  - apply (Hmove _ _ H).
  - apply (Hmove _ _ H).
  - apply (Hmove _ _ H).
  - pose proof (create_order_cases env request payload s k c _ _ H) as Hc.
    apply create_order_raises in H.
    destruct Hc as [[e' [_ Hdb]] | (staff & _ & _ & _ & _ & _ & [items Habs] & _)];
      [|discriminate].
    split; [|exact Hdb].
    destruct H as [[-> _] | [[-> _] | [[-> _] | He]]]; simpl; auto.
    destruct e; try contradiction; exact I.
  - pose proof (finalize_order_cases env request order_id s k c _ _ H) as Hc.
    apply finalize_order_raises in H.
    destruct Hc as [[e' [_ Hdb]] | (o & staff & _ & _ & _ & _ & _ & _ & Habs & _)];
      [|discriminate].
    split; [|exact Hdb].
    destruct H as [[-> _] | [[-> _] | [[-> _] | [[-> _] | [[-> _] | He]]]]];
      simpl; auto.
    destruct e; try contradiction; exact I.
  - unfold ret in H. discriminate.
Qed.

Lemma call_next_raised (env : Env) (request : Request) (w : World) (e : Exn) (w' : World) :
  call_next request env w = (Raise e, w') ->
  (e = ValueError /\ w' = w)
  \/ (exists c, handler request env w = (Return c, w') /\ render_error c = Some e)
  \/ (handler request env w = (Raise e, w') /\ store_error e).
Proof.
  intros H. apply call_next_outcomes in H.
  destruct H as [(m & p & response & _ & Hr & _)
                | [(_ & -> & [[= ->] | Hr]) | (_ & r0 & Hrun & Hr)]];
    try discriminate.
  - left. split; reflexivity.
  - destruct r0 as [c | e0].
    + right; left. exists c. split; [exact Hrun|].
      destruct (render_error c); [now injection Hr as -> | discriminate].
    + right; right. pose proof (proj1 (handler_raises env request w e0 w' Hrun)) as Hf.
      destruct e0; try discriminate; try contradiction; injection Hr as ->;
        (split; [exact Hrun | exact I]).
Qed.

(** X7.  A handler that raises has written nothing: the database is as it
    was before the call.  The same holds of the routed application when it
    answers with a status other than 200, and when an exception escapes it
    that is not the error of a rendering.  The error of a rendering, a
    ValueError or a UnicodeEncodeError, comes after the handler has
    returned: what the handler wrote is then committed. *)
Theorem failure_writes_nothing (env : Env) (request : Request) (w : World) :
  (forall e w', handler request env w = (Raise e, w') -> db w' = db w)
  /\ (forall e w', call_next request env w = (Raise e, w') ->
        db w' = db w
        \/ ((e = ValueError \/ e = UnicodeEncodeError)
            /\ exists c, handler request env w = (Return c, w')
                         /\ render_error c = Some e))
  /\ (forall response w',
        call_next request env w = (Return response, w') ->
        response_status response <> 200%Z ->
        db w' = db w)
  /\ (forall e w', call_next request env w = (Raise e, w') ->
        e <> ValueError -> e <> UnicodeEncodeError -> db w' = db w).
Proof.
  assert (Hraised : forall e w', call_next request env w = (Raise e, w') ->
            db w' = db w
            \/ ((e = ValueError \/ e = UnicodeEncodeError)
                /\ exists c, handler request env w = (Return c, w')
                             /\ render_error c = Some e)).
  { intros e w' H. apply call_next_raised in H.
    destruct H as [[_ ->] | [(c & Hrun & Hc) | [Hrun _]]].
    - left. reflexivity.
    - right. split; [exact (render_error_cases c e Hc) | eauto].
    - left. exact (proj2 (handler_raises env request w e w' Hrun)). }
  split; [|split; [|split]].
  - intros e w' H. exact (proj2 (handler_raises env request w e w' H)).
  - exact Hraised.
  - intros response w' H Hstatus. apply call_next_outcomes in H.
    destruct H as [(m & p & response0 & _ & _ & ->)
                  | [(_ & -> & _) | (_ & r0 & Hrun & Hr)]]; try reflexivity.
    destruct r0 as [c | e0].
    + destruct (render_error c); [discriminate|]. injection Hr as ->.
      now destruct Hstatus.
    + exact (proj2 (handler_raises env request w e0 w' Hrun)).
  - intros e w' H Hv Hu. destruct (Hraised e w' H) as [Hdb | [[-> | ->] _]];
      [exact Hdb | now destruct Hv | now destruct Hu].
Qed.

(** X8.  What a handler raises is an HTTPException with status 400 or 404, or
    an error of the store, a constraint violated or a parameter that sqlite3
    cannot bind: it never fails on a row it expected to read back.  Of these
    only the errors of the store escape the routed application, which
    besides them lets out the ValueError and the UnicodeEncodeError of a
    rendering; and a routed request that is answered is answered with 200,
    400, 404 or 422. *)
Theorem handlers_raise_only_the_foreseen (env : Env) (request : Request) (w : World) :
  (forall e w', handler request env w = (Raise e, w') -> foreseen e)
  /\ (forall e w', call_next request env w = (Raise e, w') ->
        store_error e \/ e = ValueError)
  /\ (forall response w',
        call_next request env w = (Return response, w') ->
        (forall m p r, endpoint request <> NoWrite m p r) ->
        In (response_status response) [200; 400; 404; 422]%Z).
Proof.
  split; [|split].
  - intros e w' H. exact (proj1 (handler_raises env request w e w' H)).
  - intros e w' H. apply call_next_raised in H.
    destruct H as [[-> _] | [(c & _ & Hc) | [_ He]]].
    + right. reflexivity.
    + destruct (render_error_cases c e Hc) as [-> | ->]; [right; reflexivity | left; exact I].
    + left. exact He.
  - intros response w' H Hrouted. apply call_next_outcomes in H.
    destruct H as [(m & p & response0 & E & _ & _)
                  | [(_ & _ & [Hr | [= ->]]) | (_ & r0 & Hrun & Hr)]].
    + now destruct (Hrouted m p response0).
    + discriminate.
    + simpl. tauto.
    + destruct r0 as [c | e0].
      * destruct (render_error c); [discriminate|]. injection Hr as ->. simpl. tauto.
      * pose proof (proj1 (handler_raises env request w e0 w' Hrun)) as Hf.
        destruct e0; try discriminate. injection Hr as ->. simpl in Hf.
        destruct Hf as [-> | ->]; simpl; tauto.
Qed.

(** ** Reading back what was written *)


Lemma get_item_run {Row : Type} (table : Store -> list Row) (row_id : Row -> string)
    (to_json : Row -> Content) (env : Env) (item_id : string) (s : Store) (k c : nat) :
  get_item table row_id to_json item_id env (mk_world s k c) =
  (match fetchone row_id item_id (table s) with
   | None => Raise (HTTPException 404 "Not found")
   | Some r => Return (to_json r)
   end, mk_world s k c).
Proof.
  unfold get_item. monad_unfold. destruct (fetchone _ _ _); reflexivity.
Qed.

Section DeleteFacts.
Context {Row : Type}.
Variable pk : Row -> string.

Lemma rowcount_fetchone (key : string) (rows : list Row) :
  rowcount pk key rows = 0 <-> fetchone pk key rows = None.
Proof.
  unfold rowcount, fetchone. induction rows as [|x rows IH]; simpl; [tauto|].
  destruct (pk x =? key); simpl; [split; discriminate | exact IH].
Qed.

Lemma fetchone_deleted (key : string) (rows : list Row) :
  fetchone pk key (delete_where pk key rows) = None.
Proof.
  unfold fetchone, delete_where. induction rows as [|x rows IH]; simpl; [reflexivity|].
  destruct (pk x =? key) eqn:E; simpl; [exact IH | rewrite E; exact IH].
Qed.

Lemma fetchone_delete_other (key other : string) (rows : list Row) :
  other <> key ->
  fetchone pk other (delete_where pk key rows) = fetchone pk other rows.
Proof.
  intros Hne. unfold fetchone, delete_where.
  induction rows as [|x rows IH]; simpl; [reflexivity|].
  destruct (pk x =? key) eqn:E; simpl.
  - apply String.eqb_eq in E. destruct (pk x =? other) eqn:E'; [|exact IH].
    apply String.eqb_eq in E'. congruence.
  - destruct (pk x =? other); [reflexivity | exact IH].
Qed.

Lemma fetchone_update_elsewhere (key other : string) (f : Row -> Row) (rows : list Row) :
  (forall x, pk (f x) = pk x) ->
  other <> key ->
  fetchone pk other (update_where pk key f rows) = fetchone pk other rows.
Proof.
  intros Hf Hne. rewrite fetchone_update_where_any by exact Hf.
  destruct (fetchone pk other rows) as [r|] eqn:E; [|reflexivity]. simpl.
  apply fetchone_some in E. destruct E as [E _].
  destruct (pk r =? key) eqn:Ek; [|reflexivity].
  apply String.eqb_eq in Ek. congruence.
Qed.

End DeleteFacts.


Section CrudRoundTrip.
Context {Row Payload : Type}.
Variable table : Store -> list Row.
Variable set_table : list Row -> Store -> Store.
Variable row_id : Row -> string.
Variable unique_col : Row -> string.
Variable unique_in : Payload -> string.
Variable table_name : string.
Variable unique_name : string.
Variable new_row : string -> Payload -> string -> string -> Row.
Variable set_fields : Payload -> string -> Row -> Row.
Variable to_json : Row -> Content.
Hypothesis table_set : forall rows s, table (set_table rows s) = rows.
Hypothesis set_table_same : forall s, set_table (table s) s = s.
Hypothesis new_row_id : forall i p created updated, row_id (new_row i p created updated) = i.
Hypothesis set_fields_id : forall p updated r, row_id (set_fields p updated r) = row_id r.

Lemma item_round_trip (env env' : Env) (s : Store) :
  (forall payload content w',
      run (create_item table set_table row_id unique_col unique_in table_name unique_name
             new_row to_json payload) env s = (Return content, w') ->
      let now := isoformat (clock_values env 0) in
      let row := new_row (uuid_values env 0) payload now now in
      content = to_json row
      /\ table (db w') = (table s ++ [row])%list
      /\ run (get_item table row_id to_json (uuid_values env 0)) env' (db w') = (Return content, mk_world (db w') 0 0)
      /\ forall other r, fetchone row_id other (table s) = Some r ->
           fetchone row_id other (table (db w')) = Some r)
  /\ (forall item_id payload content w',
      run (update_item table set_table row_id unique_col unique_in table_name unique_name
             set_fields to_json item_id payload) env s = (Return content, w') ->
      exists old,
        fetchone row_id item_id (table s) = Some old
        /\ content = to_json (set_fields payload (isoformat (clock_values env 0)) old)
        /\ run (get_item table row_id to_json item_id) env' (db w') = (Return content, mk_world (db w') 0 0)
        /\ forall other, other <> item_id ->
             fetchone row_id other (table (db w')) = fetchone row_id other (table s))
  /\ (forall item_id content w',
      run (delete_item table set_table row_id item_id) env s = (Return content, w') ->
      content = DeletedJson
      /\ fetchone row_id item_id (table s) <> None
      /\ run (get_item table row_id to_json item_id) env' (db w')
         = (Raise (HTTPException 404 "Not found"), mk_world (db w') 0 0)
      /\ run (delete_item table set_table row_id item_id) env' (db w')
         = (Raise (HTTPException 404 "Not found"), mk_world (db w') 0 0)
      /\ forall other, other <> item_id ->
           fetchone row_id other (table (db w')) = fetchone row_id other (table s)).
Proof.
  split; [|split].
  - intros payload content w'. unfold run.
    rewrite (create_item_run table set_table row_id unique_col unique_in table_name
               unique_name new_row to_json table_set new_row_id).
    cbv zeta.
    destruct (has_value unique_col _ _); [discriminate|].
    destruct (has_value row_id _ _) eqn:Hid; [discriminate|].
    intros [= <- <-]. cbn [db]. rewrite table_set.
    split; [reflexivity|]. split; [reflexivity|].
    assert (Hnew : fetchone row_id (uuid_values env 0)
                     (table s ++ [new_row (uuid_values env 0) payload
                                    (isoformat (clock_values env 0))
                                    (isoformat (clock_values env 0))])%list
                   = Some (new_row (uuid_values env 0) payload
                             (isoformat (clock_values env 0))
                             (isoformat (clock_values env 0)))).
    { rewrite <- (new_row_id (uuid_values env 0) payload
                    (isoformat (clock_values env 0)) (isoformat (clock_values env 0))) at 1.
      apply fetchone_inserted. now rewrite new_row_id. }
    split.
    + rewrite get_item_run, table_set, Hnew. reflexivity.
    + intros other r Hr. rewrite fetchone_app, Hr. reflexivity.
  - intros item_id payload content w'. unfold run.
    rewrite (update_item_run table set_table row_id unique_col unique_in table_name
               unique_name set_fields to_json table_set set_fields_id).
    destruct (fetchone row_id item_id (table s)) as [old|] eqn:Hold; [|discriminate].
    destruct (update_collides _ _ _ _ _); [discriminate|].
    intros [= <- <-]. exists old. cbn [db]. rewrite table_set.
    split; [reflexivity|]. split; [reflexivity|]. split.
    + rewrite get_item_run, table_set.
      rewrite (fetchone_update_where row_id item_id _ (table s) old
                 (set_fields_id payload (isoformat (clock_values env 0))) Hold).
      reflexivity.
    + intros other Hne. apply fetchone_update_elsewhere; [apply set_fields_id | exact Hne].
  - intros item_id content w'. unfold run.
    rewrite (delete_item_run table set_table row_id).
    destruct (Nat.eqb _ 0) eqn:Hz; [discriminate|]. intros [= <- <-].
    split; [reflexivity|]. split.
    { intros Habs. apply rowcount_fetchone in Habs. rewrite Habs in Hz. discriminate. }
    cbn [db]. rewrite table_set. split; [|split].
    + rewrite get_item_run, table_set, fetchone_deleted. reflexivity.
    + rewrite (delete_item_run table set_table row_id). rewrite table_set.
      assert (Hgone : rowcount row_id item_id (delete_where row_id item_id (table s)) = 0).
      { apply rowcount_fetchone. apply fetchone_deleted. }
      rewrite Hgone, (rowcount_zero _ _ _ Hgone). simpl.
      rewrite <- (table_set (delete_where row_id item_id (table s)) s) at 1.
      rewrite set_table_same. reflexivity.
    + intros other Hne. now apply fetchone_delete_other.
Qed.

End CrudRoundTrip.

(** X10.  The routes [build_crud_routes] registers for the products: what
    [create_item] or [update_item] returns is what [get_item] returns for
    that id afterwards, the created row being appended to the table and the
    rows that were there still being found; once [delete_item] has returned,
    [get_item] and a second [delete_item] for that id raise 404; an update
    or a deletion leaves the rows under other ids as they were. *)
Theorem product_round_trip (env env' : Env) (s : Store) :
  (forall payload content w',
      run (create_product payload) env s = (Return content, w') ->
      let now := isoformat (clock_values env 0) in
      let row := new_product (uuid_values env 0) payload now now in
      content = ProductJson row
      /\ products (db w') = (products s ++ [row])%list
      /\ run (get_product (uuid_values env 0)) env' (db w')
         = (Return content, mk_world (db w') 0 0)
      /\ forall other r, fetchone Product.id other (products s) = Some r ->
           fetchone Product.id other (products (db w')) = Some r)
  /\ (forall item_id payload content w',
      run (update_product item_id payload) env s = (Return content, w') ->
      exists old,
        fetchone Product.id item_id (products s) = Some old
        /\ content = ProductJson (set_product payload (isoformat (clock_values env 0)) old)
        /\ run (get_product item_id) env' (db w') = (Return content, mk_world (db w') 0 0)
        /\ forall other, other <> item_id ->
             fetchone Product.id other (products (db w'))
             = fetchone Product.id other (products s))
  /\ (forall item_id content w',
      run (delete_product item_id) env s = (Return content, w') ->
      content = DeletedJson
      /\ fetchone Product.id item_id (products s) <> None
      /\ run (get_product item_id) env' (db w')
         = (Raise (HTTPException 404 "Not found"), mk_world (db w') 0 0)
      /\ run (delete_product item_id) env' (db w')
         = (Raise (HTTPException 404 "Not found"), mk_world (db w') 0 0)
      /\ forall other, other <> item_id ->
           fetchone Product.id other (products (db w'))
           = fetchone Product.id other (products s)).
Proof.
  exact (item_round_trip products set_products Product.id Product.sku ProductIn.sku
           "products" "sku" new_product set_product ProductJson
           (fun _ _ => eq_refl) set_products_same (fun _ _ _ _ => eq_refl)
           (fun _ _ _ => eq_refl) env env' s).
Qed.

(** X11.  The same round trips for the routes [build_crud_routes] registers
    for the suppliers: a created or updated supplier is read back as it was
    returned, a deleted one is gone for [get_item] and for a second
    [delete_item], and the rows under other ids are left as they were. *)
Theorem supplier_round_trip (env env' : Env) (s : Store) :
  (forall payload content w',
      run (create_supplier payload) env s = (Return content, w') ->
      let now := isoformat (clock_values env 0) in
      let row := new_supplier (uuid_values env 0) payload now now in
      content = SupplierJson row
      /\ suppliers (db w') = (suppliers s ++ [row])%list
      /\ run (get_supplier (uuid_values env 0)) env' (db w')
         = (Return content, mk_world (db w') 0 0)
      /\ forall other r, fetchone Supplier.id other (suppliers s) = Some r ->
           fetchone Supplier.id other (suppliers (db w')) = Some r)
  /\ (forall item_id payload content w',
      run (update_supplier item_id payload) env s = (Return content, w') ->
      exists old,
        fetchone Supplier.id item_id (suppliers s) = Some old
        /\ content = SupplierJson (set_supplier payload (isoformat (clock_values env 0)) old)
        /\ run (get_supplier item_id) env' (db w') = (Return content, mk_world (db w') 0 0)
        /\ forall other, other <> item_id ->
             fetchone Supplier.id other (suppliers (db w'))
             = fetchone Supplier.id other (suppliers s))
  /\ (forall item_id content w',
      run (delete_supplier item_id) env s = (Return content, w') ->
      content = DeletedJson
      /\ fetchone Supplier.id item_id (suppliers s) <> None
      /\ run (get_supplier item_id) env' (db w')
         = (Raise (HTTPException 404 "Not found"), mk_world (db w') 0 0)
      /\ run (delete_supplier item_id) env' (db w')
         = (Raise (HTTPException 404 "Not found"), mk_world (db w') 0 0)
      /\ forall other, other <> item_id ->
           fetchone Supplier.id other (suppliers (db w'))
           = fetchone Supplier.id other (suppliers s)).
Proof.
  exact (item_round_trip suppliers set_suppliers Supplier.id Supplier.code SupplierIn.code
           "suppliers" "code" new_supplier set_supplier SupplierJson
           (fun _ _ => eq_refl) set_suppliers_same (fun _ _ _ _ => eq_refl)
           (fun _ _ _ => eq_refl) env env' s).
Qed.

(** ** The acting staff member *)

Lemma lower_ascii_space (c : ascii) : lower_ascii c = " "%char -> c = " "%char.
Proof.
  destruct c as [[] [] [] [] [] [] [] []]; vm_compute; intros H;
    first [reflexivity | discriminate H].
Qed.

Lemma lower_ascii_other (c x : ascii) :
  x = lower_ascii c -> x <> " "%char -> Ascii.eqb c " " = false.
Proof.
  intros Hx Hne. destruct (Ascii.eqb c " ") eqn:E; [|reflexivity].
  apply Ascii.eqb_eq in E. subst c. exfalso. apply Hne. subst x. reflexivity.
Qed.

Lemma bearer_token (auth : string) :
  prefix "bearer " (lower auth) = true ->
  nth_error (split_once " "%char auth) 1 = Some (drop 7 auth).
Proof.
  intros H.
  destruct auth as [|c1 [|c2 [|c3 [|c4 [|c5 [|c6 [|c7 rest]]]]]]];
    simpl in H; try discriminate;
    repeat match type of H with
           | (if ?d then _ else _) = true => destruct d; [|discriminate]
           end; try discriminate.
  simpl.
  repeat match goal with
         | E : ?x = lower_ascii ?c |- context [Ascii.eqb ?c " "] =>
             first [ rewrite (lower_ascii_other c x E) by (intros [=])
                   | rewrite (lower_ascii_space c (eq_sym E)) ];
             clear E
         end.
  reflexivity.
Qed.

Lemma equals_signs_length (n : nat) : String.length (equals_signs n) = n.
Proof. induction n; simpl; congruence. Qed.

Lemma append_length (a b : string) :
  String.length (a ++ b) = String.length a + String.length b.
Proof. induction a; simpl; congruence. Qed.

Lemma claim_truthy (key : string) (d : list (string * Value)) (v : Value) :
  claim key d = Some v -> truthy v = true.
Proof.
  unfold claim. destruct (dict_get key d) as [x|]; [|discriminate].
  destruct (truthy x) eqn:E; [|discriminate]. now intros [= <-].
Qed.

Lemma staff_of_claims_truthy (payload : option (list (string * Value))) :
  truthy (staff_of_claims payload) = true.
Proof.
  unfold staff_of_claims. destruct payload as [d|]; [|reflexivity].
  destruct (claim "sub" d) eqn:E1; [exact (claim_truthy _ _ _ E1)|].
  destruct (claim "username" d) eqn:E2; [exact (claim_truthy _ _ _ E2)|].
  reflexivity.
Qed.

(** X12.  [parse_staff_id] never returns a value that Python takes for
    false, so never the empty string.  A header x-staff-id that is not empty
    is returned as it is.  Without one, and with an authorization header
    that starts with the word bearer and a space, in any letter case, the
    token is the header from its eighth character on, and the result is
    read from the claims of the second segment of the token (sub, else
    username, else unknown; unknown as well when the segment does not
    decode), or is unknown when the token has no second segment; with any
    other authorization header, or none, the result is unknown.  A claim is
    returned as the JSON value it is, a text or not, and is passed over
    only when it is absent or taken for false. *)
Theorem staff_id_sources (env : Env) (request : Request) :
  truthy (parse_staff_id env request) = true
  /\ parse_staff_id env request <> VStr ""
  /\ (forall staff, staff <> "" ->
        headers_get "x-staff-id" (headers request) = Some staff ->
        parse_staff_id env request = VStr staff)
  /\ (headers_get "x-staff-id" (headers request) = None
      \/ headers_get "x-staff-id" (headers request) = Some "" ->
      (forall auth,
          headers_get "authorization" (headers request) = Some auth ->
          prefix "bearer " (lower auth) = true ->
          parse_staff_id env request =
          match split "."%char (drop 7 auth) with
          | _ :: part1 :: _ => staff_of_claims (decode_claims env (payload_raw part1))
          | _ => VStr "unknown"
          end)
      /\ (match headers_get "authorization" (headers request) with
          | Some auth => prefix "bearer " (lower auth) = false
          | None => True
          end ->
          parse_staff_id env request = VStr "unknown"))
  /\ (forall d : list (string * Value),
        staff_of_claims (Some d) =
        match dict_get "sub" d, dict_get "username" d with
        | Some sub, Some username =>
            if truthy sub then sub else if truthy username then username
            else VStr "unknown"
        | Some sub, None => if truthy sub then sub else VStr "unknown"
        | None, Some username => if truthy username then username else VStr "unknown"
        | None, None => VStr "unknown"
        end)
  /\ staff_of_claims None = VStr "unknown".
Proof.
  assert (Hbearer : forall auth,
            headers_get "x-staff-id" (headers request) = None
            \/ headers_get "x-staff-id" (headers request) = Some "" ->
            headers_get "authorization" (headers request) = Some auth ->
            prefix "bearer " (lower auth) = true ->
            parse_staff_id env request =
            match split "."%char (drop 7 auth) with
            | _ :: part1 :: _ => staff_of_claims (decode_claims env (payload_raw part1))
            | _ => VStr "unknown"
            end).
  { intros auth Hx Ha Hp. unfold parse_staff_id.
    assert (Hskip : match headers_get "x-staff-id" (headers request) with
                    | Some (String c rest) => False
                    | _ => True
                    end) by (destruct Hx as [-> | ->]; exact I).
    destruct (headers_get "x-staff-id" (headers request)) as [[|c rest]|];
      try contradiction; rewrite Ha; cbv zeta; rewrite Hp, (bearer_token auth Hp);
      destruct (split "."%char (drop 7 auth)) as [|p0 [|p1 ps]]; reflexivity. }
  assert (Htruthy : truthy (parse_staff_id env request) = true).
  { unfold parse_staff_id.
    destruct (headers_get "x-staff-id" (headers request)) as [[|c rest]|] eqn:Hx;
      try reflexivity;
      cbv zeta;
      (destruct (prefix "bearer " _) eqn:Hp; [|reflexivity]);
      (destruct (headers_get "authorization" (headers request)) as [auth|] eqn:Ha;
       [|discriminate Hp]);
      rewrite (bearer_token auth Hp);
      (destruct (split "."%char (drop 7 auth)) as [|p0 [|p1 ps]]; try reflexivity);
      apply (staff_of_claims_truthy (decode_claims env (payload_raw p1))). }
  split; [exact Htruthy|].
  split; [intros Habs; rewrite Habs in Htruthy; discriminate|].
  split; [|split; [intros Hskip; split|split]].
  - intros staff Hne Hx. unfold parse_staff_id. rewrite Hx.
    destruct staff; [contradiction | reflexivity].
  - intros auth. now apply Hbearer.
  - intros Ha. unfold parse_staff_id.
    destruct Hskip as [-> | ->]; cbv zeta;
      destruct (headers_get "authorization" (headers request)) as [auth|];
      try rewrite Ha; reflexivity.
  - intros d. unfold staff_of_claims, claim.
    destruct (dict_get "sub" d) as [sub|]; [destruct (truthy sub)|];
      destruct (dict_get "username" d) as [username|];
      try destruct (truthy username); reflexivity.
  - reflexivity.
Qed.

(** X13.  The text [parse_staff_id] hands to the base64 decoder is the
    segment followed by fewer than four equals signs, its length is a
    multiple of four, and a segment whose length is a multiple of four
    already gets none. *)
Theorem payload_raw_is_padded (part1 : string) :
  (String.length (payload_raw part1) mod 4 = 0)%nat
  /\ exists n, n < 4 /\ payload_raw part1 = part1 ++ equals_signs n
               /\ (String.length part1 mod 4 = 0 -> n = 0)%nat.
Proof.
  unfold payload_raw.
  set (len := String.length part1).
  assert (Hz : (0 <= (- Z.of_nat len) mod 4 < 4)%Z) by (apply Z.mod_pos_bound; lia).
  split.
  - rewrite append_length, equals_signs_length. fold len.
    apply Nat2Z.inj. rewrite Nat2Z.inj_mod, Nat2Z.inj_add, Z2Nat.id by lia.
    rewrite Zplus_mod_idemp_r. replace (Z.of_nat len + - Z.of_nat len)%Z with 0%Z by lia.
    reflexivity.
  - exists (Z.to_nat ((- Z.of_nat len) mod 4)). split; [lia|]. split; [reflexivity|].
    intros Hm. apply (f_equal Z.of_nat) in Hm. rewrite Nat2Z.inj_mod in Hm.
    simpl Z.of_nat in Hm.
    assert (H0 : ((- Z.of_nat len) mod 4 = 0)%Z).
    { apply Z.mod_opp_l_z; [lia | exact Hm]. }
    rewrite H0. reflexivity.
Qed.

(** ** Order numbers *)

Lemma zero_padded_length (w : nat) (n : N) : String.length (zero_padded w n) = w.
Proof.
  revert n. induction w as [|w IH]; intros n; simpl; [reflexivity|].
  rewrite append_length, IH. simpl. lia.
Qed.

Lemma append_inj (a a' b b' : string) :
  String.length a = String.length a' ->
  (a ++ b = a' ++ b')%string ->
  a = a' /\ b = b'.
Proof.
  revert a'. induction a as [|c a IH]; intros [|c' a']; simpl; try discriminate.
  - intros _ H. split; [reflexivity | exact H].
  - intros [= Hlen] [= -> H]. destruct (IH a' Hlen H) as [-> ->]. split; reflexivity.
Qed.

Lemma digit_inj (n m : N) : digit n = digit m -> (n mod 10 = m mod 10)%N.
Proof.
  unfold digit. intros H. apply (f_equal N_of_ascii) in H.
  assert (Hn : (n mod 10 < 10)%N) by (apply N.mod_lt; discriminate).
  assert (Hm : (m mod 10 < 10)%N) by (apply N.mod_lt; discriminate).
  rewrite !N_ascii_embedding in H by lia. lia.
Qed.

Lemma zero_padded_inj (w : nat) (n m : N) :
  (n < 10 ^ N.of_nat w)%N -> (m < 10 ^ N.of_nat w)%N ->
  zero_padded w n = zero_padded w m -> n = m.
Proof.
  revert n m. induction w as [|w IH]; intros n m Hn Hm H.
  - simpl in Hn, Hm. lia.
  - simpl zero_padded in H.
    apply append_inj in H; [|now rewrite !zero_padded_length].
    destruct H as [Hhigh Hlow]. injection Hlow as Hlow. apply digit_inj in Hlow.
    rewrite Nat2N.inj_succ, N.pow_succ_r' in Hn, Hm.
    assert (Hdiv : (n / 10 = m / 10)%N).
    { apply IH; [| |exact Hhigh]; apply N.Div0.div_lt_upper_bound; lia. }
    rewrite (N.div_mod' n 10), (N.div_mod' m 10). congruence.
Qed.

Lemma year_text_inj (y1 y2 : N) :
  (y1 < 10000)%N -> (y2 < 10000)%N ->
  String.length (year_text y1) = String.length (year_text y2) ->
  year_text y1 = year_text y2 -> y1 = y2.
Proof.
  unfold year_text. intros H1 H2.
  destruct (N.ltb_spec y1 10); [|destruct (N.ltb_spec y1 100); [|destruct (N.ltb_spec y1 1000)]];
    (destruct (N.ltb_spec y2 10);
     [|destruct (N.ltb_spec y2 100); [|destruct (N.ltb_spec y2 1000)]]);
    rewrite !zero_padded_length; intros Hlen; try discriminate Hlen;
    apply zero_padded_inj; simpl; lia.
Qed.

(** X14.  Two creation times with the same order number agree in year,
    month, day, hour, minute and second: the order number tells the second
    of the creation. *)
Theorem order_number_tells_the_second (dt1 dt2 : datetime) :
  printable dt1 -> printable dt2 ->
  order_number_at dt1 = order_number_at dt2 ->
  year dt1 = year dt2 /\ month dt1 = month dt2 /\ day dt1 = day dt2
  /\ hour dt1 = hour dt2 /\ minute dt1 = minute dt2 /\ second dt1 = second dt2.
Proof.
  intros (Hy1 & Hm1 & Hd1 & Hh1 & Hi1 & Hs1) (Hy2 & Hm2 & Hd2 & Hh2 & Hi2 & Hs2).
  unfold order_number_at. intros H.
  apply (append_inj "ORD-" "ORD-" _ _ eq_refl) in H. destruct H as [_ H].
  unfold strftime_YmdHMS in H.
  assert (Hlen : String.length (year_text (year dt1))
                 = String.length (year_text (year dt2))).
  { apply (f_equal String.length) in H.
    rewrite !append_length, !zero_padded_length in H. lia. }
  apply append_inj in H; [|exact Hlen]. destruct H as [Ey H].
  repeat match type of H with
         | (zero_padded ?w ?a ++ _ = zero_padded ?w ?b ++ _)%string =>
             let E := fresh "E" in
             apply append_inj in H; [|now rewrite !zero_padded_length];
             destruct H as [E H]
         end.
  split; [apply year_text_inj; assumption|].
  split; [apply (zero_padded_inj 2); [exact Hm1 | exact Hm2 | assumption]|].
  split; [apply (zero_padded_inj 2); [exact Hd1 | exact Hd2 | assumption]|].
  split; [apply (zero_padded_inj 2); [exact Hh1 | exact Hh2 | assumption]|].
  split; [apply (zero_padded_inj 2); [exact Hi1 | exact Hi2 | assumption]|].
  apply (zero_padded_inj 2); [exact Hs1 | exact Hs2 | assumption].
Qed.

(** ** Members and their verifications *)

Lemma decided_on_record_more (s s1 : Store) (m : Member.t) :
  (forall v, In v (member_verifications s) -> In v (member_verifications s1)) ->
  decided_on_record s m -> decided_on_record s1 m.
Proof.
  intros Hsub [H | (H & v & Hv & Hid & Hout)]; [left; exact H | right].
  split; [exact H|]. exists v. auto.
Qed.

Lemma in_update_where {Row : Type} (pk : Row -> string) (key : string) (f : Row -> Row)
    (rows : list Row) (r : Row) :
  In r (update_where pk key f rows) ->
  In r rows \/ exists old, In old rows /\ pk old = key /\ r = f old.
Proof.
  unfold update_where. intros H. apply in_map_iff in H. destruct H as (old & Hr & Hin).
  destruct (pk old =? key) eqn:E.
  - right. exists old. apply String.eqb_eq in E. auto.
  - left. now subst r.
Qed.

Lemma in_delete_where {Row : Type} (pk : Row -> string) (key : string)
    (rows : list Row) (r : Row) :
  In r (delete_where pk key rows) -> In r rows.
Proof. unfold delete_where. intros H. apply filter_In in H. tauto. Qed.

(** X15.  In every database the application can produce, the status of a
    member is PENDING, or it is VERIFIED or REJECTED and the verification
    history holds a decision on that member with that outcome. *)
Theorem member_status_is_on_record (s : Store) :
  reachable s -> Forall (decided_on_record s) (members s).
Proof.
  revert s. apply reachable_invariant.
  - constructor.
  - intros s e s1 _ IH Hstep. rewrite Forall_forall in IH. apply Forall_forall.
    destruct Hstep; try (exact IH);
      cbn [members set_members set_member_verifications set_suppliers set_products
           set_inventory_movements set_orders set_order_items]; intros m Hm.
    + apply in_app_or in Hm. destruct Hm as [Hm | [<- | []]].
      * eapply decided_on_record_more; [|exact (IH m Hm)]. auto.
      * left. assumption.
    + apply in_update_where in Hm. destruct Hm as [Hm | (old & Hold & _ & ->)].
      * eapply decided_on_record_more; [|exact (IH m Hm)]. auto.
      * eapply decided_on_record_more; [|exact (IH old Hold)]. auto.
    + apply in_delete_where in Hm.
      eapply decided_on_record_more; [|exact (IH m Hm)]. auto.
    + apply in_update_where in Hm. destruct Hm as [Hm | (old & Hold & Hid & ->)].
      * eapply decided_on_record_more; [|exact (IH m Hm)].
        cbn [member_verifications set_members set_member_verifications].
        intros x Hx. apply in_or_app. now left.
      * right. cbn [Member.status Member.id set_status]. split; [assumption|].
        exists v. cbn [member_verifications set_members set_member_verifications].
        split; [apply in_or_app; right; now left|]. split; congruence.
  - intros s evs H. rewrite Forall_forall in H. apply Forall_forall. intros m Hm.
    eapply decided_on_record_more; [|exact (H m Hm)]. auto.
Qed.

(** ** Where a new ledger row comes from *)


(** ** Writes that fail on a constraint *)

Lemma constraint_violation_writes_nothing (env : Env) (request : Request) (w : World)
    (msg : string) (w' : World) :
  call_next request env w = (Raise (IntegrityError msg), w') -> db w' = db w.
Proof.
  intros H. apply call_next_raised in H.
  destruct H as [[Habs _] | [(c & _ & Hc) | [Hrun _]]].
  - discriminate.
  - destruct (render_error_cases c _ Hc); discriminate.
  - exact (proj2 (handler_raises env request w _ w' Hrun)).
Qed.

(** X17.  When a constraint violation escapes the routed application, the
    middleware passes it on and the database, audit trail included, is as it
    was before the request: the failed write leaves no audit event.  A
    request to create a member under a member number that is taken ends in
    this way, with the error of the UNIQUE constraint on the number. *)
Theorem failed_insert_leaves_no_trace (env : Env) (request : Request) (s : Store) :
  (forall msg w',
      call_next request env (mk_world s 0 0) = (Raise (IntegrityError msg), w') ->
      serve env request s = (Raise (IntegrityError msg), w')
      /\ store_after env request s = s)
  /\ (forall payload,
      endpoint request = CreateMember payload ->
      has_value Member.member_number (MemberIn.member_number payload) (members s) = true ->
      call_next request env (mk_world s 0 0)
      = (Raise (IntegrityError "UNIQUE constraint failed: members.member_number"),
         mk_world s 1 1)).
Proof.
  split.
  - intros msg w' H.
    pose proof (constraint_violation_writes_nothing env request _ msg w' H) as Hdb.
    unfold store_after. rewrite serve_run, H. cbn [snd]. auto.
  - intros payload He Hdup. rewrite call_next_run. unfold handler. rewrite He.
    cbn [validates]. rewrite create_member_run. cbv zeta. rewrite Hdup. reflexivity.
Qed.

(** ** Members that are deleted while they have orders *)

Lemma finalize_order_member_missing (env : Env) (request : Request) (order_id : string)
    (s : Store) (k c : nat) (o : Order.t) :
  fetchone Order.id order_id (orders s) = Some o ->
  Order.status o <> "COMPLETED" ->
  status_of (Order.member_id o) s = None ->
  finalize_order order_id request env (mk_world s k c)
  = (Raise (HTTPException 404 "Member not found"), mk_world s k (S c)).
Proof.
  intros H Hst Hm. unfold finalize_order.
  cbv beta iota delta [bind utc_now datetime_now ret db_conn select raise].
  cbn [db uuid_calls clock_calls]. rewrite H.
  apply String.eqb_neq in Hst. rewrite Hst.
  rewrite require_verified_member_run. cbn [db]. rewrite Hm. reflexivity.
Qed.

Lemma create_order_member_missing (env : Env) (request : Request)
    (payload : OrderCreateIn.t) (s : Store) (k c : nat) :
  OrderCreateIn.items payload <> [] ->
  status_of (OrderCreateIn.member_id payload) s = None ->
  create_order payload request env (mk_world s k c)
  = (Raise (HTTPException 404 "Member not found"), mk_world s (S k) (S (S c))).
Proof.
  intros Hitems Hm. unfold create_order.
  destruct (OrderCreateIn.items payload) as [|item rest]; [congruence|].
  monad_unfold. rewrite require_verified_member_run. cbn [db]. rewrite Hm. reflexivity.
Qed.

(** X18.  [delete_member] does not look at the orders of the member: when it
    returns, the orders, the order lines and the verifications are as they
    were, and from then on the finalization of an order of that member that
    is not COMPLETED, and a new order with items for that member, raise 404
    with the detail that the member is not found. *)
Theorem deleted_member_strands_its_orders (env : Env) (member_id : string) (s : Store)
    (content : Content) (w' : World) :
  run (delete_member member_id) env s = (Return content, w') ->
  orders (db w') = orders s
  /\ order_items (db w') = order_items s
  /\ member_verifications (db w') = member_verifications s
  /\ (forall env' request order_id o,
        fetchone Order.id order_id (orders s) = Some o ->
        Order.member_id o = member_id ->
        Order.status o <> "COMPLETED" ->
        run (finalize_order order_id request) env' (db w')
        = (Raise (HTTPException 404 "Member not found"), mk_world (db w') 0 1))
  /\ (forall env' request payload,
        OrderCreateIn.member_id payload = member_id ->
        OrderCreateIn.items payload <> [] ->
        run (create_order payload request) env' (db w')
        = (Raise (HTTPException 404 "Member not found"), mk_world (db w') 1 2)).
Proof.
  unfold run. rewrite delete_member_run.
  destruct (Nat.eqb _ 0); [discriminate|]. intros [= <- <-]. cbn [db].
  assert (Hgone : status_of member_id
                    (set_members (delete_where Member.id member_id (members s)) s) = None).
  { unfold status_of. cbn [members set_members]. now rewrite fetchone_deleted. }
  split; [reflexivity|]. split; [reflexivity|]. split; [reflexivity|]. split.
  - intros env' request order_id o Ho Hmem Hst.
    apply finalize_order_member_missing with (o := o); [exact Ho | exact Hst|].
    rewrite Hmem. exact Hgone.
  - intros env' request payload Hmem Hitems.
    apply create_order_member_missing; [exact Hitems|]. rewrite Hmem. exact Hgone.
Qed.

(** ** Orders that are placed *)

Lemma create_order_returns (env : Env) (request : Request) (payload : OrderCreateIn.t)
    (s : Store) (k c : nat) (staff : string) :
  stored_staff_id env request = Some staff ->
  OrderCreateIn.items payload <> [] ->
  forallb valid_item (OrderCreateIn.items payload) = true ->
  status_of (OrderCreateIn.member_id payload) s = Some "VERIFIED" ->
  has_value Order.id (uuid_values env k) (orders s) = false ->
  has_value Order.order_number (order_number_at (clock_values env (S c))) (orders s) = false ->
  fresh_ids (uuids_from env (S k) (List.length (OrderCreateIn.items payload)))
            (map OrderItem.id (order_items s)) ->
  exists listed,
    create_order payload request env (mk_world s k c)
    = (Return (OrderWithItemsJson (placed_order env staff payload k c) listed),
       mk_world
         (set_order_items
            (order_items s
             ++ order_item_rows env (S k) (uuid_values env k)
                  (isoformat (clock_values env c)) (OrderCreateIn.items payload))%list
            (set_orders (orders s ++ [placed_order env staff payload k c])%list s))
         (S k + List.length (OrderCreateIn.items payload)) (S (S c))).
Proof.
  intros Hstaff Hitems Hvalid Hm Hid Hnum Hfresh.
  destruct (create_order payload request env (mk_world s k c)) as [r w'] eqn:Hrun.
  pose proof Hrun as Hcases. apply create_order_cases in Hcases.
  destruct Hcases as [(e & -> & Hdb)
                     | (staff' & Hstaff' & _ & _ & _ & _ & (listed & ->) & ->)].
  2:{ assert (staff' = staff) as -> by congruence. exists listed; reflexivity. }
  exfalso. revert Hrun. unfold create_order.
  destruct (OrderCreateIn.items payload) as [|item rest] eqn:Eitems; [congruence|].
  assert (Hall : Forall (fun it => valid_item it = true) (item :: rest)).
  { apply Forall_forall. intros x Hx. exact (proj1 (forallb_forall _ _) Hvalid x Hx). }
  monad_unfold. rewrite require_verified_member_run. cbn [db]. rewrite Hm.
  cbn [String.eqb Ascii.eqb Bool.eqb]. unfold insert_order. monad_unfold.
  rewrite (adapt_stored _ _ _ Hstaff). monad_unfold.
  cbn [Order.id Order.order_number]. rewrite Hnum. monad_unfold.
  rewrite Hid. monad_unfold.
  match goal with
  | |- context [for_each ?l ?b env ?w] =>
      rewrite (for_each_order_items_returns env (uuid_values env k)
                 (isoformat (clock_values env c)) (item :: rest)
                 (set_orders (orders s ++ [placed_order env staff payload k c])%list s)
                 (S k) (S (S c)) Hfresh Hall
               : for_each l b env w = _)
  end.
  monad_unfold. cbn [orders set_orders set_order_items].
  fold (placed_order env staff payload k c).
  change (uuid_values env k) with (Order.id (placed_order env staff payload k c)) at 1.
  rewrite (fetchone_inserted Order.id (orders s) (placed_order env staff payload k c) Hid).
  discriminate.
Qed.

(** X19.  [create_order] returns for a payload with at least one item, all
    of them valid, a VERIFIED member, a staff id that the database stores as
    the text [staff], and an order id, an order number and line ids that
    are new: it appends the order, PLACED and not completed, for the member
    and under [staff], and one line for each item, and leaves the ledger and
    the products as they were. *)
Theorem verified_member_places_an_order (env : Env) (request : Request)
    (payload : OrderCreateIn.t) (s : Store) (staff : string) :
  stored_staff_id env request = Some staff ->
  OrderCreateIn.items payload <> [] ->
  forallb valid_item (OrderCreateIn.items payload) = true ->
  status_of (OrderCreateIn.member_id payload) s = Some "VERIFIED" ->
  has_value Order.id (uuid_values env 0) (orders s) = false ->
  has_value Order.order_number (order_number_at (clock_values env 1)) (orders s) = false ->
  fresh_ids (uuids_from env 1 (List.length (OrderCreateIn.items payload)))
            (map OrderItem.id (order_items s)) ->
  exists o listed rows w',
    run (create_order payload request) env s = (Return (OrderWithItemsJson o listed), w')
    /\ Order.id o = uuid_values env 0
    /\ Order.member_id o = OrderCreateIn.member_id payload
    /\ Order.status o = "PLACED"
    /\ Order.completed_at o = None
    /\ Order.ordered_by_staff_id o = staff
    /\ orders (db w') = (orders s ++ [o])%list
    /\ order_items (db w') = (order_items s ++ rows)%list
    /\ Forall2 (line_of (Order.id o)) (OrderCreateIn.items payload) rows
    /\ inventory_movements (db w') = inventory_movements s
    /\ products (db w') = products s.
Proof.
  intros Hstaff Hitems Hvalid Hm Hid Hnum Hfresh.
  destruct (create_order_returns env request payload s 0 0 staff Hstaff Hitems Hvalid Hm
              Hid Hnum Hfresh) as [listed Hrun].
  exists (placed_order env staff payload 0 0), listed.
  eexists. eexists. split; [exact Hrun|].
  cbn [db orders order_items set_orders set_order_items inventory_movements products].
  repeat (split; [reflexivity|]). split; [|split; reflexivity].
  apply order_item_rows_lines.
Qed.

(** ** Decisions on members *)

(** X20.  [verify_member] does not look at the current status of the member:
    for a stored member, a staff id that the database stores as the text
    [staff] and a new verification id it returns the member with the
    outcome as its status, whatever the status was, sets that status in the
    table, and appends the decision, with [staff], the notes and the
    document reference, to the history. *)
Theorem a_decision_can_be_revised (env : Env) (request : Request) (member_id : string)
    (payload : MemberVerifyIn.t) (s : Store) (m : Member.t) (staff : string) :
  fetchone Member.id member_id (members s) = Some m ->
  stored_staff_id env request = Some staff ->
  has_value MemberVerification.id (uuid_values env 0) (member_verifications s) = false ->
  let now := isoformat (clock_values env 0) in
  let v := MemberVerification.mk (uuid_values env 0) member_id
             (MemberVerifyIn.outcome payload) staff
             (MemberVerifyIn.notes payload) (MemberVerifyIn.document_ref payload) now now in
  exists w',
    run (verify_member member_id payload request) env s
    = (Return (MemberJson (Some (set_status (MemberVerifyIn.outcome payload) now m))), w')
    /\ member_verifications (db w') = (member_verifications s ++ [v])%list
    /\ status_of member_id (db w') = Some (MemberVerifyIn.outcome payload)
    /\ members (db w')
       = update_where Member.id member_id
           (set_status (MemberVerifyIn.outcome payload) now) (members s).
Proof.
  intros Hm Hstaff Hid now v. subst now v.
  unfold run, verify_member, insert_member_verification, status_of. monad_unfold.
  rewrite Hm. monad_unfold. rewrite (adapt_stored _ _ _ Hstaff). monad_unfold.
  cbn [MemberVerification.id]. rewrite Hid.
  monad_unfold. cbn [members set_members set_member_verifications].
  rewrite (fetchone_update_where Member.id member_id
             (set_status (MemberVerifyIn.outcome payload) (isoformat (clock_values env 0)))
             (members s) m (fun x => eq_refl) Hm).
  eexists. split; [reflexivity|].
  cbn [db members member_verifications set_members set_member_verifications].
  split; [reflexivity|]. split; [|reflexivity].
  rewrite (fetchone_update_where Member.id member_id
             (set_status (MemberVerifyIn.outcome payload) (isoformat (clock_values env 0)))
             (members s) m (fun x => eq_refl) Hm).
  reflexivity.
Qed.

(** * The further theorems on the scenario *)

Lemma write_footprint_witness :
  Members <> AuditEvents
  /\ ~ In Members (writes (endpoint (demo_request (CreateOrder demo_order))))
  /\ same_table Members with_verified_member
       (store_after (demo_env "o") (demo_request (CreateOrder demo_order))
          with_verified_member).
Proof.
  assert (H1 : Members <> AuditEvents) by discriminate.
  assert (H2 : ~ In Members (writes (endpoint (demo_request (CreateOrder demo_order)))))
    by (simpl; intuition discriminate).
  split; [exact H1|]. split; [exact H2|].
  exact (write_footprint (demo_env "o") (demo_request (CreateOrder demo_order))
           with_verified_member Members H1 H2).
Defined.

Lemma audit_trail_is_append_only_witness :
  is_write_method (http_method_of (endpoint query_request)) = true
  /\ exists ev,
       audit_events (store_after (demo_env "s") query_request empty_store)
       = (audit_events empty_store ++ [ev])%list
       /\ AuditEvent.entity_id ev = "/suppliers"
       /\ AuditEvent.actor_id ev = Some "staff-123"
       /\ AuditEvent.actor_type ev = "STAFF"
       /\ query (AuditEvent.event_data ev) = [("a", "3"); ("b", "2")].
Proof.
  split; [reflexivity|].
  destruct (audit_trail_is_append_only (demo_env "s") query_request empty_store)
    as (evs & Hevs & _ & _ & Hall).
  assert (Hrun : audit_events (store_after (demo_env "s") query_request empty_store)
                 = [audit_event_of (demo_env "s") query_request
                      (mk_response 200
                         (SupplierJson (new_supplier "s-000" demo_supplier
                                          (isoformat demo_clock) (isoformat demo_clock))))
                      (Some "staff-123") 1 1])
    by (vm_compute; reflexivity).
  rewrite Hrun in Hevs.
  change (audit_events empty_store ++ evs)%list with evs in Hevs. subst evs.
  inversion Hall as [|ev rest (Hentity & Hactor & Htype) _]; subst.
  eexists. split; [exact Hrun|]. split; [exact Hentity|].
  split; [reflexivity|]. split; [exact Htype | reflexivity].
Defined.

Lemma ledger_sign_follows_type_witness :
  reachable with_finalized_order
  /\ Forall sign_by_type (inventory_movements with_finalized_order).
Proof.
  assert (H : reachable with_finalized_order) by reachable_by_steps.
  split; [exact H|]. exact (ledger_sign_follows_type with_finalized_order H).
Defined.

Lemma orders_and_lines_are_linked_witness :
  reachable with_order
  /\ In demo_placed_order (orders with_order)
  /\ exists it, In it (order_items with_order)
                /\ OrderItem.order_id it = Order.id demo_placed_order.
Proof.
  assert (H : reachable with_order) by reachable_by_steps.
  assert (Hin : In demo_placed_order (orders with_order)) by (vm_compute; left; reflexivity).
  split; [exact H|]. split; [exact Hin|].
  exact (proj2 (orders_and_lines_are_linked with_order H) demo_placed_order Hin).
Defined.

Lemma finalize_never_finds_an_empty_order_witness :
  reachable with_finalized_order
  /\ exists w',
       run (finalize_order "o-000" (demo_request (FinalizeOrder "o-000")))
           (demo_env "f2") with_finalized_order = (Raise AlreadyFinalized, w')
       /\ AlreadyFinalized <> EmptyOrder_finalize.
Proof.
  assert (H : reachable with_finalized_order) by reachable_by_steps.
  split; [exact H|]. eexists.
  assert (Hrun : run (finalize_order "o-000" (demo_request (FinalizeOrder "o-000")))
                     (demo_env "f2") with_finalized_order
                 = (Raise AlreadyFinalized, mk_world with_finalized_order 0 1))
    by (vm_compute; reflexivity).
  split; [exact Hrun|].
  exact (proj1 (finalize_never_finds_an_empty_order (demo_env "f2")
                  (demo_request (FinalizeOrder "o-000")) "o-000" with_finalized_order
                  _ _ H Hrun)).
Defined.

Lemma failure_writes_nothing_witness :
  (exists response w',
     call_next (demo_request (CreateOrder demo_order)) (demo_env "o")
       (mk_world with_member 0 0) = (Return response, w')
     /\ response_status response = 400%Z
     /\ db w' = with_member)
  /\ (exists w',
       call_next (demo_request (InventoryReceive endless_receive)) (demo_env "r")
         (mk_world with_product 0 0) = (Raise ValueError, w')
       /\ map InventoryMovement.quantity (inventory_movements (db w')) = [infinity]
       /\ inventory_movements with_product = []
       /\ exists c,
            handler (demo_request (InventoryReceive endless_receive)) (demo_env "r")
              (mk_world with_product 0 0) = (Return c, w')
            /\ render_error c = Some ValueError).
Proof.
  split.
  - eexists _, _.
    assert (Hrun : call_next (demo_request (CreateOrder demo_order)) (demo_env "o")
                     (mk_world with_member 0 0)
                   = (Return (mk_response 400
                                (DetailJson
                                   "Member must be VERIFIED before orders can be created/finalized")),
                      mk_world with_member 1 2))
      by (vm_compute; reflexivity).
    split; [exact Hrun|]. split; [reflexivity|].
    exact (proj1 (proj2 (proj2 (failure_writes_nothing (demo_env "o")
                                  (demo_request (CreateOrder demo_order))
                                  (mk_world with_member 0 0))))
             _ _ Hrun ltac:(discriminate)).
  - eexists.
    assert (Hrun : call_next (demo_request (InventoryReceive endless_receive)) (demo_env "r")
                     (mk_world with_product 0 0)
                   = (Raise ValueError,
                      mk_world
                        (set_inventory_movements
                           [policy_row (demo_env "r") "staff-123" "RECEIVE"
                              endless_receive 0 0] with_product) 1 1))
      by (vm_compute; reflexivity).
    split; [exact Hrun|]. split; [reflexivity|]. split; [reflexivity|].
    destruct (proj1 (proj2 (failure_writes_nothing (demo_env "r")
                              (demo_request (InventoryReceive endless_receive))
                              (mk_world with_product 0 0))) _ _ Hrun)
      as [Hdb | [_ Hc]]; [|exact Hc].
    apply (f_equal inventory_movements) in Hdb. vm_compute in Hdb. discriminate Hdb.
Defined.

Lemma handlers_raise_only_the_foreseen_witness :
  parse_staff_id list_token_env (token_request (InventoryReceive demo_receive))
  = VList [VStr "a"]
  /\ exists e w',
    handler (token_request (InventoryReceive demo_receive)) list_token_env
      (mk_world with_product 0 0) = (Raise e, w')
    /\ e = ProgrammingError "Error binding parameter 6: type 'list' is not supported"
    /\ foreseen e.
Proof.
  split; [vm_compute; reflexivity|].
  eexists _, _.
  assert (Hrun : handler (token_request (InventoryReceive demo_receive)) list_token_env
                   (mk_world with_product 0 0)
                 = (Raise (ProgrammingError
                             "Error binding parameter 6: type 'list' is not supported"),
                    mk_world with_product 1 1))
    by (vm_compute; reflexivity).
  split; [exact Hrun|]. split; [reflexivity|].
  exact (proj1 (handlers_raise_only_the_foreseen list_token_env
                  (token_request (InventoryReceive demo_receive))
                  (mk_world with_product 0 0)) _ _ Hrun).
Defined.


Lemma product_round_trip_witness :
  exists content w',
    run (create_product demo_product) (demo_env "p") empty_store = (Return content, w')
    /\ run (get_product "p-000") (demo_env "r") (db w')
       = (Return content, mk_world (db w') 0 0).
Proof.
  eexists _, _.
  assert (Hrun : run (create_product demo_product) (demo_env "p") empty_store
                 = (Return (ProductJson
                              (new_product "p-000" demo_product (isoformat demo_clock)
                                 (isoformat demo_clock))),
                    mk_world (set_products
                                [new_product "p-000" demo_product (isoformat demo_clock)
                                   (isoformat demo_clock)] empty_store) 1 1))
    by (vm_compute; reflexivity).
  split; [exact Hrun|].
  exact (proj1 (proj2 (proj2 (proj1 (product_round_trip (demo_env "p") (demo_env "r")
                                       empty_store) demo_product _ _ Hrun)))).
Defined.

Lemma supplier_round_trip_witness :
  exists content w',
    run (create_supplier demo_supplier) (demo_env "s") empty_store = (Return content, w')
    /\ run (get_supplier "s-000") (demo_env "r") (db w')
       = (Return content, mk_world (db w') 0 0).
Proof.
  eexists _, _.
  assert (Hrun : run (create_supplier demo_supplier) (demo_env "s") empty_store
                 = (Return (SupplierJson
                              (new_supplier "s-000" demo_supplier (isoformat demo_clock)
                                 (isoformat demo_clock))),
                    mk_world (set_suppliers
                                [new_supplier "s-000" demo_supplier (isoformat demo_clock)
                                   (isoformat demo_clock)] empty_store) 1 1))
    by (vm_compute; reflexivity).
  split; [exact Hrun|].
  exact (proj1 (proj2 (proj2 (proj1 (supplier_round_trip (demo_env "s") (demo_env "r")
                                       empty_store) demo_supplier _ _ Hrun)))).
Defined.

Lemma staff_id_sources_witness :
  headers_get "x-staff-id" (headers (token_request StaffLogin)) = None
  /\ prefix "bearer " (lower ("Bearer " ++ demo_token)) = true
  /\ parse_staff_id token_env (token_request StaffLogin) = VStr "staff-7"
  /\ parse_staff_id list_token_env (token_request StaffLogin) = VList [VStr "a"].
Proof.
  split; [reflexivity|]. split; [reflexivity|]. split.
  - rewrite (proj1 (proj1 (proj2 (proj2 (proj2
               (staff_id_sources token_env (token_request StaffLogin)))))
                      (or_introl eq_refl))
               ("Bearer " ++ demo_token) eq_refl eq_refl).
    vm_compute. reflexivity.
  - rewrite (proj1 (proj1 (proj2 (proj2 (proj2
               (staff_id_sources list_token_env (token_request StaffLogin)))))
                      (or_introl eq_refl))
               ("Bearer " ++ demo_token) eq_refl eq_refl).
    vm_compute. reflexivity.
Defined.

Lemma payload_raw_is_padded_witness :
  (String.length "eyJzdWIiOiJzdGFmZi03In0" mod 4 = 3)%nat
  /\ (String.length (payload_raw "eyJzdWIiOiJzdGFmZi03In0") mod 4 = 0)%nat.
Proof.
  split; [reflexivity|].
  exact (proj1 (payload_raw_is_padded "eyJzdWIiOiJzdGFmZi03In0")).
Defined.

Lemma order_number_tells_the_second_witness :
  printable demo_clock
  /\ order_number_at (mk_datetime 2024 5 17 9 30 12 250000) = order_number_at demo_clock
  /\ second (mk_datetime 2024 5 17 9 30 12 250000) = second demo_clock.
Proof.
  assert (H1 : printable (mk_datetime 2024 5 17 9 30 12 250000))
    by (vm_compute; intuition reflexivity).
  assert (H2 : printable demo_clock) by (vm_compute; intuition reflexivity).
  assert (H3 : order_number_at (mk_datetime 2024 5 17 9 30 12 250000)
               = order_number_at demo_clock) by reflexivity.
  split; [exact H2|]. split; [exact H3|].
  exact (proj2 (proj2 (proj2 (proj2 (proj2
           (order_number_tells_the_second _ _ H1 H2 H3)))))).
Defined.

Lemma member_status_is_on_record_witness :
  reachable with_verified_member
  /\ Forall (decided_on_record with_verified_member) (members with_verified_member).
Proof.
  assert (H : reachable with_verified_member) by reachable_by_steps.
  split; [exact H|]. exact (member_status_is_on_record with_verified_member H).
Defined.

Lemma failed_insert_leaves_no_trace_witness :
  has_value Member.member_number (MemberIn.member_number demo_member) (members with_member)
  = true
  /\ call_next (demo_request (CreateMember demo_member)) (demo_env "m2")
       (mk_world with_member 0 0)
     = (Raise (IntegrityError "UNIQUE constraint failed: members.member_number"),
        mk_world with_member 1 1)
  /\ store_after (demo_env "m2") (demo_request (CreateMember demo_member)) with_member
     = with_member.
Proof.
  assert (Hdup : has_value Member.member_number (MemberIn.member_number demo_member)
                   (members with_member) = true) by (vm_compute; reflexivity).
  split; [exact Hdup|].
  pose proof (proj2 (failed_insert_leaves_no_trace (demo_env "m2")
                       (demo_request (CreateMember demo_member)) with_member)
                demo_member eq_refl Hdup) as Hrun.
  split; [exact Hrun|].
  exact (proj2 (proj1 (failed_insert_leaves_no_trace (demo_env "m2")
                         (demo_request (CreateMember demo_member)) with_member)
                  _ _ Hrun)).
Defined.

Lemma deleted_member_strands_its_orders_witness :
  fetchone Order.id "o-000" (orders with_order) = Some demo_placed_order
  /\ exists content w',
       run (delete_member "m-000") (demo_env "d") with_order = (Return content, w')
       /\ run (finalize_order "o-000" (demo_request (FinalizeOrder "o-000")))
              (demo_env "f") (db w')
          = (Raise (HTTPException 404 "Member not found"), mk_world (db w') 0 1).
Proof.
  assert (Ho : fetchone Order.id "o-000" (orders with_order) = Some demo_placed_order)
    by (vm_compute; reflexivity).
  split; [exact Ho|]. eexists _, _.
  assert (Hrun : run (delete_member "m-000") (demo_env "d") with_order
                 = (Return DeletedJson,
                    mk_world (set_members (delete_where Member.id "m-000" (members with_order))
                                with_order) 0 0))
    by (vm_compute; reflexivity).
  split; [exact Hrun|].
  exact (proj1 (proj2 (proj2 (proj2
           (deleted_member_strands_its_orders (demo_env "d") "m-000" with_order _ _ Hrun))))
           (demo_env "f") (demo_request (FinalizeOrder "o-000")) "o-000" demo_placed_order
           Ho eq_refl ltac:(discriminate)).
Defined.

Lemma verified_member_places_an_order_witness :
  status_of "m-000" with_verified_member = Some "VERIFIED"
  /\ stored_staff_id (demo_env "o") (demo_request (CreateOrder demo_order))
     = Some "staff-123"
  /\ exists o listed rows w',
       run (create_order demo_order (demo_request (CreateOrder demo_order)))
           (demo_env "o") with_verified_member
       = (Return (OrderWithItemsJson o listed), w')
       /\ Order.ordered_by_staff_id o = "staff-123"
       /\ orders (db w') = (orders with_verified_member ++ [o])%list
       /\ order_items (db w') = (order_items with_verified_member ++ rows)%list
       /\ inventory_movements (db w') = inventory_movements with_verified_member.
Proof.
  assert (Hm : status_of "m-000" with_verified_member = Some "VERIFIED")
    by (vm_compute; reflexivity).
  split; [exact Hm|]. split; [evaluate|].
  destruct (verified_member_places_an_order (demo_env "o")
              (demo_request (CreateOrder demo_order)) demo_order with_verified_member
              "staff-123")
    as (o & listed & rows & w' & Hrun & _ & _ & _ & _ & Hstaff & Ho & Hrows & _ & Hmov & _).
  - evaluate.
  - discriminate.
  - evaluate.
  - exact Hm.
  - evaluate.
  - evaluate.
  - fresh_by_evaluation.
  - exists o, listed, rows, w'. auto.
Defined.

Lemma a_decision_can_be_revised_witness :
  status_of "m-000" with_verified_member = Some "VERIFIED"
  /\ stored_staff_id (demo_env "v2") (demo_request (VerifyMember "m-000" demo_rejection))
     = Some "staff-123"
  /\ exists w',
       run (verify_member "m-000" demo_rejection
              (demo_request (VerifyMember "m-000" demo_rejection)))
           (demo_env "v2") with_verified_member
       = (Return (MemberJson
                    (Some (set_status "REJECTED" (isoformat demo_clock)
                             (Member.mk "m-000" "M-001" "Jane" "Doe" None None
                                (Some "jane@example.com") "VERIFIED"
                                (isoformat demo_clock) (isoformat demo_clock))))),
          w')
       /\ status_of "m-000" (db w') = Some "REJECTED"
       /\ map MemberVerification.outcome (member_verifications (db w'))
          = ["VERIFIED"; "REJECTED"].
Proof.
  split; [evaluate|]. split; [evaluate|].
  destruct (a_decision_can_be_revised (demo_env "v2")
              (demo_request (VerifyMember "m-000" demo_rejection)) "m-000" demo_rejection
              with_verified_member
              (Member.mk "m-000" "M-001" "Jane" "Doe" None None
                 (Some "jane@example.com") "VERIFIED"
                 (isoformat demo_clock) (isoformat demo_clock))
              "staff-123")
    as (w' & Hrun & Hhist & Hst & _).
  - evaluate.
  - evaluate.
  - evaluate.
  - exists w'. split; [exact Hrun|]. split; [exact Hst|].
    rewrite Hhist. vm_compute. reflexivity.
Defined.
